(** * RoadForms: forms, submissions, analytics and conversion tracking

    A shallow embedding of the RoadForms workers:
    - the form application (routes [/forms/:id/submit], [/forms/:id/export],
      and the helpers [validateField] and [generateFormHTML]);
    - [src/analytics/index.ts]: [FormAnalyticsCollector], [ABTestManager],
      and the conversion half of the same file: [FormABTestManager] and
      [CustomerJourneyTracker].

    Conventions of the embedding.
    - A JavaScript string is a [string]; each character stands for one
      UTF-16 code unit below 256.
    - A JavaScript [number] that holds a count, a length, a position or a
      timestamp is a [Z]; one that holds a measure, a rate or an average is
      an exact rational [Q] (floating-point rounding is not modelled), except
      for the rates of [ConversionTracker], which are IEEE 754 doubles
      ([float]) computed with the operations of the source.
    - A KV namespace is a record of finite maps, one per shape of value,
      each keyed by the full key string the source builds; the source reads
      every key with a cast to the shape it wrote there.  Expiry ([expirationTtl])
      is not modelled.
    - Handlers are written in a state monad over the store; [await] in the
      source is the bind of that monad.
    - [Date.now()] and [crypto.randomUUID()] are inputs of the operation that
      calls them. *)

From Stdlib Require Import ZArith QArith String Ascii List Lia Lqa.
From Stdlib Require Import Floats Uint63.
From stdpp Require Import base gmap strings list sorting pretty.

Set Warnings "-register-all".
Local Open Scope Z_scope.

(** ** State monad *)

Module St.
Definition M (S A : Type) : Type := S → A * S.

Definition ret {S A} (a : A) : M S A := λ s, (a, s).

Definition bind {S A B} (m : M S A) (k : A → M S B) : M S B :=
  λ s, let '(a, s') := m s in k a s'.

Definition gets {S A} (f : S → A) : M S A := λ s, (f s, s).

Definition modify {S} (f : S → S) : M S unit := λ s, (tt, f s).

(** [for (const x of xs) { await body(x) }] *)
Fixpoint forEach {S A} (xs : list A) (body : A → M S unit) : M S unit :=
  match xs with
  | [] => ret tt
  | x :: rest => bind (body x) (λ _, forEach rest body)
  end.

(** Sequential [await] of one computation per element, results in order. *)
Fixpoint mapM {S A B} (f : A → M S B) (xs : list A) : M S (list B) :=
  match xs with
  | [] => ret []
  | x :: rest => bind (f x) (λ y, bind (mapM f rest) (λ ys, ret (y :: ys)))
  end.
End St.

Notation "'await' x <- m ; k" := (St.bind m (λ x, k))
  (at level 10, x name, m at level 100, k at level 200,
   format "'[v' 'await'  x  <-  m ; '/' k ']'").
Notation "'await!' m ; k" := (St.bind m (λ _, k))
  (at level 10, m at level 100, k at level 200,
   format "'[v' 'await!'  m ; '/' k ']'").

(** ** JavaScript values and coercions *)

Module JS.

(** The double-quote character and the newline, as one-character strings. *)
Definition dquote : string := String "034"%char "".
Definition newline : string := String "010"%char "".

(** A JSON value, as [c.req.json()] and [JSON.parse] return it. *)
Inductive jvalue : Type :=
| JNull
| JBool (b : bool)
| JNum (q : Q)
| JStr (s : string)
| JArr (items : list jvalue)
| JObj (members : list (string * jvalue)).

(** What [o[key]] reads from an object that [JSON.parse] built: the JSON
    value under an own key or, when the object has no such key, the member
    of [Object.prototype] of that name: a built-in function, or for the key
    [__proto__] the prototype object itself. *)
Inductive any : Type :=
| Json (v : jvalue)
| NativeFunction (name : string)
| ObjectPrototype.

(** The result of [parseFloat]. *)
Inductive jsnumber : Type :=
| NaN
| Num (q : Q)
| Infinity (positive : bool).

Definition isNaN (n : jsnumber) : bool :=
  match n with NaN => true | _ => false end.

Definition Qlt_bool (a b : Q) : bool := negb (Qle_bool b a).

(** [n < m] and [n > m] for a finite [m]. *)
Definition num_lt (n : jsnumber) (m : Q) : bool :=
  match n with
  | NaN => false
  | Num q => Qlt_bool q m
  | Infinity positive => negb positive
  end.

Definition num_gt (n : jsnumber) (m : Q) : bool :=
  match n with
  | NaN => false
  | Num q => Qlt_bool m q
  | Infinity positive => positive
  end.

(** ToBoolean on a value read from an object: [undefined] is [None]. *)
Definition truthy (v : option jvalue) : bool :=
  match v with
  | None => false
  | Some JNull => false
  | Some (JBool b) => b
  | Some (JNum q) => negb (Qeq_bool q 0)
  | Some (JStr s) => negb (String.eqb s "")
  | Some (JArr _) => true
  | Some (JObj _) => true
  end.

(** The falsy values of a field of a JSON object: absent, [null], [false],
    zero, the empty string. *)
Inductive Falsy : option jvalue → Prop :=
| Falsy_undefined : Falsy None
| Falsy_null : Falsy (Some JNull)
| Falsy_false : Falsy (Some (JBool false))
| Falsy_zero (q : Q) : (q == 0)%Q → Falsy (Some (JNum q))
| Falsy_empty : Falsy (Some (JStr "")).

(** The functions that every object inherits from [Object.prototype] under
    their own name. *)
Definition objectMethods : list string :=
  ["__defineGetter__"; "__defineSetter__"; "hasOwnProperty";
   "__lookupGetter__"; "__lookupSetter__"; "isPrototypeOf";
   "propertyIsEnumerable"; "toString"; "valueOf"; "toLocaleString"].

(** The member of [Object.prototype] named [key]: [constructor] is the
    function [Object], [__proto__] reads the prototype of the object, which
    for a parsed object is [Object.prototype]. *)
Definition inherited (key : string) : option any :=
  if String.eqb key "__proto__" then Some ObjectPrototype
  else if String.eqb key "constructor" then Some (NativeFunction "Object")
  else if existsb (String.eqb key) objectMethods then Some (NativeFunction key)
  else None.

(** [o[key]] on a parsed JSON object: [undefined] is [None]. *)
Definition getProperty (o : gmap string jvalue) (key : string) : option any :=
  match o !! key with
  | Some v => Some (Json v)
  | None => inherited key
  end.

(** ToBoolean on what [o[key]] reads: functions and objects are truthy. *)
Definition truthyAny (v : option any) : bool :=
  match v with
  | Some (Json v) => truthy (Some v)
  | Some (NativeFunction _) => true
  | Some ObjectPrototype => true
  | None => false
  end.

(** ToBoolean on an optional string, an optional number. *)
Definition truthyStr (s : option string) : bool :=
  match s with Some s => negb (String.eqb s "") | None => false end.

Definition truthyZ (n : option Z) : bool :=
  match n with Some n => negb (n =? 0) | None => false end.

(** [s || d] on an optional string. *)
Definition orElse (s : option string) (d : string) : string :=
  match s with
  | Some s => if String.eqb s "" then d else s
  | None => d
  end.

(** What the host provides and the source only calls: number formatting,
    [parseFloat] on a string, a regular-expression engine for patterns
    supplied by form authors ([None]: the pattern does not compile and
    [new RegExp] throws), [Date.prototype.toISOString], and the source text
    of a built-in function, given its name. *)
Record Host : Type := {
  numToString : Q → string;
  parseFloat : string → jsnumber;
  regexTest : string → string → option bool;
  toISOString : Z → string;
  functionToString : string → string;
}.

(** Whether a parsed object has an own key [toString].  Its value is JSON
    data, so it is not callable. *)
Definition ownToString (members : list (string * jvalue)) : bool :=
  existsb (λ m, String.eqb (fst m) "toString") members.

(** [String(v)] on a JSON value; [None] is a TypeError.  An object is
    converted by its [toString] member: [Object.prototype.toString], which
    answers [[object Object]], unless the object has an own key [toString],
    and then no conversion exists ([valueOf] answers the object itself).  An
    array joins the conversions of its items, [null] counting as empty. *)
Fixpoint toString (h : Host) (v : jvalue) : option string :=
  match v with
  | JNull => Some "null"
  | JBool true => Some "true"
  | JBool false => Some "false"
  | JNum q => Some (numToString h q)
  | JStr s => Some s
  | JArr items =>
      String.concat "," <$>
        (fix join (items : list jvalue) : option (list string) :=
           match items with
           | [] => Some []
           | x :: rest =>
               match match x with JNull => Some "" | _ => toString h x end,
                     join rest with
               | Some s, Some ss => Some (s :: ss)
               | _, _ => None
               end
           end) items
  | JObj members =>
      if ownToString members then None else Some "[object Object]"
  end.

(** [String(v)] on what [o[key]] reads. *)
Definition stringOf (h : Host) (v : any) : option string :=
  match v with
  | Json v => toString h v
  | NativeFunction name => Some (functionToString h name)
  | ObjectPrototype => Some "[object Object]"
  end.

(** [s.replace(/c/g, by)] for a one-character pattern. *)
Fixpoint replaceAll (c : ascii) (by_ : string) (s : string) : string :=
  match s with
  | EmptyString => EmptyString
  | String a rest =>
      if Ascii.eqb a c then by_ +:+ replaceAll c by_ rest
      else String a (replaceAll c by_ rest)
  end.

(** [xs.sort(compare)], a stable sort; [le a b] is [compare(a, b) <= 0]. *)
Fixpoint insertSorted {A} (le : A → A → bool) (x : A) (sorted : list A) : list A :=
  match sorted with
  | [] => [x]
  | y :: rest =>
      if le x y then x :: y :: rest else y :: insertSorted le x rest
  end.

Definition sortWith {A} (le : A → A → bool) (xs : list A) : list A :=
  foldr (insertSorted le) [] xs.

(** The element a stable sort puts first, found in one pass from the right:
    an element replaces the best of those after it when [le] holds. *)
Definition firstSorted {A} (le : A → A → bool) (xs : list A) : option A :=
  foldr (λ x best,
           match best with
           | None => Some x
           | Some y => if le x y then Some x else Some y
           end) None xs.

(** [a % b] on integers: the remainder has the sign of [a]; [None] is NaN. *)
Definition jsRem (a b : Z) : option Z :=
  if b =? 0 then None else Some (Z.rem a b).

(** ToInt32 *)
Definition toInt32 (z : Z) : Z := (z + 2 ^ 31) mod 2 ^ 32 - 2 ^ 31.

(** [a << n] and [a & b] on numbers holding integers. *)
Definition shl (a n : Z) : Z := toInt32 (Z.shiftl (toInt32 a) (Z.land n 31)).
Definition bitAnd (a b : Z) : Z := toInt32 (Z.land (toInt32 a) (toInt32 b)).

(** [str.charCodeAt(i)] for each [i], in order. *)
Fixpoint charCodes (s : string) : list Z :=
  match s with
  | EmptyString => []
  | String c rest => Z.of_N (N_of_ascii c) :: charCodes rest
  end.

(** [s.split(sep)[0]] for a one-character separator. *)
Fixpoint beforeChar (sep : ascii) (s : string) : string :=
  match s with
  | EmptyString => EmptyString
  | String c rest => if Ascii.eqb c sep then EmptyString else String c (beforeChar sep rest)
  end.

(** [xs.slice(-n)] *)
Definition sliceLast {A} (n : nat) (xs : list A) : list A :=
  drop (length xs - n)%nat xs.

End JS.

Coercion JS.Json : JS.jvalue >-> JS.any.

(** ** Regular expressions of the source, matched by derivatives *)

Module Regex.

Inductive re : Type :=
| Empty                       (* matches nothing *)
| Eps                         (* matches the empty string *)
| Cls (p : ascii → bool)      (* one character of a class *)
| Cat (r1 r2 : re)
| Alt (r1 r2 : re)
| Star (r : re).

(** [r+] *)
Definition Plus (r : re) : re := Cat r (Star r).

Fixpoint nullable (r : re) : bool :=
  match r with
  | Empty => false
  | Eps => true
  | Cls _ => false
  | Cat r1 r2 => nullable r1 && nullable r2
  | Alt r1 r2 => nullable r1 || nullable r2
  | Star _ => true
  end.

Definition cat (r1 r2 : re) : re :=
  match r1, r2 with
  | Empty, _ => Empty
  | _, Empty => Empty
  | Eps, _ => r2
  | _, _ => Cat r1 r2
  end.

Definition alt (r1 r2 : re) : re :=
  match r1, r2 with
  | Empty, _ => r2
  | _, Empty => r1
  | _, _ => Alt r1 r2
  end.

Fixpoint deriv (c : ascii) (r : re) : re :=
  match r with
  | Empty => Empty
  | Eps => Empty
  | Cls p => if p c then Eps else Empty
  | Cat r1 r2 =>
      alt (cat (deriv c r1) r2) (if nullable r1 then deriv c r2 else Empty)
  | Alt r1 r2 => alt (deriv c r1) (deriv c r2)
  | Star r1 => cat (deriv c r1) (Star r1)
  end.

(** The strings an expression matches. *)
Inductive matches : re → string → Prop :=
| M_Eps : matches Eps ""
| M_Cls p c : p c = true → matches (Cls p) (String c "")
| M_Cat r1 r2 s1 s2 :
    matches r1 s1 → matches r2 s2 → matches (Cat r1 r2) (s1 +:+ s2)
| M_AltL r1 r2 s : matches r1 s → matches (Alt r1 r2) s
| M_AltR r1 r2 s : matches r2 s → matches (Alt r1 r2) s
| M_Star0 r : matches (Star r) ""
| M_StarS r s1 s2 :
    matches r s1 → matches (Star r) s2 → matches (Star r) (s1 +:+ s2).

Fixpoint allChars (p : ascii → bool) (s : string) : bool :=
  match s with
  | EmptyString => true
  | String c rest => p c && allChars p rest
  end.

(** [/^r$/.test(s)] *)
Fixpoint test (r : re) (s : string) : bool :=
  match s with
  | EmptyString => nullable r
  | String c rest => test (deriv c r) rest
  end.

Definition code (c : ascii) : N := N_of_ascii c.

(** [\s] on code units below 256: tab, line feed, vertical tab, form feed,
    carriage return, space, no-break space. *)
Definition isSpace (c : ascii) : bool :=
  ((9 <=? code c) && (code c <=? 13) || (code c =? 32) || (code c =? 160))%N.

(** [\d] *)
Definition isDigit (c : ascii) : bool :=
  ((48 <=? code c) && (code c <=? 57))%N.

Definition isChar (x : ascii) (c : ascii) : bool := Ascii.eqb c x.

(** [[^\s@]] *)
Definition notSpaceAt (c : ascii) : bool := negb (isSpace c || isChar "@" c).

(** [[\d\s\-+()]] *)
Definition phoneChar (c : ascii) : bool :=
  isDigit c || isSpace c || isChar "-" c || isChar "+" c || isChar "(" c || isChar ")" c.

(** [/^[^\s@]+@[^\s@]+\.[^\s@]+$/] *)
Definition emailRegex : re :=
  Cat (Plus (Cls notSpaceAt))
    (Cat (Cls (isChar "@"))
      (Cat (Plus (Cls notSpaceAt))
        (Cat (Cls (isChar ".")) (Plus (Cls notSpaceAt))))).

(** [/^[\d\s\-+()]+$/] *)
Definition phoneRegex : re := Plus (Cls phoneChar).

(** The shape [local@domain.tld] in words: three parts, none empty, none
    holding white space or an at sign, joined by an at sign and a dot. *)
Definition word (w : string) : Prop := w ≠ "" ∧ allChars notSpaceAt w = true.

Definition emailShape (s : string) : Prop :=
  ∃ local domain tld,
    s = local +:+ "@" +:+ domain +:+ "." +:+ tld
    ∧ word local ∧ word domain ∧ word tld.

End Regex.

(** ** The form application *)

Module Forms.
Import JS.

Inductive FieldType : Type :=
| TText | TEmail | TPhone | TNumber | TTextarea | TSelect | TRadio
| TCheckbox | TDate | TTime | TFile | TRating | TSignature | THidden.

Definition FieldType_eqb (a b : FieldType) : bool :=
  match a, b with
  | TText, TText | TEmail, TEmail | TPhone, TPhone | TNumber, TNumber
  | TTextarea, TTextarea | TSelect, TSelect | TRadio, TRadio
  | TCheckbox, TCheckbox | TDate, TDate | TTime, TTime | TFile, TFile
  | TRating, TRating | TSignature, TSignature | THidden, THidden => true
  | _, _ => false
  end.

Record FieldValidation : Type := {
  v_min : option Q;
  v_max : option Q;
  v_minLength : option Z;
  v_maxLength : option Z;
  v_pattern : option string;
  v_customMessage : option string;
}.

(** [conditionalLogic] is stored with the field and read by no handler. *)
Record FormField : Type := {
  field_id : string;
  field_type : FieldType;
  field_label : string;
  field_placeholder : option string;
  field_required : bool;
  field_validation : option FieldValidation;
  field_options : option (list string);
  field_order : Z;
}.

Record FormSettings : Type := {
  submitButton : string;
  successMessage : string;
  redirectUrl : option string;
  notifyEmail : option string;
  webhookUrl : option string;
  captcha : bool;
  onePerUser : bool;
  closedMessage : option string;
  closeDate : option Z;
}.

Record Form : Type := {
  form_id : string;
  form_name : string;
  form_description : option string;
  form_fields : list FormField;
  form_settings : FormSettings;
  form_createdAt : Z;
  form_updatedAt : Z;
  form_published : bool;
  form_submissions : Z;
}.

Record Metadata : Type := {
  ip : option string;
  userAgent : option string;
  referrer : option string;
  country : option string;
}.

(** [data] is the request body, a JSON object keyed by field id. *)
Record Submission : Type := {
  sub_id : string;
  sub_formId : string;
  sub_data : gmap string jvalue;
  sub_metadata : Metadata;
  sub_createdAt : Z;
}.

(** *** [validateField] *)

(** The outcome of a sequence of checks with early [return]: no error so
    far, an error message, or an exception. *)
Inductive check : Type :=
| Pass
| Fail (message : string)
| Throws.

Definition andThen (c : check) (next : check) : check :=
  match c with Pass => next | _ => c end.

Section WithHost.
Context (h : Host).

Definition showZ (n : Z) : string := numToString h (inject_Z n).

(** [emailRegex.test(value)] converts [value] with [String] first, and so
    do [phoneRegex.test(value)] and [parseFloat(value)]; a value without a
    conversion makes them throw. *)
Definition validateEmail (field : FormField) (validation : FieldValidation)
    (value : any) : check :=
  if FieldType_eqb (field_type field) TEmail then
    match stringOf h value with
    | None => Throws
    | Some text =>
        if negb (Regex.test Regex.emailRegex text) then
          Fail (orElse (v_customMessage validation)
                  (field_label field +:+ " must be a valid email"))
        else Pass
    end
  else Pass.

Definition validatePhone (field : FormField) (validation : FieldValidation)
    (value : any) : check :=
  if FieldType_eqb (field_type field) TPhone then
    match stringOf h value with
    | None => Throws
    | Some text =>
        if negb (Regex.test Regex.phoneRegex text) then
          Fail (orElse (v_customMessage validation)
                  (field_label field +:+ " must be a valid phone number"))
        else Pass
    end
  else Pass.

Definition validateNumber (field : FormField) (validation : FieldValidation)
    (value : any) : check :=
  if FieldType_eqb (field_type field) TNumber then
    match stringOf h value with
    | None => Throws
    | Some text =>
        let num := parseFloat h text in
        if isNaN num then Fail (field_label field +:+ " must be a number")
        else
          andThen
            match v_min validation with
            | Some min =>
                if num_lt num min then
                  Fail (orElse (v_customMessage validation)
                          (field_label field +:+ " must be at least "
                             +:+ numToString h min))
                else Pass
            | None => Pass
            end
            match v_max validation with
            | Some max =>
                if num_gt num max then
                  Fail (orElse (v_customMessage validation)
                          (field_label field +:+ " must be at most "
                             +:+ numToString h max))
                else Pass
            | None => Pass
            end
    end
  else Pass.

(** The checks under [typeof value === 'string']. *)
Definition validateString (field : FormField) (validation : FieldValidation)
    (value : any) : check :=
  match value with
  | Json (JStr s) =>
      let len := Z.of_nat (String.length s) in
      andThen
        (if truthyZ (v_minLength validation)
            && (len <? default 0 (v_minLength validation)) then
           Fail (orElse (v_customMessage validation)
                   (field_label field +:+ " must be at least "
                      +:+ showZ (default 0 (v_minLength validation))
                      +:+ " characters"))
         else Pass)
        (andThen
          (if truthyZ (v_maxLength validation)
              && (default 0 (v_maxLength validation) <? len) then
             Fail (orElse (v_customMessage validation)
                     (field_label field +:+ " must be at most "
                        +:+ showZ (default 0 (v_maxLength validation))
                        +:+ " characters"))
           else Pass)
          (if truthyStr (v_pattern validation) then
             match regexTest h (default "" (v_pattern validation)) s with
             | None => Throws
             | Some true => Pass
             | Some false =>
                 Fail (orElse (v_customMessage validation)
                         (field_label field +:+ " format is invalid"))
             end
           else Pass))
  | _ => Pass
  end.

(** [validateField(field, value)]: [Pass] is the source's [null]. *)
Definition validateField (field : FormField) (value : any) : check :=
  match field_validation field with
  | None => Pass
  | Some validation =>
      andThen (validateEmail field validation value)
        (andThen (validatePhone field validation value)
          (andThen (validateNumber field validation value)
            (validateString field validation value)))
  end.

End WithHost.

(** *** The store and the handlers *)

(** A webhook delivery: [fetch(url, { body: { form: form.name, submission } })]. *)
Record WebhookCall : Type := {
  hook_url : string;
  hook_form : string;
  hook_submission : Submission;
}.

(** The [FORMS] namespace ([form:<id>] and [submission:<id>:<subId>] keys)
    and the webhook requests sent so far. *)
Record World : Type := {
  forms : gmap string Form;
  submissions : gmap string Submission;
  outbox : list WebhookCall;
}.

Definition getForm (key : string) : St.M World (option Form) :=
  St.gets (λ w, forms w !! key).

Definition putForm (key : string) (form : Form) : St.M World unit :=
  St.modify (λ w, {| forms := <[key := form]> (forms w);
                     submissions := submissions w;
                     outbox := outbox w |}).

Definition getSubmission (key : string) : St.M World (option Submission) :=
  St.gets (λ w, submissions w !! key).

Definition putSubmission (key : string) (sub : Submission) : St.M World unit :=
  St.modify (λ w, {| forms := forms w;
                     submissions := <[key := sub]> (submissions w);
                     outbox := outbox w |}).

(** [list({ prefix })]: the keys under a prefix, in lexicographic order (the
    page size of the service is not modelled). *)
Definition listSubmissionKeys (prefix : string) : St.M World (list string) :=
  St.gets (λ w,
    merge_sort (λ a b, String.leb a b)
      (filter (λ k, String.prefix prefix k) (map fst (map_to_list (submissions w))))).

Definition fetch (call : WebhookCall) : St.M World unit :=
  St.modify (λ w, {| forms := forms w;
                     submissions := submissions w;
                     outbox := outbox w ++ [call] |}).

Inductive response : Type :=
| RespError (status : Z) (error : string)          (* c.json({ error }, status) *)
| RespSubmitted (message : string) (submissionId : string)
                                                   (* c.json({ success: true, ... }) *)
| RespRedirect (url : string)                      (* c.redirect(url) *)
| RespCsv (csv : string) (filename : string)       (* new Response(csv, ...) *)
| RespUncaught.                                    (* an exception left the handler *)

Definition status (r : response) : Z :=
  match r with
  | RespError st _ => st
  | RespSubmitted _ _ => 200
  | RespRedirect _ => 302
  | RespCsv _ _ => 200
  | RespUncaught => 500
  end.

(** The request as [submit] reads it: the JSON body ([None] when
    [c.req.json()] rejects), three headers and [cf.country].  The body is a
    JSON object, a finite map from its own keys; [getProperty] reads it as
    [body[key]] does, own keys first and then [Object.prototype]. *)
Record Request : Type := {
  req_body : option (gmap string jvalue);
  req_ip : option string;
  req_userAgent : option string;
  req_referer : option string;
  req_country : option string;
}.

(** The request with another JSON body. *)
Definition withBody (req : Request) (body : gmap string jvalue) : Request :=
  {| req_body := Some body; req_ip := req_ip req;
     req_userAgent := req_userAgent req; req_referer := req_referer req;
     req_country := req_country req |}.

Section Handlers.
Context (h : Host).

(** The message of the required-field error: the label between double quotes. *)
Definition requiredError (field : FormField) : string :=
  "Field " +:+ dquote +:+ field_label field +:+ dquote +:+ " is required".

(** [form.settings.closeDate && Date.now() > form.settings.closeDate] *)
Definition isClosed (form : Form) (now : Z) : bool :=
  truthyZ (closeDate (form_settings form))
  && (default 0 (closeDate (form_settings form)) <? now).

(** The body of the loop [for (const field of form.fields)] in [submit]. *)
Definition checkField (body : gmap string jvalue) (field : FormField) : check :=
  if field_required field && negb (truthyAny (getProperty body (field_id field))) then
    Fail (requiredError field)
  else if truthyAny (getProperty body (field_id field)) then
    match getProperty body (field_id field) with
    | Some value => validateField h field value
    | None => Pass
    end
  else Pass.

Fixpoint checkFields (body : gmap string jvalue) (fields : list FormField) : check :=
  match fields with
  | [] => Pass
  | field :: rest => andThen (checkField body field) (checkFields body rest)
  end.

Definition bumpSubmissions (form : Form) : Form :=
  {| form_id := form_id form;
     form_name := form_name form;
     form_description := form_description form;
     form_fields := form_fields form;
     form_settings := form_settings form;
     form_createdAt := form_createdAt form;
     form_updatedAt := form_updatedAt form;
     form_published := form_published form;
     form_submissions := form_submissions form + 1 |}.

(** [POST /forms/:id/submit] *)
Definition submit (id : string) (req : Request) (now : Z) (uuid : string)
    : St.M World response :=
  await formData <- getForm ("form:" +:+ id);
  match formData with
  | None => St.ret (RespError 404 "Form not found")
  | Some form =>
      if negb (form_published form) then
        St.ret (RespError 400 "Form is not accepting submissions")
      else if isClosed form now then
        St.ret (RespError 400
                  (orElse (closedMessage (form_settings form)) "Form is closed"))
      else
        match req_body req with
        | None => St.ret RespUncaught
        | Some body =>
            match checkFields body (form_fields form) with
            | Fail error => St.ret (RespError 400 error)
            | Throws => St.ret RespUncaught
            | Pass =>
                let submission :=
                  {| sub_id := uuid;
                     sub_formId := id;
                     sub_data := body;
                     sub_metadata :=
                       {| ip := req_ip req;
                          userAgent := req_userAgent req;
                          referrer := req_referer req;
                          country := req_country req |};
                     sub_createdAt := now |} in
                await! putSubmission
                         ("submission:" +:+ id +:+ ":" +:+ sub_id submission)
                         submission;
                let form := bumpSubmissions form in
                await! putForm ("form:" +:+ form_id form) form;
                await! (if truthyStr (webhookUrl (form_settings form)) then
                          fetch {| hook_url := default "" (webhookUrl (form_settings form));
                                   hook_form := form_name form;
                                   hook_submission := submission |}
                        else St.ret tt);
                if truthyStr (redirectUrl (form_settings form)) then
                  St.ret (RespRedirect (default "" (redirectUrl (form_settings form))))
                else
                  St.ret (RespSubmitted (successMessage (form_settings form))
                            (sub_id submission))
            end
        end
  end.

(** The cell of a row value [v]: [String(v)] with every double quote
    doubled, between two double quotes; [None] when [String(v)] throws. *)
Definition csvCell (v : any) : option string :=
  match stringOf h v with
  | Some text =>
      Some (dquote +:+ replaceAll "034" (dquote +:+ dquote) text +:+ dquote)
  | None => None
  end.

(** [sub.data[f.id] || '']: what the data reads under the field's id, or
    the empty string when that is falsy. *)
Definition cellValue (sub : Submission) (f : FormField) : any :=
  if truthyAny (getProperty (sub_data sub) (field_id f))
  then default (Json (JStr "")) (getProperty (sub_data sub) (field_id f))
  else Json (JStr "").

Definition csvHeaders (form : Form) : list string :=
  "Submission ID" :: "Submitted At" :: map field_label (form_fields form).

Definition csvRow (form : Form) (sub : Submission) : list any :=
  Json (JStr (sub_id sub)) :: Json (JStr (toISOString h (sub_createdAt sub)))
    :: map (cellValue sub) (form_fields form).

(** [r.map(v => ...).join(',')]: the line of a row, [None] when a cell
    throws. *)
Definition csvLine (row : list any) : option string :=
  String.concat "," <$> mapM csvCell row.

(** The block under [// Build CSV]; [None] when a cell throws. *)
Definition buildCsv (form : Form) (subs : list Submission) : option string :=
  let headers := csvHeaders form in
  let rows := map (csvRow form) subs in
  match mapM csvLine rows with
  | Some lines =>
      Some (String.concat newline (String.concat "," headers :: lines))
  | None => None
  end.

(** [GET /forms/:id/export]; nothing catches what the CSV block throws. *)
Definition export (id : string) : St.M World response :=
  await formData <- getForm ("form:" +:+ id);
  match formData with
  | None => St.ret (RespError 404 "Form not found")
  | Some form =>
      await keys <- listSubmissionKeys ("submission:" +:+ id +:+ ":");
      await found <- St.mapM getSubmission keys;
      let subs := omap (λ data, data) found in
      match buildCsv form subs with
      | Some csv =>
          St.ret (RespCsv csv (form_name form +:+ "-submissions.csv"))
      | None => St.ret RespUncaught
      end
  end.

End Handlers.

(** *** The other routes *)

(** A [Partial<Form>] read from a request body: the keys that are present. *)
Record FormPatch : Type := {
  p_id : option string;
  p_name : option string;
  p_description : option string;
  p_fields : option (list FormField);
  p_settings : option FormSettings;
  p_createdAt : option Z;
  p_updatedAt : option Z;
  p_published : option bool;
  p_submissions : option Z;
}.

(** What [GET /forms/:id/analytics] answers; [byDay] and [byCountry] are
    objects from a key to a count, in insertion order. *)
Record FormStats : Type := {
  stats_formId : string;
  stats_formName : string;
  totalSubmissions : Z;
  byDay : list (string * Z);
  byCountry : list (string * Z);
}.

Inductive reply : Type :=
| ReplyError (status : Z) (error : string)      (* c.json({ error }, status) *)
| ReplyCreated (id name : string)               (* c.json({ id, name }) *)
| ReplyForm (form : Form)                       (* c.json(JSON.parse(data)) *)
| ReplyUpdated (id : string)                    (* c.json({ id, updated: true }) *)
| ReplyDeleted                                  (* c.json({ deleted: true }) *)
| ReplyPublished (id : string) (published : bool)
| ReplySubmission (sub : Submission)
| ReplyStats (stats : FormStats)
| ReplyUncaught.                                (* an exception left the handler *)

Definition deleteFormKey (key : string) : St.M World unit :=
  St.modify (λ w, {| forms := delete key (forms w);
                     submissions := submissions w;
                     outbox := outbox w |}).

Definition deleteSubmissionKey (key : string) : St.M World unit :=
  St.modify (λ w, {| forms := forms w;
                     submissions := delete key (submissions w);
                     outbox := outbox w |}).

Definition defaultSettings : FormSettings :=
  {| submitButton := "Submit";
     successMessage := "Thank you for your submission!";
     redirectUrl := None; notifyEmail := None; webhookUrl := None;
     captcha := false; onePerUser := false;
     closedMessage := None; closeDate := None |}.

(** [POST /forms]; the body is [None] when [c.req.json()] rejects. *)
Definition createForm (body : option FormPatch) (now : Z) (uuid : string)
    : St.M World reply :=
  match body with
  | None => St.ret ReplyUncaught
  | Some body =>
      if negb (truthyStr (p_name body)) then
        St.ret (ReplyError 400 "Missing required field: name")
      else
        let form :=
          {| form_id := uuid;
             form_name := default "" (p_name body);
             form_description := p_description body;
             form_fields := default [] (p_fields body);
             form_settings := default defaultSettings (p_settings body);
             form_createdAt := now;
             form_updatedAt := now;
             form_published := false;
             form_submissions := 0 |} in
        await! putForm ("form:" +:+ form_id form) form;
        St.ret (ReplyCreated (form_id form) (form_name form))
  end.

(** [GET /forms/:id] *)
Definition readForm (id : string) : St.M World reply :=
  await data <- getForm ("form:" +:+ id);
  match data with
  | None => St.ret (ReplyError 404 "Form not found")
  | Some form => St.ret (ReplyForm form)
  end.

(** [{ ...existing, ...updates, id: existing.id, createdAt: existing.createdAt,
    updatedAt: Date.now() }] *)
Definition mergeForm (existing : Form) (updates : FormPatch) (now : Z) : Form :=
  {| form_id := form_id existing;
     form_name := default (form_name existing) (p_name updates);
     form_description :=
       match p_description updates with
       | Some d => Some d
       | None => form_description existing
       end;
     form_fields := default (form_fields existing) (p_fields updates);
     form_settings := default (form_settings existing) (p_settings updates);
     form_createdAt := form_createdAt existing;
     form_updatedAt := now;
     form_published := default (form_published existing) (p_published updates);
     form_submissions := default (form_submissions existing) (p_submissions updates) |}.

(** [PUT /forms/:id] *)
Definition updateForm (id : string) (updates : option FormPatch) (now : Z)
    : St.M World reply :=
  await data <- getForm ("form:" +:+ id);
  match data with
  | None => St.ret (ReplyError 404 "Form not found")
  | Some existing =>
      match updates with
      | None => St.ret ReplyUncaught
      | Some updates =>
          let form := mergeForm existing updates now in
          await! putForm ("form:" +:+ form_id form) form;
          St.ret (ReplyUpdated (form_id form))
      end
  end.

(** [DELETE /forms/:id] *)
Definition deleteForm (id : string) : St.M World reply :=
  await! deleteFormKey ("form:" +:+ id);
  await keys <- listSubmissionKeys ("submission:" +:+ id +:+ ":");
  await! St.forEach keys deleteSubmissionKey;
  St.ret ReplyDeleted.

Definition setPublished (form : Form) (published : bool) (now : Z) : Form :=
  {| form_id := form_id form;
     form_name := form_name form;
     form_description := form_description form;
     form_fields := form_fields form;
     form_settings := form_settings form;
     form_createdAt := form_createdAt form;
     form_updatedAt := now;
     form_published := published;
     form_submissions := form_submissions form |}.

(** [POST /forms/:id/publish] and [POST /forms/:id/unpublish] *)
Definition publishAs (published : bool) (id : string) (now : Z) : St.M World reply :=
  await data <- getForm ("form:" +:+ id);
  match data with
  | None => St.ret (ReplyError 404 "Form not found")
  | Some form =>
      let form := setPublished form published now in
      await! putForm ("form:" +:+ form_id form) form;
      St.ret (ReplyPublished (form_id form) published)
  end.

Definition publish (id : string) (now : Z) : St.M World reply := publishAs true id now.
Definition unpublish (id : string) (now : Z) : St.M World reply := publishAs false id now.

(** [GET /forms/:formId/submissions/:subId] *)
Definition readSubmission (formId subId : string) : St.M World reply :=
  await data <- getSubmission ("submission:" +:+ formId +:+ ":" +:+ subId);
  match data with
  | None => St.ret (ReplyError 404 "Submission not found")
  | Some sub => St.ret (ReplySubmission sub)
  end.

(** [DELETE /forms/:formId/submissions/:subId] *)
Definition deleteSubmission (formId subId : string) : St.M World reply :=
  await! deleteSubmissionKey ("submission:" +:+ formId +:+ ":" +:+ subId);
  St.ret ReplyDeleted.

(** The loop that loads the submissions of a form, in [export] and in the
    analytics route. *)
Definition loadSubmissions (id : string) : St.M World (list Submission) :=
  await keys <- listSubmissionKeys ("submission:" +:+ id +:+ ":");
  await found <- St.mapM getSubmission keys;
  St.ret (omap (λ data, data) found).

(** [counts[key] = (counts[key] || 0) + 1] *)
Fixpoint tally (key : string) (counts : list (string * Z)) : list (string * Z) :=
  match counts with
  | [] => [(key, 1)]
  | (k, n) :: rest =>
      if String.eqb k key then (k, n + 1) :: rest else (k, n) :: tally key rest
  end.

Section Statistics.
Context (h : Host).

(** [new Date(sub.createdAt).toISOString().split('T')[0]] *)
Definition dayOf (sub : Submission) : string :=
  beforeChar "T" (toISOString h (sub_createdAt sub)).

(** [sub.metadata.country || 'Unknown'] *)
Definition countryOf (sub : Submission) : string :=
  orElse (country (sub_metadata sub)) "Unknown".

(** [GET /forms/:id/analytics] *)
Definition formAnalytics (id : string) : St.M World reply :=
  await formData <- getForm ("form:" +:+ id);
  match formData with
  | None => St.ret (ReplyError 404 "Form not found")
  | Some form =>
      await subs <- loadSubmissions id;
      let byDay := fold_left (λ counts sub, tally (dayOf sub) counts) subs [] in
      let byCountry := fold_left (λ counts sub, tally (countryOf sub) counts) subs [] in
      St.ret (ReplyStats {| stats_formId := id;
                            stats_formName := form_name form;
                            totalSubmissions := Z.of_nat (length subs);
                            byDay := byDay;
                            byCountry := byCountry |})
  end.

End Statistics.

(** *** Store invariant and the effect of an accepted submission *)

(** Every stored form sits under the key made of its own id. *)
Definition wellKeyed (w : World) : Prop :=
  ∀ id form, forms w !! ("form:" +:+ id) = Some form → form_id form = id.

(** The submission [submit] builds from a request. *)
Definition submissionOf (id : string) (req : Request) (body : gmap string jvalue)
    (now : Z) (uuid : string) : Submission :=
  {| sub_id := uuid;
     sub_formId := id;
     sub_data := body;
     sub_metadata := {| ip := req_ip req; userAgent := req_userAgent req;
                        referrer := req_referer req; country := req_country req |};
     sub_createdAt := now |}.

(** The world after an accepted submission. *)
Definition accepted (w : World) (id : string) (req : Request)
    (body : gmap string jvalue) (form : Form) (now : Z) (uuid : string) : World :=
  {| forms := <["form:" +:+ form_id form := bumpSubmissions form]> (forms w);
     submissions :=
       <["submission:" +:+ id +:+ ":" +:+ uuid := submissionOf id req body now uuid]>
         (submissions w);
     outbox :=
       outbox w
       ++ (if truthyStr (webhookUrl (form_settings form))
           then [{| hook_url := default "" (webhookUrl (form_settings form));
                    hook_form := form_name form;
                    hook_submission := submissionOf id req body now uuid |}]
           else []) |}.

(** Unescaping of one quoted CSV cell, written after the specification's
    description of a standard CSV parser: strip the outer quotes and collapse
    each doubled quote; [None] when the text is not one quoted cell. *)
Fixpoint csvUnquoteBody (s : string) : option string :=
  match s with
  | EmptyString => None
  | String c rest =>
      if Ascii.eqb c "034" then
        match rest with
        | EmptyString => Some EmptyString
        | String c' rest' =>
            if Ascii.eqb c' "034" then String "034" <$> csvUnquoteBody rest'
            else None
        end
      else String c <$> csvUnquoteBody rest
  end.

Definition csvUnquote (cell : string) : option string :=
  match cell with
  | String c rest => if Ascii.eqb c "034" then csvUnquoteBody rest else None
  | EmptyString => None
  end.

(** [generateFormHTML] renders the fields in the order of
    [form.fields.sort((a, b) => a.order - b.order)]. *)
Definition renderOrder (fields : list FormField) : list FormField :=
  sortWith (λ a b, field_order a - field_order b <=? 0) fields.

End Forms.

(** ** Advanced analytics: [FormAnalyticsCollector] and [ABTestManager] *)

Module Analytics.
Import JS.

Inductive InteractionType : Type := focus | blur | input | change | error.

Definition InteractionType_eqb (a b : InteractionType) : bool :=
  match a, b with
  | focus, focus | blur, blur | input, input | change, change | error, error => true
  | _, _ => false
  end.

Record FieldInteraction : Type := {
  fieldId : string;
  type : InteractionType;
  timestamp : Z;
  value : option string;
  errorMessage : option string;
}.

Inductive DeviceType : Type := mobile | tablet | desktop.

Definition deviceName (d : DeviceType) : string :=
  match d with mobile => "mobile" | tablet => "tablet" | desktop => "desktop" end.

Record Device : Type := {
  device_type : DeviceType;
  browser : string;
  os : string;
  screenWidth : Z;
  screenHeight : Z;
}.

Record Geo : Type := {
  country : option string;
  region : option string;
  city : option string;
}.

Record FormSession : Type := {
  sessionId : string;
  formId : string;
  variant : option string;
  started : Z;
  completed : option Z;
  submitted : bool;
  interactions : list FieldInteraction;
  device : Device;
  geo : Geo;
  referrer : option string;
  utmParams : option (list (string * string));
}.

Inductive TestStatus : Type := draft | running | paused | completed_.

Definition isRunning (s : TestStatus) : bool :=
  match s with running => true | _ => false end.

Record Variant : Type := {
  variant_id : string;
  variant_name : string;
  weight : Z;
  changes : list (string * jvalue);
}.

Record ABTest : Type := {
  test_id : string;
  test_formId : string;
  test_name : string;
  variants : list Variant;
  startDate : Z;
  endDate : option Z;
  status : TestStatus;
  winningVariant : option string;
}.

(** A running average as stored: [{ sum, count }]. *)
Record Average : Type := { sum : Q; count : Z }.

(** The KV namespace of the analytics classes: counters (stored as text),
    running averages, per-field error tables (objects from message to
    count, in insertion order), persisted sessions and A/B tests. *)
Record KV : Type := {
  counters : gmap string Z;
  averages : gmap string Average;
  errorTables : gmap string (list (string * Z));
  storedSessions : gmap string FormSession;
  abtests : gmap string ABTest;
}.

Definition putCounter (key : string) (n : Z) (kv : KV) : KV :=
  {| counters := <[key := n]> (counters kv); averages := averages kv;
     errorTables := errorTables kv; storedSessions := storedSessions kv;
     abtests := abtests kv |}.

Definition putAverage (key : string) (a : Average) (kv : KV) : KV :=
  {| counters := counters kv; averages := <[key := a]> (averages kv);
     errorTables := errorTables kv; storedSessions := storedSessions kv;
     abtests := abtests kv |}.

Definition putErrors (key : string) (t : list (string * Z)) (kv : KV) : KV :=
  {| counters := counters kv; averages := averages kv;
     errorTables := <[key := t]> (errorTables kv);
     storedSessions := storedSessions kv; abtests := abtests kv |}.

Definition putSession (key : string) (s : FormSession) (kv : KV) : KV :=
  {| counters := counters kv; averages := averages kv;
     errorTables := errorTables kv;
     storedSessions := <[key := s]> (storedSessions kv); abtests := abtests kv |}.

Definition putTest (key : string) (t : ABTest) (kv : KV) : KV :=
  {| counters := counters kv; averages := averages kv;
     errorTables := errorTables kv; storedSessions := storedSessions kv;
     abtests := <[key := t]> (abtests kv) |}.

(** The state of a [FormAnalyticsCollector]: [this.sessions] and [this.kv]. *)
Record Collector : Type := {
  sessions : gmap string FormSession;
  kv : KV;
}.

(** A method of a class that holds [this.kv], run on the collector's namespace. *)
Definition onKV {A} (m : St.M KV A) : St.M Collector A :=
  λ c, let '(a, kv') := m (kv c) in (a, {| sessions := sessions c; kv := kv' |}).

Definition setSession (sid : string) (s : FormSession) : St.M Collector unit :=
  St.modify (λ c, {| sessions := <[sid := s]> (sessions c); kv := kv c |}).

Definition deleteSession (sid : string) : St.M Collector unit :=
  St.modify (λ c, {| sessions := delete sid (sessions c); kv := kv c |}).

(** *** Results of [getAnalytics] *)

Record FieldAnalytics : Type := {
  fa_fieldId : string;
  fa_label : string;
  fa_views : Z;
  fa_focuses : Z;
  fa_completions : Z;
  fa_errors : Z;
  fa_dropOffs : Z;
  fa_avgTimeSpent : Q;
  fa_errorRate : Q;
  fa_completionRate : Q;
  fa_mostCommonErrors : list (string * Z);
}.

Record Totals : Type := {
  t_views : Z;
  t_starts : Z;
  t_completions : Z;
  t_submissions : Z;
  t_conversionRate : Q;
  t_abandonmentRate : Q;
  t_avgCompletionTime : Q;
}.

Record FunnelStep : Type := {
  step : string;
  step_count : Z;
  dropOff : Z;
  rate : Q;
}.

Record DayStats : Type := {
  date : string;
  day_views : Z;
  day_submissions : Z;
  day_conversionRate : Q;
}.

Record Breakdown : Type := { b_count : Z; b_conversionRate : Q }.

Record VariantStats : Type := {
  vs_variant : string;
  vs_submissions : Z;
  vs_conversionRate : Q;
  vs_avgTime : Q;
}.

Record FormAnalytics : Type := {
  a_formId : string;
  a_formName : string;
  a_period : Z * Z;
  a_totals : Totals;
  a_funnel : list FunnelStep;
  a_fields : list FieldAnalytics;
  a_byDay : list DayStats;
  a_byDevice : list (string * Breakdown);
  a_byCountry : list (string * Breakdown);
  a_byReferrer : list (string * Breakdown);
  a_variants : option (list VariantStats);
}.

(** *** Helper methods of the collector *)

Definition incrementCounter (key : string) : St.M KV unit :=
  await current <- St.gets (λ kv, counters kv !! ("analytics:" +:+ key));
  let count := match current with Some n => n + 1 | None => 1 end in
  St.modify (putCounter ("analytics:" +:+ key) count).

Definition getCounter (key : string) : St.M KV Z :=
  await value <- St.gets (λ kv, counters kv !! ("analytics:" +:+ key));
  St.ret (match value with Some n => n | None => 0 end).

Definition addToAverage (key : string) (value : Q) : St.M KV unit :=
  await data <- St.gets (λ kv, averages kv !! ("analytics:" +:+ key));
  let updated :=
    match data with
    | Some data => {| sum := sum data + value; count := count data + 1 |}
    | None => {| sum := value; count := 1 |}
    end in
  St.modify (putAverage ("analytics:" +:+ key) updated).

Definition getAverage (key : string) : St.M KV Q :=
  await data <- St.gets (λ kv, averages kv !! ("analytics:" +:+ key));
  St.ret (match data with
          | Some data =>
              if 0 <? count data then (sum data / inject_Z (count data))%Q else 0%Q
          | None => 0%Q
          end).

(** An error table is the parsed object, declared [Record<string, number>]:
    its own keys with their counts, in the order [Object.entries] lists
    them, which is the array indices in ascending order and then the other
    keys in the order they were added. *)

(** The value of a decimal numeral; [None] when a character is no digit. *)
Fixpoint digitsValue (s : string) (acc : N) : option N :=
  match s with
  | EmptyString => Some acc
  | String c rest =>
      if (48 <=? N_of_ascii c)%N && (N_of_ascii c <=? 57)%N
      then digitsValue rest (acc * 10 + (N_of_ascii c - 48))%N
      else None
  end.

(** Whether a key is an array index: the canonical numeral (no leading
    zero) of an integer below [2^32 - 1]. *)
Definition arrayIndex (key : string) : option N :=
  match key with
  | EmptyString => None
  | String c rest =>
      if Ascii.eqb c "0" && negb (String.eqb rest "") then None
      else
        match digitsValue key 0 with
        | Some n => if (n <? 4294967295)%N then Some n else None
        | None => None
        end
  end.

(** A new key with count 1, at the place where the object lists it. *)
Fixpoint placeIndex (message : string) (i : N) (errors : list (string * Z))
    : list (string * Z) :=
  match errors with
  | [] => [(message, 1)]
  | (m, n) :: rest =>
      match arrayIndex m with
      | Some j =>
          if (j <? i)%N then (m, n) :: placeIndex message i rest
          else (message, 1) :: (m, n) :: rest
      | None => (message, 1) :: (m, n) :: rest
      end
  end.

Definition addKey (message : string) (errors : list (string * Z)) : list (string * Z) :=
  match arrayIndex message with
  | Some i => placeIndex message i errors
  | None => errors ++ [(message, 1)]
  end.

(** The count of an own key raised by one, in place. *)
Fixpoint increment (message : string) (errors : list (string * Z)) : list (string * Z) :=
  match errors with
  | [] => []
  | (m, n) :: rest =>
      if String.eqb m message then (m, n + 1) :: rest
      else (m, n) :: increment message rest
  end.

(** [errors[message] = (errors[message] || 0) + 1].  An own key has its
    count raised.  For a key that the table does not own, [errors[message]]
    reads [Object.prototype]: under [__proto__] the assignment goes to the
    inherited setter, which ignores what is no object, and the table stays
    as it is; a key that [Object.prototype] does not have is added with
    count 1.  Under the name of an inherited function the source stores a
    text (the function's source followed by [1]) where the table's type
    promises a number: a table of counts cannot hold it, and [trackError]
    models the source for every other message. *)
Definition bumpError (message : string) (errors : list (string * Z)) : list (string * Z) :=
  if existsb (λ e, String.eqb (fst e) message) errors then increment message errors
  else if String.eqb message "__proto__" then errors
  else addKey message errors.

Definition trackError (formId fieldId message : string) : St.M KV unit :=
  let key := "analytics:errors:" +:+ formId +:+ ":" +:+ fieldId in
  await data <- St.gets (λ kv, errorTables kv !! key);
  let errors := default [] data in
  St.modify (putErrors key (bumpError message errors)).

Definition getTopErrors (formId fieldId : string) : St.M KV (list (string * Z)) :=
  let key := "analytics:errors:" +:+ formId +:+ ":" +:+ fieldId in
  await data <- St.gets (λ kv, errorTables kv !! key);
  match data with
  | None => St.ret []
  | Some data => St.ret (take 5 (sortWith (λ a b, snd b - snd a <=? 0) data))
  end.

Definition storeSession (session : FormSession) : St.M KV unit :=
  let key := "session:" +:+ formId session +:+ ":" +:+ sessionId session in
  St.modify (putSession ("analytics:" +:+ key) session).

Section WithHost.
Context (h : Host).

(** [getDateKey()], read at time [now]. *)
Definition getDateKey (now : Z) : string := beforeChar "T" (toISOString h now).

(** *** Session lifecycle *)

Definition startSession (now : Z) (formId sessionId : string) (device : Device)
    (geo : Geo) (referrer : option string)
    (utmParams : option (list (string * string))) (variant : option string)
    : St.M Collector unit :=
  let session :=
    {| sessionId := sessionId; formId := formId; variant := variant;
       started := now; completed := None; submitted := false;
       interactions := []; device := device; geo := geo;
       referrer := referrer; utmParams := utmParams |} in
  await! setSession sessionId session;
  await! onKV (incrementCounter ("views:" +:+ formId +:+ ":" +:+ getDateKey now));
  await! onKV (incrementCounter ("views:" +:+ formId +:+ ":total"));
  await! onKV (incrementCounter ("device:" +:+ formId +:+ ":" +:+ deviceName (device_type device)));
  if truthyStr (country geo) then
    onKV (incrementCounter ("country:" +:+ formId +:+ ":" +:+ default "" (country geo)))
  else St.ret tt.

Definition pushInteraction (session : FormSession) (i : FieldInteraction) : FormSession :=
  {| sessionId := sessionId session; formId := formId session;
     variant := variant session; started := started session;
     completed := completed session; submitted := submitted session;
     interactions := interactions session ++ [i]; device := device session;
     geo := geo session; referrer := referrer session;
     utmParams := utmParams session |}.

Definition setCompleted (session : FormSession) (t : Z) : FormSession :=
  {| sessionId := sessionId session; formId := formId session;
     variant := variant session; started := started session;
     completed := Some t; submitted := submitted session;
     interactions := interactions session; device := device session;
     geo := geo session; referrer := referrer session;
     utmParams := utmParams session |}.

Definition setSubmitted (session : FormSession) : FormSession :=
  {| sessionId := sessionId session; formId := formId session;
     variant := variant session; started := started session;
     completed := completed session; submitted := true;
     interactions := interactions session; device := device session;
     geo := geo session; referrer := referrer session;
     utmParams := utmParams session |}.

Definition trackInteraction (sid : string) (interaction : FieldInteraction)
    : St.M Collector unit :=
  await found <- St.gets (λ c, sessions c !! sid);
  match found with
  | None => St.ret tt
  | Some session =>
      let session := pushInteraction session interaction in
      await! setSession sid session;
      let fieldKey := "field:" +:+ formId session +:+ ":" +:+ fieldId interaction in
      match type interaction with
      | focus => onKV (incrementCounter (fieldKey +:+ ":focuses"))
      | blur =>
          let focusEvent :=
            List.find
              (λ i, String.eqb (fieldId i) (fieldId interaction)
                    && InteractionType_eqb (type i) focus)
              (reverse (interactions session)) in
          match focusEvent with
          | Some focusEvent =>
              let timeSpent := timestamp interaction - timestamp focusEvent in
              onKV (addToAverage (fieldKey +:+ ":avgTime") (inject_Z timeSpent))
          | None => St.ret tt
          end
      | error =>
          await! onKV (incrementCounter (fieldKey +:+ ":errors"));
          if truthyStr (errorMessage interaction) then
            onKV (trackError (formId session) (fieldId interaction)
                    (default "" (errorMessage interaction)))
          else St.ret tt
      | _ => St.ret tt
      end
  end.

Definition markStarted (now : Z) (sid : string) : St.M Collector unit :=
  await found <- St.gets (λ c, sessions c !! sid);
  match found with
  | None => St.ret tt
  | Some session =>
      await! onKV (incrementCounter ("starts:" +:+ formId session +:+ ":" +:+ getDateKey now));
      onKV (incrementCounter ("starts:" +:+ formId session +:+ ":total"))
  end.

Definition markCompleted (now : Z) (sid : string) : St.M Collector unit :=
  await found <- St.gets (λ c, sessions c !! sid);
  match found with
  | None => St.ret tt
  | Some session =>
      let session := setCompleted session now in
      await! setSession sid session;
      await! onKV (incrementCounter ("completions:" +:+ formId session +:+ ":" +:+ getDateKey now));
      await! onKV (incrementCounter ("completions:" +:+ formId session +:+ ":total"));
      let completionTime := (inject_Z (now - started session) / 1000)%Q in
      await! onKV (addToAverage ("avgTime:" +:+ formId session) completionTime);
      if truthyStr (variant session) then
        let v := default "" (variant session) in
        await! onKV (incrementCounter ("variant:" +:+ formId session +:+ ":" +:+ v +:+ ":completions"));
        onKV (addToAverage ("variant:" +:+ formId session +:+ ":" +:+ v +:+ ":avgTime") completionTime)
      else St.ret tt
  end.

Definition markSubmitted (now : Z) (sid : string) : St.M Collector unit :=
  await found <- St.gets (λ c, sessions c !! sid);
  match found with
  | None => St.ret tt
  | Some session =>
      let session := setSubmitted session in
      await! setSession sid session;
      await! onKV (incrementCounter ("submissions:" +:+ formId session +:+ ":" +:+ getDateKey now));
      await! onKV (incrementCounter ("submissions:" +:+ formId session +:+ ":total"));
      await! (if truthyStr (variant session) then
                onKV (incrementCounter ("variant:" +:+ formId session +:+ ":"
                                          +:+ default "" (variant session) +:+ ":submissions"))
              else St.ret tt);
      await! onKV (storeSession session);
      deleteSession sid
  end.

Definition trackDropOff (now : Z) (sid lastFieldId : string) : St.M Collector unit :=
  await found <- St.gets (λ c, sessions c !! sid);
  match found with
  | None => St.ret tt
  | Some session =>
      await! onKV (incrementCounter ("dropoff:" +:+ formId session +:+ ":" +:+ lastFieldId));
      await! onKV (incrementCounter ("abandoned:" +:+ formId session +:+ ":" +:+ getDateKey now));
      deleteSession sid
  end.

(** *** [getAnalytics] *)

Definition div (a b : Z) : Q := (inject_Z a / inject_Z b)%Q.

Definition fieldAnalyticsFor (formId : string) (views : Z) (field : string * string)
    : St.M KV FieldAnalytics :=
  let '(id, label) := field in
  await focuses <- getCounter ("field:" +:+ formId +:+ ":" +:+ id +:+ ":focuses");
  await errors <- getCounter ("field:" +:+ formId +:+ ":" +:+ id +:+ ":errors");
  await dropOffs <- getCounter ("dropoff:" +:+ formId +:+ ":" +:+ id);
  await avgFieldTime <- getAverage ("field:" +:+ formId +:+ ":" +:+ id +:+ ":avgTime");
  await errorMessages <- getTopErrors formId id;
  St.ret {| fa_fieldId := id;
            fa_label := label;
            fa_views := views;
            fa_focuses := focuses;
            fa_completions := if dropOffs <? focuses then focuses - dropOffs else 0;
            fa_errors := errors;
            fa_dropOffs := dropOffs;
            fa_avgTimeSpent := (avgFieldTime / 1000)%Q;
            fa_errorRate := if 0 <? focuses then div errors focuses else 0%Q;
            fa_completionRate :=
              if 0 <? focuses then div (focuses - dropOffs) focuses else 0%Q;
            fa_mostCommonErrors := errorMessages |}.

(** The instants [current] takes in the loop of [getDailyStats]:
    [start], then one day later, as long as [current <= endDate]. *)
Definition dayInstants (start end_ : Z) : list Z :=
  if start <=? end_ then
    map (λ k, start + 86400000 * k) (seqZ 0 ((end_ - start) / 86400000 + 1))
  else [].

Definition getDailyStats (formId : string) (start end_ : Z) : St.M KV (list DayStats) :=
  St.mapM
    (λ current,
       let dateKey := beforeChar "T" (toISOString h current) in
       await views <- getCounter ("views:" +:+ formId +:+ ":" +:+ dateKey);
       await submissions <- getCounter ("submissions:" +:+ formId +:+ ":" +:+ dateKey);
       St.ret {| date := dateKey;
                 day_views := views;
                 day_submissions := submissions;
                 day_conversionRate :=
                   if 0 <? views then div submissions views else 0%Q |})
    (dayInstants start end_).

Definition getDeviceBreakdown (formId : string) : St.M KV (list (string * Breakdown)) :=
  St.mapM
    (λ device,
       await count <- getCounter ("device:" +:+ formId +:+ ":" +:+ device);
       await submissions <-
         getCounter ("device:" +:+ formId +:+ ":" +:+ device +:+ ":submissions");
       St.ret (device,
               {| b_count := count;
                  b_conversionRate :=
                    if 0 <? count then div submissions count else 0%Q |}))
    ["mobile"; "tablet"; "desktop"].

Definition getCountryBreakdown (formId : string) : St.M KV (list (string * Breakdown)) :=
  St.ret [].

Definition getReferrerBreakdown (formId : string) : St.M KV (list (string * Breakdown)) :=
  St.ret [].

Definition getVariantStats (formId : string) : St.M KV (list VariantStats) :=
  await testData <- St.gets (λ kv, abtests kv !! ("abtest:" +:+ formId));
  match testData with
  | None => St.ret []
  | Some testData =>
      St.mapM
        (λ variant,
           let key := "variant:" +:+ formId +:+ ":" +:+ variant_id variant in
           await submissions <- getCounter (key +:+ ":submissions");
           await completions <- getCounter (key +:+ ":completions");
           await avgTime <- getAverage (key +:+ ":avgTime");
           St.ret {| vs_variant := variant_name variant;
                     vs_submissions := submissions;
                     vs_conversionRate :=
                       if 0 <? completions then div submissions completions else 0%Q;
                     vs_avgTime := (avgTime / 1000)%Q |})
        (variants testData)
  end.

Definition getAnalytics (formId : string) (startDate endDate : Z) (formName : string)
    (fields : list (string * string)) : St.M KV FormAnalytics :=
  await views <- getCounter ("views:" +:+ formId +:+ ":total");
  await starts <- getCounter ("starts:" +:+ formId +:+ ":total");
  await completions <- getCounter ("completions:" +:+ formId +:+ ":total");
  await submissions <- getCounter ("submissions:" +:+ formId +:+ ":total");
  await avgTime <- getAverage ("avgTime:" +:+ formId);
  await fieldAnalytics <- St.mapM (fieldAnalyticsFor formId views) fields;
  let funnel :=
    [ {| step := "View"; step_count := views; dropOff := views - starts; rate := 1%Q |};
      {| step := "Start"; step_count := starts; dropOff := starts - completions;
         rate := if 0 <? views then div starts views else 0%Q |};
      {| step := "Complete"; step_count := completions;
         dropOff := completions - submissions;
         rate := if 0 <? views then div completions views else 0%Q |};
      {| step := "Submit"; step_count := submissions; dropOff := 0;
         rate := if 0 <? views then div submissions views else 0%Q |} ] in
  await byDay <- getDailyStats formId startDate endDate;
  await byDevice <- getDeviceBreakdown formId;
  await byCountry <- getCountryBreakdown formId;
  await byReferrer <- getReferrerBreakdown formId;
  await variants <- getVariantStats formId;
  St.ret {| a_formId := formId;
            a_formName := formName;
            a_period := (startDate, endDate);
            a_totals :=
              {| t_views := views;
                 t_starts := starts;
                 t_completions := completions;
                 t_submissions := submissions;
                 t_conversionRate :=
                   if 0 <? views then div submissions views else 0%Q;
                 t_abandonmentRate :=
                   if 0 <? starts then (1 - div submissions starts)%Q else 0%Q;
                 t_avgCompletionTime := (avgTime / 1000)%Q |};
            a_funnel := funnel;
            a_fields := fieldAnalytics;
            a_byDay := byDay;
            a_byDevice := byDevice;
            a_byCountry := byCountry;
            a_byReferrer := byReferrer;
            a_variants :=
              if (0 <? length variants)%nat then Some variants else None |}.

End WithHost.

(** *** [ABTestManager] *)

(** The outcome of a method that may throw. *)
Inductive outcome (A : Type) : Type :=
| Returned (a : A)
| TypeError.
Arguments Returned {A} a.
Arguments TypeError {A}.

Definition simpleHash (str : string) : Z :=
  Z.abs
    (fold_left
       (λ hash char,
          let hash := shl hash 5 - hash + char in
          bitAnd hash hash)
       (charCodes str) 0).

(** The loop of [getVariant]; the threshold is [None] when it is NaN. *)
Fixpoint walkVariants (threshold : option Z) (vs : list Variant) : option string :=
  match vs with
  | [] => None
  | variant :: rest =>
      let threshold := (λ t, t - weight variant) <$> threshold in
      if match threshold with Some t => t <? 0 | None => false end
      then Some (variant_id variant)
      else walkVariants threshold rest
  end.

(** [getVariant] once the running test is at hand. *)
Definition assignVariant (test : ABTest) (sid : string) : outcome (option string) :=
  let hash := simpleHash sid in
  let totalWeight := fold_left (λ sum v, sum + weight v) (variants test) 0 in
  let threshold := jsRem hash totalWeight in
  match walkVariants threshold (variants test) with
  | Some id => Returned (Some id)
  | None =>
      match variants test with
      | first :: _ => Returned (Some (variant_id first))
      | [] => TypeError
      end
  end.

Definition getVariant (formId sid : string) : St.M KV (outcome (option string)) :=
  await test <- St.gets (λ kv, abtests kv !! ("abtest:" +:+ formId));
  match test with
  | None => St.ret (Returned None)
  | Some test =>
      if negb (isRunning (status test)) then St.ret (Returned None)
      else St.ret (assignVariant test sid)
  end.

Definition withId (test : ABTest) (id : string) : ABTest :=
  {| test_id := id; test_formId := test_formId test; test_name := test_name test;
     variants := variants test; startDate := startDate test;
     endDate := endDate test; status := status test;
     winningVariant := winningVariant test |}.

(** [createTest]; the [id] of the argument is not part of the input. *)
Definition createTest (uuid : string) (test : ABTest) : St.M KV ABTest :=
  let fullTest := withId test uuid in
  await! St.modify (putTest ("abtest:" +:+ test_formId test) fullTest);
  St.ret fullTest.

Definition endTest (now : Z) (formId : string) (winner : option string) : St.M KV unit :=
  await test <- St.gets (λ kv, abtests kv !! ("abtest:" +:+ formId));
  match test with
  | None => St.ret tt
  | Some test =>
      St.modify
        (putTest ("abtest:" +:+ formId)
           {| test_id := test_id test; test_formId := test_formId test;
              test_name := test_name test; variants := variants test;
              startDate := startDate test; endDate := Some now;
              status := completed_; winningVariant := winner |})
  end.

End Analytics.

(** ** Conversion tracking: [FormABTestManager] and [CustomerJourneyTracker] *)

Module Conversion.
Import JS.

Inductive TestStatus : Type := running | completed | stopped.

(** A variant as [createTest] stores it. *)
Record TestVariant : Type := {
  tv_id : string;
  tv_name : string;
  tv_config : list (string * jvalue);
  tv_traffic : Q;
  tv_views : Z;
  tv_conversions : Z;
  tv_revenue : Q;
}.

Record Test : Type := {
  test_id : string;
  test_formId : string;
  test_name : string;
  test_variants : list TestVariant;
  test_startedAt : Z;
  test_status : TestStatus;
}.

(** An entry of [ABTestResult.variants]. *)
Record ResultVariant : Type := {
  id : string;
  name : string;
  views : Z;
  conversions : Z;
  conversionRate : Q;
  revenue : Q;
  isWinner : bool;
  confidence : Q;
}.

Record ABTestResult : Type := {
  r_testId : string;
  r_variants : list ResultVariant;
  r_startedAt : Z;
  r_status : TestStatus;
}.

Inductive TouchpointType : Type :=
| form_view | form_submit | email_open | page_view | purchase.

(** The argument of [trackTouchpoint]. *)
Record TouchpointInput : Type := {
  in_type : TouchpointType;
  in_formId : option string;
  in_value : option Q;
  in_metadata : option (list (string * jvalue));
}.

(** A stored touchpoint: [{ ...touchpoint, timestamp: Date.now() }]. *)
Record Touchpoint : Type := {
  tp_type : TouchpointType;
  tp_formId : option string;
  tp_value : option Q;
  tp_metadata : option (list (string * jvalue));
  tp_timestamp : Z;
}.

(** The keys of the namespace these two classes read and write:
    [abtest:<testId>] and [journey:<customerId>]. *)
Record KV : Type := {
  tests : gmap string Test;
  journeys : gmap string (list Touchpoint);
}.

Definition putJourney (key : string) (j : list Touchpoint) (kv : KV) : KV :=
  {| tests := tests kv; journeys := <[key := j]> (journeys kv) |}.

(** *** [FormABTestManager.getResults] *)

Definition toResult (v : TestVariant) : ResultVariant :=
  {| id := tv_id v;
     name := tv_name v;
     views := tv_views v;
     conversions := tv_conversions v;
     conversionRate :=
       if 0 <? tv_views v
       then (inject_Z (tv_conversions v) / inject_Z (tv_views v) * 100)%Q
       else 0%Q;
     revenue := tv_revenue v;
     isWinner := false;
     confidence := 0%Q |}.

(** [Math.min(95, x)] *)
Definition min95 (x : Q) : Q := if Qle_bool 95 x then 95%Q else x.

(** [sorted[0].isWinner = true; sorted[0].confidence = ...] *)
Definition crown (v : ResultVariant) : ResultVariant :=
  {| id := id v; name := name v; views := views v;
     conversions := conversions v; conversionRate := conversionRate v;
     revenue := revenue v;
     isWinner := true;
     confidence := min95 (50 + inject_Z (views v) / 10)%Q |}.

(** The block under [// Determine winner].  [sorted] is a copy of the array
    [variants], and its elements are the very objects of [variants]: an
    element of [sorted] is a position of [variants] together with the
    object there, and the assignment to [sorted[0]] is written through to
    that position. *)
Definition determineWinner (variants : list ResultVariant) : list ResultVariant :=
  let sorted :=
    sortWith
      (λ a b, Qle_bool (conversionRate (snd b) - conversionRate (snd a)) 0)
      (zip (seq 0 (length variants)) variants) in
  match sorted with
  | [] => variants
  | (top, first) :: _ =>
      if (100 <=? views first) && (10 <=? conversions first)
      then <[top := crown first]> variants
      else variants
  end.

Definition getResults (testId : string) : St.M KV (option ABTestResult) :=
  await test <- St.gets (λ kv, tests kv !! ("abtest:" +:+ testId));
  match test with
  | None => St.ret None
  | Some test =>
      let variants := map toResult (test_variants test) in
      let variants := determineWinner variants in
      St.ret (Some {| r_testId := testId;
                      r_variants := variants;
                      r_startedAt := test_startedAt test;
                      r_status := test_status test |})
  end.

(** *** [CustomerJourneyTracker] *)

Definition stamp (now : Z) (t : TouchpointInput) : Touchpoint :=
  {| tp_type := in_type t; tp_formId := in_formId t; tp_value := in_value t;
     tp_metadata := in_metadata t; tp_timestamp := now |}.

Definition trackTouchpoint (now : Z) (customerId : string) (touchpoint : TouchpointInput)
    : St.M KV unit :=
  let key := "journey:" +:+ customerId in
  await stored <- St.gets (λ kv, journeys kv !! key);
  let journey := default [] stored in
  let journey := journey ++ [stamp now touchpoint] in
  let trimmed := sliceLast 100 journey in
  St.modify (putJourney key trimmed).

Definition getJourney (customerId : string) : St.M KV (list Touchpoint) :=
  await stored <- St.gets (λ kv, journeys kv !! ("journey:" +:+ customerId));
  St.ret (default [] stored).

(** A sequence of [trackTouchpoint] calls, each with its clock reading and
    customer, and the touchpoints the sequence records for one customer. *)
Definition trackAll (calls : list (Z * string * TouchpointInput)) : St.M KV unit :=
  St.forEach calls (λ '(now, customerId, t), trackTouchpoint now customerId t).

Definition touchpointsOf (customerId : string)
    (calls : list (Z * string * TouchpointInput)) : list Touchpoint :=
  omap (λ '(now, c, t), if String.eqb c customerId then Some (stamp now t) else None)
    calls.

(** The winner rule in the words of the specification: the variant meets the
    minimum-sample floor and no variant that meets it has a higher
    conversion rate. *)
Definition meetsFloor (r : ResultVariant) : Prop :=
  100 ≤ views r ∧ 10 ≤ conversions r.

Definition bestAmongQualified (rs : list ResultVariant) (r : ResultVariant) : Prop :=
  meetsFloor r
  ∧ ∀ u, u ∈ rs → meetsFloor u → (conversionRate u <= conversionRate r)%Q.

(** *** [CustomerJourneyTracker.calculateValue] *)

Record JourneyValue : Type := {
  totalValue : Q;
  touchpoints : Z;
  firstTouch : Z;
  lastTouch : Z;
  formConversions : Z;
}.

(** ToBoolean on an optional number that is a fraction. *)
Definition truthyQ (q : option Q) : bool :=
  match q with Some q => negb (Qeq_bool q 0) | None => false end.

Definition isFormSubmit (t : TouchpointType) : bool :=
  match t with form_submit => true | _ => false end.

(** The loop over the journey: the running [totalValue] and
    [formConversions]. *)
Definition valueStep (acc : Q * Z) (touch : Touchpoint) : Q * Z :=
  let '(totalValue, formConversions) := acc in
  (if truthyQ (tp_value touch) then (totalValue + default 0%Q (tp_value touch))%Q
   else totalValue,
   if isFormSubmit (tp_type touch) then formConversions + 1 else formConversions).

(** [journey[i]?.timestamp || 0] for the first and the last index: a missing
    element and a timestamp of 0 both give 0. *)
Definition calculateValue (customerId : string) : St.M KV JourneyValue :=
  await journey <- getJourney customerId;
  let '(totalValue, formConversions) := fold_left valueStep journey (0%Q, 0) in
  St.ret {| totalValue := totalValue;
            touchpoints := Z.of_nat (length journey);
            firstTouch := default 0 (tp_timestamp <$> head journey);
            lastTouch := default 0 (tp_timestamp <$> last journey);
            formConversions := formConversions |}.

(** The value of a customer as [calculateValue] reports it. *)
Definition valueOf (customerId : string) (kv : KV) : JourneyValue :=
  fst (calculateValue customerId kv).

(** *** The rest of [FormABTestManager] *)

(** Beside the tests under [abtest:<testId>], the manager keeps plain
    strings under two more kinds of keys: under [abtest:form:<formId>] the
    id of the form's test, and under
    [abtest:assignment:<testId>:<sessionId>] the id of the variant a session
    was given.  [stopTest] adds a property [stoppedAt] to the stored test;
    it is kept here beside the test, under the test's key.  The ids that
    [createTest] makes begin with [test_], so the key of a test it made is
    never the key of one of the strings; the three kinds of keys are kept
    apart. *)
Record TestStore : Type := {
  core : KV;
  formTests : gmap string string;
  assignments : gmap string string;
  stoppedAt : gmap string Z;
}.

Definition putTest (key : string) (t : Test) (s : TestStore) : TestStore :=
  {| core := {| tests := <[key := t]> (tests (core s)); journeys := journeys (core s) |};
     formTests := formTests s; assignments := assignments s;
     stoppedAt := stoppedAt s |}.

Definition putFormTest (key testId : string) (s : TestStore) : TestStore :=
  {| core := core s; formTests := <[key := testId]> (formTests s);
     assignments := assignments s; stoppedAt := stoppedAt s |}.

Definition putAssignment (key variantId : string) (s : TestStore) : TestStore :=
  {| core := core s; formTests := formTests s;
     assignments := <[key := variantId]> (assignments s); stoppedAt := stoppedAt s |}.

(** The argument of [createTest]. *)
Record VariantConfig : Type := {
  vc_id : string;
  vc_name : string;
  vc_config : list (string * jvalue);
}.

Record TestConfig : Type := {
  cfg_formId : string;
  cfg_name : string;
  cfg_variants : list VariantConfig;
  cfg_trafficSplit : option (list Q);
}.

(** [config.trafficSplit?.[i] || 100 / config.variants.length] *)
Definition trafficOf (config : TestConfig) (i : nat) : Q :=
  let given := cfg_trafficSplit config ≫= (λ split, split !! i) in
  if truthyQ given then default 0%Q given
  else (100 / inject_Z (Z.of_nat (length (cfg_variants config))))%Q.

Definition newVariant (config : TestConfig) (i : nat) (v : VariantConfig) : TestVariant :=
  {| tv_id := vc_id v; tv_name := vc_name v; tv_config := vc_config v;
     tv_traffic := trafficOf config i;
     tv_views := 0; tv_conversions := 0; tv_revenue := 0%Q |}.

(** The id [createTest] makes: [test_], the clock reading, an underscore and
    the characters the host draws ([suffix], at most six). *)
Definition newTestId (h : Host) (now : Z) (suffix : string) : string :=
  "test_" +:+ numToString h (inject_Z now) +:+ "_" +:+ suffix.

(** [createTest]; [startedAt] is a second clock reading.  The test stored
    is a new object: it has no [stoppedAt]. *)
Definition createTest (h : Host) (now : Z) (suffix : string) (startedAt : Z)
    (config : TestConfig) : St.M TestStore string :=
  let testId := newTestId h now suffix in
  let test :=
    {| test_id := testId;
       test_formId := cfg_formId config;
       test_name := cfg_name config;
       test_variants := imap (newVariant config) (cfg_variants config);
       test_startedAt := startedAt;
       test_status := running |} in
  await! St.modify (λ s,
           {| core := core (putTest ("abtest:" +:+ testId) test s);
              formTests := formTests s; assignments := assignments s;
              stoppedAt := delete ("abtest:" +:+ testId) (stoppedAt s) |});
  await! St.modify (putFormTest ("abtest:form:" +:+ cfg_formId config) testId);
  St.ret testId.

(** [variants.find(v => v.id === variantId)], and the array after an update
    of the variant found ([None] when there is none). *)
Definition findVariant (variantId : string) (vs : list TestVariant) : option TestVariant :=
  List.find (λ v, String.eqb (tv_id v) variantId) vs.

Fixpoint updateFound (f : TestVariant → TestVariant) (variantId : string)
    (vs : list TestVariant) : option (list TestVariant) :=
  match vs with
  | [] => None
  | v :: rest =>
      if String.eqb (tv_id v) variantId then Some (f v :: rest)
      else (λ rest', v :: rest') <$> updateFound f variantId rest
  end.

Definition withVariants (test : Test) (vs : list TestVariant) : Test :=
  {| test_id := test_id test; test_formId := test_formId test;
     test_name := test_name test; test_variants := vs;
     test_startedAt := test_startedAt test; test_status := test_status test |}.

(** [variant.views += 1] *)
Definition addView (v : TestVariant) : TestVariant :=
  {| tv_id := tv_id v; tv_name := tv_name v; tv_config := tv_config v;
     tv_traffic := tv_traffic v; tv_views := tv_views v + 1;
     tv_conversions := tv_conversions v; tv_revenue := tv_revenue v |}.

(** [variant.conversions += 1; if (revenue) variant.revenue += revenue] *)
Definition addConversion (revenue : option Q) (v : TestVariant) : TestVariant :=
  {| tv_id := tv_id v; tv_name := tv_name v; tv_config := tv_config v;
     tv_traffic := tv_traffic v; tv_views := tv_views v;
     tv_conversions := tv_conversions v + 1;
     tv_revenue := if truthyQ revenue then (tv_revenue v + default 0%Q revenue)%Q
                   else tv_revenue v |}.

Definition updateVariant (f : TestVariant → TestVariant) (testId variantId : string)
    : St.M TestStore unit :=
  await test <- St.gets (λ s, tests (core s) !! ("abtest:" +:+ testId));
  match test with
  | None => St.ret tt
  | Some test =>
      match updateFound f variantId (test_variants test) with
      | None => St.ret tt
      | Some variants =>
          St.modify (putTest ("abtest:" +:+ testId) (withVariants test variants))
      end
  end.

Definition recordView (testId variantId : string) : St.M TestStore unit :=
  updateVariant addView testId variantId.

Definition recordConversion (testId variantId : string) (revenue : option Q)
    : St.M TestStore unit :=
  updateVariant (addConversion revenue) testId variantId.

Definition isRunning (s : TestStatus) : bool :=
  match s with running => true | _ => false end.

(** The loop of [getVariant] over the variants: the first whose cumulative
    traffic reaches [random]. *)
Fixpoint pick (random cumulative : Q) (vs : list TestVariant) : option TestVariant :=
  match vs with
  | [] => None
  | variant :: rest =>
      let cumulative := (cumulative + tv_traffic variant)%Q in
      if Qle_bool random cumulative then Some variant
      else pick random cumulative rest
  end.

(** [selectedVariant] after the loop: [test.variants[0]] unless the loop
    picked one. *)
Definition selectVariant (random : Q) (vs : list TestVariant) : option TestVariant :=
  match pick random 0 vs with
  | Some variant => Some variant
  | None => head vs
  end.

(** What [getVariant] returns: [{ variantId, config }]. *)
Definition answer (v : TestVariant) : string * list (string * jvalue) :=
  (tv_id v, tv_config v).

(** [getVariant]; [random] is [Math.random() * 100].  With no variants
    [selectedVariant] is [undefined], and reading its [id] throws before
    anything is written. *)
Definition getVariant (random : Q) (formId sessionId : string)
    : St.M TestStore (Analytics.outcome (option (string * list (string * jvalue)))) :=
  await testId <- St.gets (λ s, formTests s !! ("abtest:form:" +:+ formId));
  if negb (truthyStr testId) then St.ret (Analytics.Returned None)
  else
    let testId := default "" testId in
    let assignmentKey := "abtest:assignment:" +:+ testId +:+ ":" +:+ sessionId in
    await existing <- St.gets (λ s, assignments s !! assignmentKey);
    if truthyStr existing then
      await test <- St.gets (λ s, tests (core s) !! ("abtest:" +:+ testId));
      St.ret (Analytics.Returned
                (answer <$> (test ≫= λ test,
                               findVariant (default "" existing) (test_variants test))))
    else
      await test <- St.gets (λ s, tests (core s) !! ("abtest:" +:+ testId));
      match test with
      | None => St.ret (Analytics.Returned None)
      | Some test =>
          if negb (isRunning (test_status test)) then St.ret (Analytics.Returned None)
          else
            match selectVariant random (test_variants test) with
            | None => St.ret Analytics.TypeError
            | Some selectedVariant =>
                await! St.modify (putAssignment assignmentKey (tv_id selectedVariant));
                await! recordView testId (tv_id selectedVariant);
                St.ret (Analytics.Returned (Some (answer selectedVariant)))
            end
      end.

(** [stopTest] *)
Definition stopTest (now : Z) (testId : string) : St.M TestStore unit :=
  await test <- St.gets (λ s, tests (core s) !! ("abtest:" +:+ testId));
  match test with
  | None => St.ret tt
  | Some test =>
      St.modify (λ s,
        {| core :=
             core (putTest ("abtest:" +:+ testId)
                     {| test_id := test_id test; test_formId := test_formId test;
                        test_name := test_name test;
                        test_variants := test_variants test;
                        test_startedAt := test_startedAt test;
                        test_status := stopped |} s);
           formTests := formTests s; assignments := assignments s;
           stoppedAt := <["abtest:" +:+ testId := now]> (stoppedAt s) |})
  end.

(** *** [ConversionTracker] *)

Inductive EventType : Type :=
| e_view | e_start | e_field_complete | e_submit | e_success | e_error.

Definition eventName (t : EventType) : string :=
  match t with
  | e_view => "view"
  | e_start => "start"
  | e_field_complete => "field_complete"
  | e_submit => "submit"
  | e_success => "success"
  | e_error => "error"
  end.

Record ConversionEvent : Type := {
  ev_formId : string;
  ev_sessionId : string;
  ev_userId : option string;
  ev_eventType : EventType;
  ev_fieldName : option string;
  ev_timestamp : Z;
  ev_metadata : gmap string jvalue;
}.

(** The daily aggregate of a form, the daily revenue, and a data point of
    the Analytics Engine. *)
Record Aggregate : Type := {
  agg_views : Z;
  agg_starts : Z;
  agg_submits : Z;
  agg_successes : Z;
  agg_errors : Z;
}.

Record Revenue : Type := {
  rev_total : Q;
  rev_count : Z;
}.

Record DataPoint : Type := {
  blobs : list string;
  doubles : list Z;
  indexes : list string;
}.

(** The tracker: the keys [event:...], [aggregate:<formId>:<day>] and
    [revenue:<formId>:<day>] of its namespace, and [this.analytics] with the
    points written to it, oldest first ([None]: no dataset). *)
Record Tracker : Type := {
  events : gmap string ConversionEvent;
  aggregates : gmap string Aggregate;
  revenues : gmap string Revenue;
  dataset : option (list DataPoint);
}.

Definition writeDataPoint (p : DataPoint) (s : Tracker) : Tracker :=
  {| events := events s; aggregates := aggregates s; revenues := revenues s;
     dataset := (λ points, points ++ [p]) <$> dataset s |}.

Definition putEvent (key : string) (e : ConversionEvent) (s : Tracker) : Tracker :=
  {| events := <[key := e]> (events s); aggregates := aggregates s;
     revenues := revenues s; dataset := dataset s |}.

Definition putAggregate (key : string) (a : Aggregate) (s : Tracker) : Tracker :=
  {| events := events s; aggregates := <[key := a]> (aggregates s);
     revenues := revenues s; dataset := dataset s |}.

Definition putRevenue (key : string) (r : Revenue) (s : Tracker) : Tracker :=
  {| events := events s; aggregates := aggregates s;
     revenues := <[key := r]> (revenues s); dataset := dataset s |}.

(** What [getPerformance] and [getFunnel] return. *)
Record FormPerformance : Type := {
  p_formId : string;
  p_views : Z;
  p_starts : Z;
  p_submissions : Z;
  p_successRate : float;
  p_avgCompletionTime : Z;
  p_revenueGenerated : Q;
  p_topDropOffFields : list string;
}.

Record FunnelStep : Type := {
  fs_name : string;
  fs_count : Z;
  fs_conversionRate : float;
  fs_dropOffRate : float;
  fs_avgTimeToNext : Z;
}.

Record ConversionFunnel : Type := {
  f_formId : string;
  f_steps : list FunnelStep;
  f_period : Z * Z;
}.

(** The sums of the loop of [getPerformance]. *)
Record Sums : Type := {
  s_views : Z;
  s_starts : Z;
  s_submissions : Z;
  s_successes : Z;
  s_revenue : Q;
}.

(** The [switch] of [updateAggregates]. *)
Definition countEvent (t : EventType) (data : Aggregate) : Aggregate :=
  match t with
  | e_view =>
      {| agg_views := agg_views data + 1; agg_starts := agg_starts data;
         agg_submits := agg_submits data; agg_successes := agg_successes data;
         agg_errors := agg_errors data |}
  | e_start =>
      {| agg_views := agg_views data; agg_starts := agg_starts data + 1;
         agg_submits := agg_submits data; agg_successes := agg_successes data;
         agg_errors := agg_errors data |}
  | e_submit =>
      {| agg_views := agg_views data; agg_starts := agg_starts data;
         agg_submits := agg_submits data + 1; agg_successes := agg_successes data;
         agg_errors := agg_errors data |}
  | e_success =>
      {| agg_views := agg_views data; agg_starts := agg_starts data;
         agg_submits := agg_submits data; agg_successes := agg_successes data + 1;
         agg_errors := agg_errors data |}
  | e_error =>
      {| agg_views := agg_views data; agg_starts := agg_starts data;
         agg_submits := agg_submits data; agg_successes := agg_successes data;
         agg_errors := agg_errors data + 1 |}
  | e_field_complete => data
  end.

(** The body of the loop of [getPerformance] for one day. *)
Definition addDay (agg : option Aggregate) (rev : option Revenue) (acc : Sums) : Sums :=
  let acc :=
    match agg with
    | Some agg =>
        {| s_views := s_views acc + agg_views agg;
           s_starts := s_starts acc + agg_starts agg;
           s_submissions := s_submissions acc + agg_submits agg;
           s_successes := s_successes acc + agg_successes agg;
           s_revenue := s_revenue acc |}
    | None => acc
    end in
  match rev with
  | Some rev =>
      {| s_views := s_views acc; s_starts := s_starts acc;
         s_submissions := s_submissions acc; s_successes := s_successes acc;
         s_revenue := (s_revenue acc + rev_total rev)%Q |}
  | None => acc
  end.

(** The double that holds an integer count; exact for a count below
    [2^53] in absolute value, as every count of the tracker is. *)
Definition toDouble (n : Z) : float :=
  if n <? 0 then PrimFloat.opp (PrimFloat.of_uint63 (Uint63.of_Z (- n)))
  else PrimFloat.of_uint63 (Uint63.of_Z n).

(** [(a / b) * 100], a division and a multiplication of doubles. *)
Definition percent (a b : Z) : float :=
  PrimFloat.mul (PrimFloat.div (toDouble a) (toDouble b)) 100%float.

Definition funnelSteps (perf : FormPerformance) : list FunnelStep :=
  [ {| fs_name := "View"; fs_count := p_views perf;
       fs_conversionRate := 100%float; fs_dropOffRate := 0%float;
       fs_avgTimeToNext := 0 |};
    {| fs_name := "Start"; fs_count := p_starts perf;
       fs_conversionRate :=
         if 0 <? p_views perf then percent (p_starts perf) (p_views perf)
         else 0%float;
       fs_dropOffRate :=
         if 0 <? p_views perf
         then percent (p_views perf - p_starts perf) (p_views perf)
         else 0%float;
       fs_avgTimeToNext := 0 |};
    {| fs_name := "Submit"; fs_count := p_submissions perf;
       fs_conversionRate :=
         if 0 <? p_starts perf then percent (p_submissions perf) (p_starts perf)
         else 0%float;
       fs_dropOffRate :=
         if 0 <? p_starts perf
         then percent (p_starts perf - p_submissions perf) (p_starts perf)
         else 0%float;
       fs_avgTimeToNext := 0 |} ].

Section WithClock.
(** [daysBefore now i] is the instant of [new Date(now)] after
    [setDate(getDate() - i)], which the host computes in its time zone. *)
Context (h : Host) (daysBefore : Z → Z → Z).

(** [new Date().toISOString().split('T')[0]] at the instant [now] *)
Definition today (now : Z) : string := beforeChar "T" (toISOString h now).

Definition updateAggregates (now : Z) (event : ConversionEvent) : St.M Tracker unit :=
  let key := "aggregate:" +:+ ev_formId event +:+ ":" +:+ today now in
  await stored <- St.gets (λ s, aggregates s !! key);
  let data :=
    default {| agg_views := 0; agg_starts := 0; agg_submits := 0;
               agg_successes := 0; agg_errors := 0 |} stored in
  St.modify (putAggregate key (countEvent (ev_eventType event) data)).

(** [trackEvent]; [now] is the clock reading of [updateAggregates]. *)
Definition trackEvent (now : Z) (event : ConversionEvent) : St.M Tracker unit :=
  await! St.modify
           (writeDataPoint
              {| blobs := [ ev_formId event; ev_sessionId event;
                            eventName (ev_eventType event);
                            orElse (ev_fieldName event) "";
                            orElse (ev_userId event) "" ];
                 doubles := [ev_timestamp event];
                 indexes := [ev_formId event] |});
  let key := "event:" +:+ ev_formId event +:+ ":" +:+ ev_sessionId event +:+ ":"
               +:+ eventName (ev_eventType event) +:+ ":"
               +:+ numToString h (inject_Z (ev_timestamp event)) in
  await! St.modify (putEvent key event);
  updateAggregates now event.

Definition trackRevenue (now : Z) (formId : string) (amount : Q) : St.M Tracker unit :=
  let key := "revenue:" +:+ formId +:+ ":" +:+ today now in
  await stored <- St.gets (λ s, revenues s !! key);
  let current := default {| rev_total := 0; rev_count := 0 |} stored in
  St.modify (putRevenue key {| rev_total := (rev_total current + amount)%Q;
                               rev_count := rev_count current + 1 |}).

(** [trackSuccess]: [timestamp] is [Date.now()], [now] and [later] are the
    clock readings of [updateAggregates] and [trackRevenue].  The metadata
    stored are [{ ...metadata, revenue }]; without a revenue the key is
    [undefined] and not stored. *)
Definition trackSuccess (timestamp now later : Z) (formId sessionId : string)
    (userId : option string) (revenue : option Q) (metadata : gmap string jvalue)
    : St.M Tracker unit :=
  await! trackEvent now
           {| ev_formId := formId; ev_sessionId := sessionId; ev_userId := userId;
              ev_eventType := e_success; ev_fieldName := None;
              ev_timestamp := timestamp;
              ev_metadata :=
                match revenue with
                | Some r => <["revenue" := JNum r]> metadata
                | None => delete "revenue" metadata
                end |};
  if truthyQ revenue then trackRevenue later formId (default 0%Q revenue)
  else St.ret tt.

(** The loop of [getPerformance] over the days [i]. *)
Fixpoint sumDays (formId : string) (now : Z) (days : list Z) (acc : Sums)
    : St.M Tracker Sums :=
  match days with
  | [] => St.ret acc
  | i :: rest =>
      let dateStr := today (daysBefore now i) in
      await agg <- St.gets (λ s, aggregates s
                                   !! ("aggregate:" +:+ formId +:+ ":" +:+ dateStr));
      await rev <- St.gets (λ s, revenues s
                                   !! ("revenue:" +:+ formId +:+ ":" +:+ dateStr));
      sumDays formId now rest (addDay agg rev acc)
  end.

(** The sums the loop computes on a store. *)
Definition daySums (formId : string) (now : Z) (s : Tracker) (days : list Z)
    (acc : Sums) : Sums :=
  fold_left
    (λ acc i,
       addDay
         (aggregates s !! ("aggregate:" +:+ formId +:+ ":" +:+ today (daysBefore now i)))
         (revenues s !! ("revenue:" +:+ formId +:+ ":" +:+ today (daysBefore now i)))
         acc)
    days acc.

(** [getPerformance]; [submissions] in the result is the number of
    successes, and [successRate] divides by the number of submit events. *)
Definition getPerformance (now : Z) (formId : string) (days : Z)
    : St.M Tracker FormPerformance :=
  await sums <- sumDays formId now (seqZ 0 days)
                  {| s_views := 0; s_starts := 0; s_submissions := 0;
                     s_successes := 0; s_revenue := 0 |};
  St.ret {| p_formId := formId;
            p_views := s_views sums;
            p_starts := s_starts sums;
            p_submissions := s_successes sums;
            p_successRate :=
              if 0 <? s_submissions sums
              then percent (s_successes sums) (s_submissions sums) else 0%float;
            p_avgCompletionTime := 0;
            p_revenueGenerated := s_revenue sums;
            p_topDropOffFields := [] |}.

(** [getFunnel]; [now] is the clock reading of [getPerformance], [later]
    is [Date.now()]. *)
Definition getFunnel (now later : Z) (formId : string) (days : Z)
    : St.M Tracker ConversionFunnel :=
  await perf <- getPerformance now formId days;
  let periodStart := later - days * 86400 * 1000 in
  St.ret {| f_formId := formId;
            f_steps := funnelSteps perf;
            f_period := (periodStart, later) |}.

(** What the tracker reports for a form. *)
Definition performanceOf (now : Z) (formId : string) (days : Z) (s : Tracker)
    : FormPerformance :=
  fst (getPerformance now formId days s).

End WithClock.

End Conversion.

(** ** Sample data *)

Module Samples.
Import JS Forms.

(** A host to run the handlers on examples: a number prints as its integer
    part, [parseFloat] reads no number, every pattern compiles and matches,
    the instant [t] prints as [t] followed by a time of day, and a built-in
    function prints as V8 prints it. *)
Definition host : Host :=
  {| numToString := λ q, pretty (Qnum q / Z.pos (Qden q));
     parseFloat := λ _, NaN;
     regexTest := λ _ _, Some true;
     toISOString := λ t, pretty t +:+ "T00:00:00.000Z";
     functionToString := λ name, "function " +:+ name +:+ "() { [native code] }" |}.

Definition noValidation : FieldValidation :=
  {| v_min := None; v_max := None; v_minLength := None; v_maxLength := None;
     v_pattern := None; v_customMessage := None |}.

Definition mkField (id : string) (ty : FieldType) (label : string) (required : bool)
    (validation : option FieldValidation) (order : Z) : FormField :=
  {| field_id := id; field_type := ty; field_label := label;
     field_placeholder := None; field_required := required;
     field_validation := validation; field_options := None;
     field_order := order |}.

Definition settings : FormSettings :=
  {| submitButton := "Submit";
     successMessage := "Thank you for your submission!";
     redirectUrl := None; notifyEmail := None; webhookUrl := None;
     captcha := false; onePerUser := false;
     closedMessage := None; closeDate := None |}.

Definition mkForm (id : string) (fields : list FormField) (published : bool) : Form :=
  {| form_id := id; form_name := "Contact Form"; form_description := None;
     form_fields := fields; form_settings := settings;
     form_createdAt := 1000; form_updatedAt := 1000;
     form_published := published; form_submissions := 0 |}.

Definition world (form : Form) : World :=
  {| forms := {[ "form:" +:+ form_id form := form ]};
     submissions := ∅;
     outbox := [] |}.

Definition request (body : option (gmap string jvalue)) : Request :=
  {| req_body := body; req_ip := None; req_userAgent := None;
     req_referer := None; req_country := None |}.

(** A form whose stored field list is not in the order of the [order]
    properties, and a submission of it: the first field is missing from the
    data, the second holds a quote and a comma. *)
Definition twoFields : list FormField :=
  [ mkField "b" TText "Second" false None 2;
    mkField "a" TText "First" false None 1 ].

Definition quoted : string := "a" +:+ dquote +:+ "b,c".

Definition submission1 : Submission :=
  {| sub_id := "s1"; sub_formId := "f1";
     sub_data := {[ "a" := JStr quoted ]};
     sub_metadata := {| ip := None; userAgent := None; referrer := None;
                        country := None |};
     sub_createdAt := 5 |}.

Definition worldWithSubmission : World :=
  {| forms := {[ "form:f1" := mkForm "f1" twoFields true ]};
     submissions := {[ "submission:f1:s1" := submission1 ]};
     outbox := [] |}.

(** An email field that carries a validation object, and one that does not
    (the shape of the README's example form). *)
Definition emailChecked (required : bool) : FormField :=
  mkField "email" TEmail "Email Address" required (Some noValidation) 0.

Definition emailPlain (required : bool) : FormField :=
  mkField "email" TEmail "Email Address" required None 0.

(** A required field whose id names a member of [Object.prototype]. *)
Definition constructorField : FormField :=
  mkField "constructor" TText "Constructor" true None 0.

(** A form with a number and a checkbox, neither validated, and two
    submissions of it: one holds a zero and [false], the other an object with
    an own key [toString]. *)
Definition countField : FormField := mkField "n" TNumber "Count" false None 0.

Definition countFields : list FormField :=
  [ countField; mkField "agree" TCheckbox "Agree" false None 1 ].

Definition mkSubmission (data : gmap string jvalue) : Submission :=
  {| sub_id := "s2"; sub_formId := "f2"; sub_data := data;
     sub_metadata := {| ip := None; userAgent := None; referrer := None;
                        country := None |};
     sub_createdAt := 7 |}.

Definition submissionZero : Submission :=
  mkSubmission {[ "n" := JNum 0; "agree" := JBool false ]}.

Definition submissionObject : Submission :=
  mkSubmission {[ "n" := JObj [("toString", JStr "x")] ]}.

Definition worldWith (sub : Submission) : World :=
  {| forms := {[ "form:f2" := mkForm "f2" countFields true ]};
     submissions := {[ "submission:f2:s2" := sub ]};
     outbox := [] |}.

(** An email field whose validation object sets a custom message. *)
Definition emailCustom (message : string) : FormField :=
  mkField "email" TEmail "Email Address" false
    (Some {| v_min := None; v_max := None; v_minLength := None;
             v_maxLength := None; v_pattern := None;
             v_customMessage := Some message |}) 0.

(** An empty analytics namespace, a collector with no session, and a running
    test with two weighted variants. *)
Definition emptyKV : Analytics.KV :=
  {| Analytics.counters := ∅; Analytics.averages := ∅;
     Analytics.errorTables := ∅; Analytics.storedSessions := ∅;
     Analytics.abtests := ∅ |}.

Definition emptyCollector : Analytics.Collector :=
  {| Analytics.sessions := ∅; Analytics.kv := emptyKV |}.

Definition focusOn (field : string) (t : Z) : Analytics.FieldInteraction :=
  {| Analytics.fieldId := field; Analytics.type := Analytics.focus;
     Analytics.timestamp := t; Analytics.value := None;
     Analytics.errorMessage := None |}.

Definition mkVariant (id : string) (weight : Z) : Analytics.Variant :=
  {| Analytics.variant_id := id; Analytics.variant_name := id;
     Analytics.weight := weight; Analytics.changes := [] |}.

Definition runningTest : Analytics.ABTest :=
  {| Analytics.test_id := "t1"; Analytics.test_formId := "f1";
     Analytics.test_name := "Button colour";
     Analytics.variants := [mkVariant "A" 30; mkVariant "B" 70];
     Analytics.startDate := 0; Analytics.endDate := None;
     Analytics.status := Analytics.running; Analytics.winningVariant := None |}.

Definition kvWithTest : Analytics.KV :=
  Analytics.putTest "abtest:f1" runningTest emptyKV.

(** A conversion test whose best-converting variant has too few views, and
    150 touchpoints of one customer. *)
Definition mkTestVariant (id : string) (views conversions : Z) : Conversion.TestVariant :=
  {| Conversion.tv_id := id; Conversion.tv_name := id; Conversion.tv_config := [];
     Conversion.tv_traffic := 50%Q; Conversion.tv_views := views;
     Conversion.tv_conversions := conversions; Conversion.tv_revenue := 0%Q |}.

Definition mkTest (variants : list Conversion.TestVariant) : Conversion.Test :=
  {| Conversion.test_id := "t1"; Conversion.test_formId := "f1";
     Conversion.test_name := "Headline"; Conversion.test_variants := variants;
     Conversion.test_startedAt := 0; Conversion.test_status := Conversion.running |}.

Definition conversionKV (test : Conversion.Test) : Conversion.KV :=
  {| Conversion.tests := {[ "abtest:t1" := test ]}; Conversion.journeys := ∅ |}.

Definition smallSampleLeads : Conversion.Test :=
  mkTest [mkTestVariant "A" 10 5; mkTestVariant "B" 1000 100].

Definition clearWinner : Conversion.Test :=
  mkTest [mkTestVariant "A" 1000 100; mkTestVariant "B" 1000 200].

Definition pageView : Conversion.TouchpointInput :=
  {| Conversion.in_type := Conversion.page_view; Conversion.in_formId := None;
     Conversion.in_value := None; Conversion.in_metadata := None |}.

Definition noJourneys : Conversion.KV :=
  {| Conversion.tests := ∅; Conversion.journeys := ∅ |}.

Definition calls150 : list (Z * string * Conversion.TouchpointInput) :=
  map (λ t, (t, "alice", pageView)) (seqZ 1 150).

(** Data for the other routes: a form that closed at 1500, an empty store,
    a body that tries to change the id of a form, and fields of the other
    validated types. *)
Definition closedForm : Form :=
  {| form_id := "f1"; form_name := "Contact Form"; form_description := None;
     form_fields := [];
     form_settings :=
       {| submitButton := "Submit";
          successMessage := "Thank you for your submission!";
          redirectUrl := None; notifyEmail := None; webhookUrl := None;
          captcha := false; onePerUser := false;
          closedMessage := None; closeDate := Some 1500 |};
     form_createdAt := 1000; form_updatedAt := 1000;
     form_published := true; form_submissions := 0 |}.

Definition emptyWorld : World :=
  {| forms := ∅; submissions := ∅; outbox := [] |}.

Definition renamePatch : FormPatch :=
  {| p_id := Some "other"; p_name := Some "Renamed"; p_description := None;
     p_fields := None; p_settings := None; p_createdAt := Some 1;
     p_updatedAt := None; p_published := None; p_submissions := None |}.

Definition phoneField : FormField :=
  mkField "phone" TPhone "Phone" false (Some noValidation) 0.

Definition ageBounds : FieldValidation :=
  {| v_min := Some 18%Q; v_max := Some 65%Q; v_minLength := None;
     v_maxLength := None; v_pattern := None; v_customMessage := None |}.

Definition ageField : FormField :=
  mkField "age" TNumber "Age" false (Some ageBounds) 0.

(** A host that reads [42] as a number. *)
Definition numberHost : Host :=
  {| numToString := numToString host;
     parseFloat := λ s, if String.eqb s "42" then Num 42%Q else NaN;
     regexTest := regexTest host;
     toISOString := toISOString host;
     functionToString := functionToString host |}.

Definition nameLength : FieldValidation :=
  {| v_min := None; v_max := None; v_minLength := Some 2;
     v_maxLength := Some 5; v_pattern := None; v_customMessage := None |}.

Definition nameField : FormField :=
  mkField "name" TText "Name" false (Some nameLength) 0.

(** A collector with one live session, a blur event, and an error table. *)
Definition liveSession : Analytics.FormSession :=
  {| Analytics.sessionId := "sid"; Analytics.formId := "f1";
     Analytics.variant := None; Analytics.started := 1;
     Analytics.completed := None; Analytics.submitted := false;
     Analytics.interactions := [];
     Analytics.device :=
       {| Analytics.device_type := Analytics.desktop; Analytics.browser := "b";
          Analytics.os := "o"; Analytics.screenWidth := 1280;
          Analytics.screenHeight := 800 |};
     Analytics.geo :=
       {| Analytics.country := None; Analytics.region := None;
          Analytics.city := None |};
     Analytics.referrer := None; Analytics.utmParams := None |}.

Definition liveCollector : Analytics.Collector :=
  {| Analytics.sessions := {[ "sid" := liveSession ]}; Analytics.kv := emptyKV |}.

Definition blurOn (field : string) (t : Z) : Analytics.FieldInteraction :=
  {| Analytics.fieldId := field; Analytics.type := Analytics.blur;
     Analytics.timestamp := t; Analytics.value := None;
     Analytics.errorMessage := None |}.

Definition kvWithErrors : Analytics.KV :=
  Analytics.putErrors "analytics:errors:f1:email"
    [("Required", 2); ("Invalid", 5)] emptyKV.

(** The store of a test manager with one running test of form [f1], and a
    configuration of two variants with no traffic split. *)
Definition managerStore : Conversion.TestStore :=
  {| Conversion.core := conversionKV (mkTest [mkTestVariant "A" 0 0; mkTestVariant "B" 0 0]);
     Conversion.formTests := {[ "abtest:form:f1" := "t1" ]};
     Conversion.assignments := ∅;
     Conversion.stoppedAt := ∅ |}.

Definition emptyStore : Conversion.TestStore :=
  {| Conversion.core := noJourneys; Conversion.formTests := ∅;
     Conversion.assignments := ∅; Conversion.stoppedAt := ∅ |}.

Definition twoVariants : Conversion.TestConfig :=
  {| Conversion.cfg_formId := "f1"; Conversion.cfg_name := "Headline";
     Conversion.cfg_variants :=
       [ {| Conversion.vc_id := "A"; Conversion.vc_name := "Control";
            Conversion.vc_config := [] |};
         {| Conversion.vc_id := "B"; Conversion.vc_name := "Short";
            Conversion.vc_config := [("headline", JStr "Hi")] |} ];
     Conversion.cfg_trafficSplit := None |}.

(** A tracker with nothing stored and no dataset, a view of form [f1], and a
    calendar in which a day is 86400000 milliseconds. *)
Definition emptyTracker : Conversion.Tracker :=
  {| Conversion.events := ∅; Conversion.aggregates := ∅;
     Conversion.revenues := ∅; Conversion.dataset := None |}.

Definition viewEvent : Conversion.ConversionEvent :=
  {| Conversion.ev_formId := "f1"; Conversion.ev_sessionId := "sid";
     Conversion.ev_userId := None; Conversion.ev_eventType := Conversion.e_view;
     Conversion.ev_fieldName := None; Conversion.ev_timestamp := 1000;
     Conversion.ev_metadata := ∅ |}.

Definition dayShift (now i : Z) : Z := now - 86400000 * i.

(** A tracker that counted three views and one start of form [f1] on the
    day of the instant 1000. *)
Definition trackerWithViews : Conversion.Tracker :=
  {| Conversion.events := ∅;
     Conversion.aggregates :=
       {[ "aggregate:f1:1000" :=
            {| Conversion.agg_views := 3; Conversion.agg_starts := 1;
               Conversion.agg_submits := 0; Conversion.agg_successes := 0;
               Conversion.agg_errors := 0 |} ]};
     Conversion.revenues := ∅; Conversion.dataset := None |}.

End Samples.

(** * Properties *)

(** ** Regular expressions *)

Section RegexFacts.
Import Regex.

Lemma append_nil_inv (s1 s2 : string) : s1 +:+ s2 = "" → s1 = "" ∧ s2 = "".
Proof. destruct s1; simpl; [auto|discriminate]. Qed.

Lemma nullable_matches r : nullable r = true ↔ matches r "".
Proof.
  split.
  - induction r; simpl; intros Hn; try discriminate.
    + constructor.
    + apply andb_true_iff in Hn as [H1 H2].
      change "" with ("" +:+ ""). constructor; auto.
    + apply orb_true_iff in Hn as [H1|H2]; [apply M_AltL|apply M_AltR]; auto.
    + constructor.
  - intros Hm. remember "" as s eqn:Hs.
    induction Hm; simpl; try reflexivity; try discriminate.
    + apply append_nil_inv in Hs as [-> ->].
      rewrite IHHm1, IHHm2 by reflexivity. reflexivity.
    + rewrite (IHHm Hs). reflexivity.
    + rewrite (IHHm Hs), orb_true_r. reflexivity.
Qed.

Lemma matches_Empty s : ¬ matches Empty s.
Proof. intros Hm. inversion Hm. Qed.

Lemma matches_Cat_iff r1 r2 s :
  matches (Cat r1 r2) s ↔ ∃ s1 s2, s = s1 +:+ s2 ∧ matches r1 s1 ∧ matches r2 s2.
Proof.
  split.
  - intros Hm. inversion Hm; subst. eauto.
  - intros (s1 & s2 & -> & H1 & H2). constructor; assumption.
Qed.

Lemma matches_Eps_iff s : matches Eps s ↔ s = "".
Proof. split; [intros Hm; inversion Hm; reflexivity | intros ->; constructor]. Qed.

Lemma matches_Cls_iff p s : matches (Cls p) s ↔ ∃ c, s = String c "" ∧ p c = true.
Proof.
  split.
  - intros Hm. inversion Hm; subst. eauto.
  - intros (c & -> & Hp). constructor. exact Hp.
Qed.

Lemma matches_Alt_iff r1 r2 s : matches (Alt r1 r2) s ↔ matches r1 s ∨ matches r2 s.
Proof.
  split.
  - intros Hm. inversion Hm; subst; auto.
  - intros [H|H]; [apply M_AltL|apply M_AltR]; exact H.
Qed.

Lemma matches_cat r1 r2 s : matches (cat r1 r2) s ↔ matches (Cat r1 r2) s.
Proof.
  assert (∀ r, matches Empty s ↔ matches (Cat Empty r) s) as HemptyL.
  { intros r. split; intros Hm; [inversion Hm|].
    apply matches_Cat_iff in Hm as (? & ? & _ & H1 & _). inversion H1. }
  assert (∀ r, matches Empty s ↔ matches (Cat r Empty) s) as HemptyR.
  { intros r. split; intros Hm; [inversion Hm|].
    apply matches_Cat_iff in Hm as (? & ? & _ & _ & H2). inversion H2. }
  assert (∀ r, matches r s ↔ matches (Cat Eps r) s) as Heps.
  { intros r. split; intros Hm.
    - change s with ("" +:+ s). constructor; [constructor | exact Hm].
    - apply matches_Cat_iff in Hm as (s1 & s2 & -> & H1 & H2).
      inversion H1; subst. exact H2. }
  destruct r1; simpl; try apply HemptyL;
    destruct r2; simpl; first [apply HemptyR | apply Heps | reflexivity].
Qed.

Lemma matches_alt r1 r2 s : matches (alt r1 r2) s ↔ matches (Alt r1 r2) s.
Proof.
  rewrite matches_Alt_iff.
  destruct r1, r2; simpl; try rewrite matches_Alt_iff; try reflexivity;
    split; intros H; auto;
    try (destruct H as [H|H]; auto; exfalso; exact (matches_Empty _ H)).
Qed.

Lemma append_cons_inv (s1 s2 : string) c s :
  s1 +:+ s2 = String c s →
  (s1 = "" ∧ s2 = String c s) ∨ ∃ s1', s1 = String c s1' ∧ s = s1' +:+ s2.
Proof.
  destruct s1 as [|c1 s1]; simpl; intros Heq.
  - left. auto.
  - injection Heq as -> <-. right. eauto.
Qed.

Lemma matches_Star_cons r c s :
  matches (Star r) (String c s) →
  ∃ s1 s2, s = s1 +:+ s2 ∧ matches r (String c s1) ∧ matches (Star r) s2.
Proof.
  intros Hm. remember (Star r) as r' eqn:Hr. remember (String c s) as t eqn:Ht.
  revert s Ht. induction Hm; intros s0 Ht; try discriminate.
  injection Hr as ->.
  apply append_cons_inv in Ht as [[-> ->]|(s1' & -> & ->)].
  - apply IHHm2; reflexivity.
  - exists s1', s2. auto.
Qed.

Lemma deriv_matches r c s : matches (deriv c r) s ↔ matches r (String c s).
Proof.
  revert s. induction r as [| |p|r1 IH1 r2 IH2|r1 IH1 r2 IH2|r IH]; intros s; simpl.
  - split; intros Hm; inversion Hm.
  - split; intros Hm; inversion Hm.
  - destruct (p c) eqn:Hp.
    + rewrite matches_Eps_iff, matches_Cls_iff. split.
      * intros ->. eauto.
      * intros (c' & [= -> ->] & _). reflexivity.
    + rewrite matches_Cls_iff. split.
      * intros Hm. inversion Hm.
      * intros (c' & [= -> ->] & Hp'). congruence.
  - rewrite matches_alt, matches_Alt_iff, matches_cat, !matches_Cat_iff. split.
    + intros [(s1 & s2 & -> & H1 & H2)|Hm].
      * exists (String c s1), s2. split; [reflexivity|]. split; [apply IH1, H1|exact H2].
      * destruct (nullable r1) eqn:Hn; [|inversion Hm].
        exists "", (String c s). split; [reflexivity|].
        split; [apply nullable_matches, Hn | apply IH2, Hm].
    + intros (s1 & s2 & Heq & H1 & H2). symmetry in Heq.
      apply append_cons_inv in Heq as [[-> ->]|(s1' & -> & ->)].
      * right. apply nullable_matches in H1. rewrite H1. apply IH2, H2.
      * left. exists s1', s2. split; [reflexivity|]. split; [apply IH1, H1|exact H2].
  - rewrite matches_alt, !matches_Alt_iff, IH1, IH2. reflexivity.
  - rewrite matches_cat, matches_Cat_iff. split.
    + intros (s1 & s2 & -> & H1 & H2).
      change (String c (s1 +:+ s2)) with (String c s1 +:+ s2).
      constructor; [apply IH, H1 | exact H2].
    + intros Hm. apply matches_Star_cons in Hm as (s1 & s2 & -> & H1 & H2).
      exists s1, s2. split; [reflexivity|]. split; [apply IH, H1 | exact H2].
Qed.

(** The matcher decides [matches]. *)
Lemma test_matches r s : test r s = true ↔ matches r s.
Proof.
  revert r. induction s as [|c s IH]; intros r; simpl.
  - apply nullable_matches.
  - rewrite IH. apply deriv_matches.
Qed.

Lemma matches_Star_Cls p s : matches (Star (Cls p)) s ↔ allChars p s = true.
Proof.
  split.
  - intros Hm. remember (Star (Cls p)) as r eqn:Hr.
    induction Hm; try discriminate; [reflexivity|].
    injection Hr as ->. apply matches_Cls_iff in Hm1 as (c & -> & Hc).
    simpl. rewrite Hc. simpl. apply IHHm2. reflexivity.
  - induction s as [|c s IH]; simpl; intros Hall; [constructor|].
    apply andb_true_iff in Hall as [Hc Hs].
    change (String c s) with (String c "" +:+ s).
    constructor; [constructor; exact Hc | apply IH, Hs].
Qed.

Lemma matches_Plus_Cls p s :
  matches (Plus (Cls p)) s ↔ s ≠ "" ∧ allChars p s = true.
Proof.
  unfold Plus. rewrite matches_Cat_iff. split.
  - intros (s1 & s2 & -> & H1 & H2).
    apply matches_Cls_iff in H1 as (c & -> & Hc).
    apply matches_Star_Cls in H2. split; [discriminate|].
    change (String c "" +:+ s2) with (String c s2).
    simpl. rewrite Hc. exact H2.
  - intros [Hne Hall]. destruct s as [|c s]; [congruence|].
    simpl in Hall. apply andb_true_iff in Hall as [Hc Hs].
    exists (String c ""), s. split; [reflexivity|].
    split; [constructor; exact Hc | apply matches_Star_Cls, Hs].
Qed.

(** The email expression of [validateField] matches exactly the strings of
    the shape [local@domain.tld]. *)
Lemma emailRegex_shape s : test emailRegex s = true ↔ emailShape s.
Proof.
  rewrite test_matches. unfold emailRegex, emailShape, word. split.
  - intros Hm.
    apply matches_Cat_iff in Hm as (a & rest & -> & Ha & Hm).
    apply matches_Cat_iff in Hm as (at_ & rest' & -> & Hat & Hm).
    apply matches_Cat_iff in Hm as (b & rest'' & -> & Hb & Hm).
    apply matches_Cat_iff in Hm as (dot & c & -> & Hdot & Hc).
    apply matches_Cls_iff in Hat as (x & -> & Hx). apply Ascii.eqb_eq in Hx as ->.
    apply matches_Cls_iff in Hdot as (y & -> & Hy). apply Ascii.eqb_eq in Hy as ->.
    apply matches_Plus_Cls in Ha, Hb, Hc.
    exists a, b, c. split; [reflexivity|]. auto.
  - intros (a & b & c & -> & Ha & Hb & Hc).
    apply matches_Plus_Cls in Ha, Hb, Hc.
    repeat (constructor; try assumption); reflexivity.
Qed.

End RegexFacts.

(** ** The form application *)

Section FormsFacts.
Import JS Forms.
Context (h : Host).

Lemma checkFields_app body pre post :
  checkFields h body (pre ++ post)
  = andThen (checkFields h body pre) (checkFields h body post).
Proof.
  induction pre as [|f pre IH]; simpl; [reflexivity|].
  rewrite IH. destruct (checkField h body f); reflexivity.
Qed.

(** Up to the field loop, [submit] on an open, published form with a
    readable body is decided by [checkFields]. *)
Lemma submit_open_form w id req now uuid form body :
  forms w !! ("form:" +:+ id) = Some form →
  form_published form = true →
  isClosed form now = false →
  req_body req = Some body →
  ∀ error, checkFields h body (form_fields form) = Fail error →
  submit h id req now uuid w = (RespError 400 error, w).
Proof.
  intros Hform Hpub Hclosed Hbody error Hcheck.
  unfold submit, St.bind, getForm, St.gets, St.ret.
  rewrite Hform, Hpub. simpl.
  rewrite Hclosed, Hbody, Hcheck. reflexivity.
Qed.

(** C2. A form with [published = false] answers every submit request, whatever
    its body, even an unreadable one, with HTTP 400 and the message
    [Form is not accepting submissions]; the store (forms, submissions, so
    also the submission counter) and the webhook outbox are unchanged, and
    the answer does not depend on the fields. *)
Theorem submit_unpublished_rejected w id req now uuid form :
  forms w !! ("form:" +:+ id) = Some form →
  form_published form = false →
  submit h id req now uuid w
  = (RespError 400 "Form is not accepting submissions", w).
Proof.
  intros Hform Hpub.
  unfold submit, St.bind, getForm, St.gets, St.ret.
  rewrite Hform, Hpub. reflexivity.
Qed.

Lemma Falsy_truthy (v : option jvalue) : Falsy v ↔ truthy v = false.
Proof.
  split.
  - intros [ | | | q Hq | ]; simpl; try reflexivity.
    apply negb_false_iff, Qeq_bool_iff, Hq.
  - destruct v as [[ | [|] | q | s | items | members]|]; simpl; intros Hv;
      try discriminate; try constructor.
    + apply Qeq_bool_iff, negb_false_iff, Hv.
    + apply negb_false_iff, String.eqb_eq in Hv. subst s. constructor.
Qed.

(** [body[key]] is the own value when there is one, and the member of
    [Object.prototype] otherwise. *)
Lemma getProperty_own (body : gmap string jvalue) key v :
  body !! key = Some v → getProperty body key = Some (Json v).
Proof. intros Hv. unfold getProperty. rewrite Hv. reflexivity. Qed.

Lemma getProperty_absent (body : gmap string jvalue) key :
  body !! key = None → getProperty body key = inherited key.
Proof. intros Hv. unfold getProperty. rewrite Hv. reflexivity. Qed.

Lemma inherited_truthy key : truthyAny (inherited key) = negb (bool_decide (inherited key = None)).
Proof.
  unfold inherited.
  destruct (String.eqb key "__proto__"); [reflexivity|].
  destruct (String.eqb key "constructor"); [reflexivity|].
  destruct (existsb (String.eqb key) objectMethods); reflexivity.
Qed.

(** The keys that [Object.prototype] answers. *)
Lemma inherited_spec key :
  (key = "__proto__" → inherited key = Some ObjectPrototype)
  ∧ (key = "constructor" → inherited key = Some (NativeFunction "Object"))
  ∧ (key ∈ objectMethods → inherited key = Some (NativeFunction key))
  ∧ (key ∉ "__proto__" :: "constructor" :: objectMethods → inherited key = None).
Proof.
  split; [intros ->; reflexivity|]. split; [intros ->; reflexivity|].
  assert (existsb (String.eqb key) objectMethods = true ↔ key ∈ objectMethods) as Hm.
  { rewrite existsb_exists. split.
    - intros (m & Hin & Heq). apply String.eqb_eq in Heq. subst m.
      apply list_elem_of_In, Hin.
    - intros Hin. exists key. split; [apply list_elem_of_In, Hin|apply String.eqb_refl]. }
  split.
  - intros Hin. unfold inherited.
    destruct (String.eqb key "__proto__") eqn:Hp.
    { apply String.eqb_eq in Hp. subst key. vm_compute in Hin.
      repeat (apply elem_of_cons in Hin as [Hin|Hin]; [discriminate Hin|]).
      by apply elem_of_nil in Hin. }
    destruct (String.eqb key "constructor") eqn:Hc.
    { apply String.eqb_eq in Hc. subst key. vm_compute in Hin.
      repeat (apply elem_of_cons in Hin as [Hin|Hin]; [discriminate Hin|]).
      by apply elem_of_nil in Hin. }
    apply Hm in Hin. rewrite Hin. reflexivity.
  - intros Hout. unfold inherited.
    destruct (String.eqb key "__proto__") eqn:Hp.
    { apply String.eqb_eq in Hp. subst key. exfalso. apply Hout. left. }
    destruct (String.eqb key "constructor") eqn:Hc.
    { apply String.eqb_eq in Hc. subst key. exfalso. apply Hout. right. left. }
    destruct (existsb (String.eqb key) objectMethods) eqn:He; [|reflexivity].
    exfalso. apply Hout. right. right. apply Hm. reflexivity.
Qed.

(** An object with an own key [toString] has no conversion to a string;
    any other object converts to [[object Object]]. *)
Lemma toString_object members :
  (∀ x, ("toString", x) ∈ members → toString h (JObj members) = None)
  ∧ ("toString" ∉ map fst members → toString h (JObj members) = Some "[object Object]").
Proof.
  cbn [toString]. unfold ownToString. split.
  - intros x Hin.
    assert (existsb (λ m : string * jvalue, String.eqb (fst m) "toString") members = true)
      as ->; [|reflexivity].
    apply existsb_exists. exists ("toString", x). split; [apply list_elem_of_In, Hin|].
    reflexivity.
  - intros Hout.
    destruct (existsb _ members) eqn:He; [|reflexivity].
    apply existsb_exists in He as (m & Hin & Heq). apply String.eqb_eq in Heq.
    exfalso. apply Hout. apply list_elem_of_fmap. exists m. split; [congruence|].
    apply list_elem_of_In, Hin.
Qed.

(** A falsy own value, or no own value under a key that [Object.prototype]
    does not have either, reads as falsy. *)
Lemma falsy_read (body : gmap string jvalue) key :
  Falsy (body !! key) →
  (body !! key = None → inherited key = None) →
  truthyAny (getProperty body key) = false.
Proof.
  intros Hv Hproto. unfold getProperty.
  destruct (body !! key) as [v|] eqn:Hlook.
  - apply Falsy_truthy in Hv. exact Hv.
  - rewrite (Hproto eq_refl). reflexivity.
Qed.

(** The loop body reads the request body at the field's id only. *)
Lemma checkField_ext body body' field :
  getProperty body (field_id field) = getProperty body' (field_id field) →
  checkField h body field = checkField h body' field.
Proof. intros Heq. unfold checkField. rewrite Heq. reflexivity. Qed.

Lemma checkField_falsy body field :
  truthyAny (getProperty body (field_id field)) = false →
  checkField h body field
  = if field_required field
    then Fail ("Field " +:+ dquote +:+ field_label field +:+ dquote +:+ " is required")
    else Pass.
Proof.
  intros Hv. unfold checkField. rewrite Hv.
  destruct (field_required field); reflexivity.
Qed.

Lemma checkFields_delete_falsy body key fields :
  truthyAny (getProperty body key) = false →
  inherited key = None →
  checkFields h (delete key body) fields = checkFields h body fields.
Proof.
  intros Hv Hproto. induction fields as [|f fields IH]; simpl; [reflexivity|].
  rewrite IH. f_equal.
  destruct (decide (field_id f = key)) as [Heq|Hne].
  - rewrite (checkField_falsy body f) by (rewrite Heq; assumption).
    apply checkField_falsy. rewrite Heq.
    rewrite getProperty_absent by apply lookup_delete_eq.
    rewrite Hproto. reflexivity.
  - apply checkField_ext. unfold getProperty.
    rewrite lookup_delete_ne by congruence. reflexivity.
Qed.

(** The answer of [submit] is decided by the stored form, the clock and the
    outcome of the field loop. *)
Lemma submit_response_by_check w id req req' now uuid body body' :
  req_body req = Some body →
  req_body req' = Some body' →
  (∀ form, forms w !! ("form:" +:+ id) = Some form →
     checkFields h body (form_fields form) = checkFields h body' (form_fields form)) →
  fst (submit h id req now uuid w) = fst (submit h id req' now uuid w).
Proof.
  intros Hb Hb' Hcheck.
  unfold submit, St.bind, getForm, St.gets, St.ret.
  destruct (forms w !! ("form:" +:+ id)) as [form|] eqn:Hform; [|reflexivity].
  specialize (Hcheck form eq_refl).
  destruct (negb (form_published form)); [reflexivity|].
  destruct (isClosed form now); [reflexivity|].
  rewrite Hb, Hb', Hcheck.
  destruct (checkFields h body' (form_fields form)); try reflexivity.
  simpl. unfold putSubmission, putForm, fetch, St.modify. simpl.
  destruct (truthyStr (webhookUrl (form_settings form)));
    destruct (truthyStr (redirectUrl (form_settings form))); reflexivity.
Qed.

(** On an open, published form whose earlier fields pass, a field whose
    submitted value is falsy (empty string, zero, [false] or [null]), or
    which is absent from the body under an id that is no member of
    [Object.prototype]: the loop body answers the required-field error when
    the field is required and nothing otherwise, whatever the field's
    validation says ([validateField] is not consulted); a required field is
    rejected with HTTP 400 and the message made of [Field], the label
    between double quotes and [is required], the store unchanged; and when
    the id is no member of [Object.prototype], the answer is the one given
    to the same body without that field. *)
Lemma falsy_value_treated_as_absent w id req now uuid form body pre field post :
  forms w !! ("form:" +:+ id) = Some form →
  form_published form = true →
  isClosed form now = false →
  req_body req = Some body →
  form_fields form = pre ++ field :: post →
  checkFields h body pre = Pass →
  Falsy (body !! field_id field) →
  (body !! field_id field = None → inherited (field_id field) = None) →
  checkField h body field
  = (if field_required field
     then Fail ("Field " +:+ dquote +:+ field_label field +:+ dquote +:+ " is required")
     else Pass)
  ∧ (field_required field = true →
     submit h id req now uuid w
     = (RespError 400
          ("Field " +:+ dquote +:+ field_label field +:+ dquote +:+ " is required"), w))
  ∧ (inherited (field_id field) = None →
     fst (submit h id req now uuid w)
     = fst (submit h id (withBody req (delete (field_id field) body)) now uuid w)).
Proof.
  intros Hform Hpub Hclosed Hbody Hfields Hpre Hv Hproto.
  pose proof (falsy_read body (field_id field) Hv Hproto) as Hread.
  split; [apply checkField_falsy, Hread|]. split.
  - intros Hreq.
    apply (submit_open_form w id req now uuid form body); try assumption.
    rewrite Hfields, checkFields_app, Hpre. simpl.
    rewrite checkField_falsy, Hreq by assumption. reflexivity.
  - intros Hnone.
    apply (submit_response_by_check w id req _ now uuid body
             (delete (field_id field) body)); [assumption|reflexivity|].
    intros form' _. symmetry. apply checkFields_delete_falsy; assumption.
Qed.

(** A required field that the body lacks, under an id that names a member
    of [Object.prototype], reads as that member, which is truthy: the
    required check passes. *)
Lemma absent_inherited_passes_required body field :
  body !! field_id field = None →
  inherited (field_id field) ≠ None →
  field_validation field = None →
  checkField h body field = Pass.
Proof.
  intros Hnone Hproto Hval. unfold checkField.
  rewrite (getProperty_absent body _ Hnone), inherited_truthy.
  rewrite bool_decide_eq_false_2 by exact Hproto. cbn [negb].
  rewrite andb_false_r.
  destruct (inherited (field_id field)); [|reflexivity].
  unfold validateField. rewrite Hval. reflexivity.
Qed.

Lemma validateField_invalid_email field validation s :
  field_type field = TEmail →
  field_validation field = Some validation →
  Regex.test Regex.emailRegex s = false →
  validateField h field (JStr s)
  = Fail (orElse (v_customMessage validation)
            (field_label field +:+ " must be a valid email")).
Proof.
  intros Hty Hval Hre. unfold validateField, validateEmail.
  rewrite Hval, Hty. simpl. rewrite Hre. reflexivity.
Qed.

(** For an email field that carries a validation object and a submitted
    string that does not match the email expression (by [emailRegex_shape],
    a string not of the shape local@domain.tld), [validateField] returns an
    error: the custom message when one is set and not empty, otherwise the
    label followed by [must be a valid email]; and when the string is not
    empty and the earlier fields of an open, published form pass, [submit]
    answers HTTP 400 with that message.  A field without a validation
    object is never checked: [validateField] returns before the test. *)
Lemma invalid_email_rejected w id req now uuid form body pre field post validation s :
  field_type field = TEmail →
  field_validation field = Some validation →
  Regex.test Regex.emailRegex s = false →
  s ≠ "" →
  forms w !! ("form:" +:+ id) = Some form →
  form_published form = true →
  isClosed form now = false →
  req_body req = Some body →
  form_fields form = pre ++ field :: post →
  checkFields h body pre = Pass →
  body !! field_id field = Some (JStr s) →
  validateField h field (JStr s)
  = Fail (orElse (v_customMessage validation)
            (field_label field +:+ " must be a valid email"))
  ∧ submit h id req now uuid w
    = (RespError 400
         (orElse (v_customMessage validation)
            (field_label field +:+ " must be a valid email")), w).
Proof.
  intros Hty Hval Hre Hne Hform Hpub Hclosed Hbody Hfields Hpre Hlook.
  pose proof (validateField_invalid_email field validation s Hty Hval Hre) as Hv.
  split; [exact Hv|].
  apply (submit_open_form w id req now uuid form body); try assumption.
  rewrite Hfields, checkFields_app, Hpre. simpl.
  unfold checkField. rewrite (getProperty_own body _ _ Hlook). simpl.
  assert (String.eqb s "" = false) as -> by (apply String.eqb_neq, Hne).
  rewrite andb_false_r. simpl. rewrite Hv. reflexivity.
Qed.

Lemma validateField_unchecked field (value : any) :
  field_validation field = None → validateField h field value = Pass.
Proof. intros Hval. unfold validateField. rewrite Hval. reflexivity. Qed.

Lemma mapM_gets {S A B} (f : A → S → B) (xs : list A) (s : S) :
  St.mapM (λ x, St.gets (f x)) xs s = (map (λ x, f x s) xs, s).
Proof.
  induction xs as [|x xs IH]; [reflexivity|].
  simpl. unfold St.bind at 1. unfold St.gets at 1.
  unfold St.bind at 1. rewrite IH. reflexivity.
Qed.

(** The submissions [export] reads: one per stored key under the prefix;
    the answer is the CSV built from them, or an uncaught exception. *)
Lemma export_reads w id form :
  forms w !! ("form:" +:+ id) = Some form →
  ∃ subs,
    export h id w
    = (match buildCsv h form subs with
       | Some csv => RespCsv csv (form_name form +:+ "-submissions.csv")
       | None => RespUncaught
       end, w)
    ∧ ∀ sub, sub ∈ subs ↔
        ∃ key, String.prefix ("submission:" +:+ id +:+ ":") key = true
               ∧ submissions w !! key = Some sub.
Proof.
  intros Hform.
  unfold export, St.bind, getForm, listSubmissionKeys.
  unfold St.gets at 1. rewrite Hform. unfold St.gets at 1.
  unfold getSubmission. rewrite mapM_gets. unfold St.ret.
  match goal with |- context [buildCsv h form ?l] => exists l end.
  split; [destruct (buildCsv _ _ _); reflexivity|].
  intros sub. rewrite list_elem_of_omap. split.
  - intros (o & Ho & ->). apply list_elem_of_fmap in Ho as (key & Hkey & Hin).
    exists key. split; [|symmetry; exact Hkey].
    rewrite merge_sort_Permutation in Hin.
    apply list_elem_of_filter in Hin as [Hp _].
    apply Is_true_true, Hp.
  - intros (key & Hp & Hsub). exists (Some sub). split; [|reflexivity].
    apply list_elem_of_fmap. exists key. split; [symmetry; exact Hsub|].
    rewrite merge_sort_Permutation. apply list_elem_of_filter. split.
    + apply Is_true_true, Hp.
    + apply list_elem_of_fmap. exists (key, sub). split; [reflexivity|].
      apply elem_of_map_to_list, Hsub.
Qed.

(** The cell of a field in the row of a submission, by what the data holds
    under the field's id. *)
Lemma cell_of_truthy sub f v :
  sub_data sub !! field_id f = Some v →
  truthy (Some v) = true →
  csvCell h (cellValue sub f)
  = match toString h v with
    | Some text =>
        Some (dquote +:+ replaceAll "034" (dquote +:+ dquote) text +:+ dquote)
    | None => None
    end.
Proof.
  intros Hv Ht. unfold cellValue. rewrite (getProperty_own _ _ _ Hv).
  cbn [truthyAny]. rewrite Ht. reflexivity.
Qed.

Lemma cell_of_falsy sub f v :
  sub_data sub !! field_id f = Some v →
  truthy (Some v) = false →
  csvCell h (cellValue sub f) = Some (dquote +:+ dquote).
Proof.
  intros Hv Ht. unfold cellValue. rewrite (getProperty_own _ _ _ Hv).
  cbn [truthyAny]. rewrite Ht. reflexivity.
Qed.

Lemma cell_of_absent sub f :
  sub_data sub !! field_id f = None →
  csvCell h (cellValue sub f)
  = match inherited (field_id f) with
    | Some (NativeFunction name) =>
        Some (dquote +:+ replaceAll "034" (dquote +:+ dquote) (functionToString h name)
                +:+ dquote)
    | Some ObjectPrototype => Some (dquote +:+ "[object Object]" +:+ dquote)
    | _ => Some (dquote +:+ dquote)
    end.
Proof.
  intros Hv. unfold cellValue. rewrite (getProperty_absent _ _ Hv).
  unfold inherited.
  destruct (String.eqb (field_id f) "__proto__"); [reflexivity|].
  destruct (String.eqb (field_id f) "constructor"); [reflexivity|].
  destruct (existsb (String.eqb (field_id f)) objectMethods); reflexivity.
Qed.

(** A cell throws exactly for a truthy own value without a conversion. *)
Lemma cell_throws sub f :
  csvCell h (cellValue sub f) = None
  ↔ ∃ v, sub_data sub !! field_id f = Some v
         ∧ truthy (Some v) = true ∧ toString h v = None.
Proof.
  destruct (sub_data sub !! field_id f) as [v|] eqn:Hv.
  - destruct (truthy (Some v)) eqn:Ht.
    + rewrite (cell_of_truthy sub f v Hv Ht). split.
      * intros Hnone. exists v. destruct (toString h v); [discriminate|].
        repeat split; assumption.
      * intros (v' & [= <-] & _ & ->). reflexivity.
    + rewrite (cell_of_falsy sub f v Hv Ht). split; [discriminate|].
      intros (v' & [= <-] & Ht' & _). congruence.
  - rewrite (cell_of_absent sub f Hv). split.
    + destruct (inherited (field_id f)) as [[]|]; discriminate.
    + intros (v' & [=] & _).
Qed.

Lemma mapM_map {A B C} (g : A → B) (f : B → option C) (l : list A) :
  mapM f (map g l) = mapM (λ x, f (g x)) l.
Proof.
  induction l as [|x l IH]; [reflexivity|].
  cbn [map mapM]. rewrite IH. reflexivity.
Qed.

(** What a line of the CSV holds for a submission: the quoted id, the
    quoted timestamp, then one cell per stored field. *)
Lemma csvLine_row form sub :
  csvLine h (csvRow h form sub)
  = match mapM (λ f, csvCell h (cellValue sub f)) (form_fields form) with
    | Some cells =>
        Some (String.concat ","
                ((dquote +:+ replaceAll "034" (dquote +:+ dquote) (sub_id sub) +:+ dquote)
                 :: (dquote +:+ replaceAll "034" (dquote +:+ dquote)
                       (toISOString h (sub_createdAt sub)) +:+ dquote)
                 :: cells))
    | None => None
    end.
Proof.
  unfold csvLine, csvRow. cbn [mapM]. rewrite mapM_map.
  destruct (mapM _ (form_fields form)); reflexivity.
Qed.

Lemma csvLine_throws form sub :
  csvLine h (csvRow h form sub) = None
  ↔ ∃ f v, f ∈ form_fields form ∧ sub_data sub !! field_id f = Some v
           ∧ truthy (Some v) = true ∧ toString h v = None.
Proof.
  rewrite csvLine_row. split.
  - destruct (mapM _ (form_fields form)) eqn:Hcells; [discriminate|]. intros _.
    apply mapM_None, Exists_exists in Hcells as (f & Hin & Hcell).
    apply cell_throws in Hcell as (v & Hv & Ht & Hs). exists f, v. auto.
  - intros (f & v & Hin & Hv & Ht & Hs).
    assert (mapM (λ f, csvCell h (cellValue sub f)) (form_fields form) = None) as ->;
      [|reflexivity].
    apply mapM_None, Exists_exists. exists f. split; [exact Hin|].
    apply cell_throws. exists v. auto.
Qed.

(** C4, amended. [export] changes nothing.  When some stored submission of
    the form holds, under the id of a field, a truthy value that [String]
    cannot convert (such as an object with an own key [toString]), the
    handler throws and the answer is 500.  Otherwise the answer is the CSV
    named after the form: the header line followed by one line per stored
    submission, joined by newlines; the header row is [Submission ID],
    [Submitted At], then the field labels in the order of the stored field
    list, whatever their [order] properties; each data row holds the quoted
    submission id, the quoted timestamp, then one quoted cell per field in
    that same order.  The cell of a field holds [String(v)] for a truthy
    value [v] stored under the field's id (a string itself), and is empty
    (two double quotes) for a value that is [null], [false], zero or the
    empty string and for a missing value; under an id that names a member
    of [Object.prototype], a missing value reads as that member and the
    cell holds its text. *)
Theorem export_csv_layout w id form :
  forms w !! ("form:" +:+ id) = Some form →
  ∃ subs,
    (∀ sub, sub ∈ subs ↔
       ∃ key, String.prefix ("submission:" +:+ id +:+ ":") key = true
              ∧ submissions w !! key = Some sub)
    ∧ snd (export h id w) = w
    ∧ ((∃ sub f v, sub ∈ subs ∧ f ∈ form_fields form
                   ∧ sub_data sub !! field_id f = Some v
                   ∧ ¬ Falsy (Some v) ∧ toString h v = None) →
       fst (export h id w) = RespUncaught)
    ∧ ((∃ sub f members x, sub ∈ subs ∧ f ∈ form_fields form
                           ∧ sub_data sub !! field_id f = Some (JObj members)
                           ∧ ("toString", x) ∈ members) →
       fst (export h id w) = RespUncaught)
    ∧ ((∀ sub f v, sub ∈ subs → f ∈ form_fields form →
                   sub_data sub !! field_id f = Some v →
                   ¬ Falsy (Some v) → toString h v ≠ None) →
       ∃ rows,
         fst (export h id w)
         = RespCsv
             (String.concat newline
                (String.concat ","
                   ("Submission ID" :: "Submitted At"
                      :: map field_label (form_fields form))
                 :: map (String.concat ",") rows))
             (form_name form +:+ "-submissions.csv")
         ∧ Forall2
             (λ sub row,
                ∃ cells,
                  row = (dquote +:+ replaceAll "034" (dquote +:+ dquote) (sub_id sub)
                           +:+ dquote)
                        :: (dquote +:+ replaceAll "034" (dquote +:+ dquote)
                              (toISOString h (sub_createdAt sub)) +:+ dquote)
                        :: cells
                  ∧ Forall2
                      (λ f cell,
                         (∀ v, sub_data sub !! field_id f = Some v →
                               ¬ Falsy (Some v) →
                               ∃ text, toString h v = Some text
                                       ∧ cell = dquote
                                                +:+ replaceAll "034" (dquote +:+ dquote) text
                                                +:+ dquote)
                         ∧ (∀ s, sub_data sub !! field_id f = Some (JStr s) →
                                 cell = dquote
                                        +:+ replaceAll "034" (dquote +:+ dquote) s
                                        +:+ dquote)
                         ∧ (∀ v, sub_data sub !! field_id f = Some v →
                                 Falsy (Some v) →
                                 cell = dquote +:+ dquote)
                         ∧ (sub_data sub !! field_id f = None →
                            field_id f ∉ "__proto__" :: "constructor" :: objectMethods →
                            cell = dquote +:+ dquote)
                         ∧ (sub_data sub !! field_id f = None →
                            field_id f ∈ objectMethods →
                            cell = dquote
                                   +:+ replaceAll "034" (dquote +:+ dquote)
                                         (functionToString h (field_id f))
                                   +:+ dquote)
                         ∧ (sub_data sub !! field_id f = None →
                            field_id f = "constructor" →
                            cell = dquote
                                   +:+ replaceAll "034" (dquote +:+ dquote)
                                         (functionToString h "Object")
                                   +:+ dquote)
                         ∧ (sub_data sub !! field_id f = None →
                            field_id f = "__proto__" →
                            cell = dquote +:+ "[object Object]" +:+ dquote))
                      (form_fields form) cells)
             subs rows).
Proof.
  intros Hform.
  assert (∀ v, ¬ Falsy (Some v) ↔ truthy (Some v) = true) as Htruthy.
  { intros v. rewrite Falsy_truthy. destruct (truthy (Some v)); split; congruence. }
  destruct (export_reads w id form Hform) as (subs & Hexport & Hsubs).
  exists subs. split; [exact Hsubs|]. rewrite Hexport. cbn [fst snd].
  split; [reflexivity|]. unfold buildCsv. cbv zeta. rewrite mapM_map.
  assert ((∃ sub f v, sub ∈ subs ∧ f ∈ form_fields form
                      ∧ sub_data sub !! field_id f = Some v
                      ∧ ¬ Falsy (Some v) ∧ toString h v = None) →
          mapM (λ x, csvLine h (csvRow h form x)) subs = None) as Hthrow.
  { intros (sub & f & v & Hsub & Hf & Hv & Ht & Hs).
    apply mapM_None, Exists_exists. exists sub. split; [exact Hsub|].
    apply csvLine_throws. exists f, v. apply Htruthy in Ht. auto. }
  split; [|split].
  - intros Hex. rewrite (Hthrow Hex). reflexivity.
  - intros (sub & f & members & x & Hsub & Hf & Hv & Hx).
    rewrite Hthrow; [reflexivity|].
    exists sub, f, (JObj members). repeat split; try assumption.
    + intros Hfalsy. inversion Hfalsy.
    + exact (proj1 (toString_object members) x Hx).
  - intros Hok.
    destruct (mapM (λ x, csvLine h (csvRow h form x)) subs) as [lines|] eqn:Hlines.
    2:{ apply mapM_None, Exists_exists in Hlines as (sub & Hsub & Hline).
        apply csvLine_throws in Hline as (f & v & Hf & Hv & Ht & Hs).
        apply Htruthy in Ht.
        exfalso. exact (Hok sub f v Hsub Hf Hv Ht Hs). }
    apply mapM_Some in Hlines. clear Hok Hexport Hsubs Hthrow.
    match goal with
    | |- ∃ rows, _ ∧ Forall2 ?P _ rows =>
        assert (∃ rows, lines = map (String.concat ",") rows ∧ Forall2 P subs rows)
          as (rows & -> & Hrows)
    end; [|exists rows; split; [reflexivity|exact Hrows]].
    induction Hlines as [|sub line subs lines Hline _ IH].
    + exists []. split; [reflexivity|constructor].
    + destruct IH as (rows & -> & Hrows).
      rewrite csvLine_row in Hline.
      destruct (mapM _ (form_fields form)) as [cells|] eqn:Hcells; [|discriminate].
      injection Hline as <-.
      exists (((dquote +:+ replaceAll "034" (dquote +:+ dquote) (sub_id sub) +:+ dquote)
                 :: (dquote +:+ replaceAll "034" (dquote +:+ dquote)
                       (toISOString h (sub_createdAt sub)) +:+ dquote)
                 :: cells) :: rows).
      split; [reflexivity|].
      constructor; [|exact Hrows]. exists cells. split; [reflexivity|].
      apply mapM_Some in Hcells.
      eapply Forall2_impl; [exact Hcells|]. intros f cell Hcell. cbv beta in Hcell.
      destruct (inherited_spec (field_id f)) as (Hproto & Hctor & Hmethod & Hnone).
      split; [|split; [|split; [|split; [|split; [|split]]]]].
      * intros v Hv Ht. apply Htruthy in Ht.
        rewrite (cell_of_truthy sub f v Hv Ht) in Hcell.
        destruct (toString h v) as [text|]; [|discriminate].
        exists text. split; [reflexivity|]. congruence.
      * intros s Hv. destruct (truthy (Some (JStr s))) eqn:Ht.
        -- rewrite (cell_of_truthy sub f _ Hv Ht) in Hcell. cbn [toString] in Hcell.
           congruence.
        -- rewrite (cell_of_falsy sub f _ Hv Ht) in Hcell.
           cbn in Ht. apply negb_false_iff, String.eqb_eq in Ht. subst s.
           injection Hcell as <-. reflexivity.
      * intros v Hv Ht. apply Falsy_truthy in Ht.
        rewrite (cell_of_falsy sub f v Hv Ht) in Hcell. congruence.
      * intros Hv Hp. rewrite (cell_of_absent sub f Hv), (Hnone Hp) in Hcell. congruence.
      * intros Hv Hp. rewrite (cell_of_absent sub f Hv), (Hmethod Hp) in Hcell. congruence.
      * intros Hv Hp. rewrite (cell_of_absent sub f Hv), (Hctor Hp) in Hcell. congruence.
      * intros Hv Hp. rewrite (cell_of_absent sub f Hv), (Hproto Hp) in Hcell. congruence.
Qed.

Lemma csvUnquoteBody_escaped (s : string) :
  csvUnquoteBody (replaceAll "034" (dquote +:+ dquote) s +:+ dquote) = Some s.
Proof.
  induction s as [|c s IH]; [reflexivity|].
  simpl. destruct (Ascii.eqb c "034") eqn:Hc.
  - apply Ascii.eqb_eq in Hc. subst c.
    change (String "034" <$>
              csvUnquoteBody (replaceAll "034" (dquote +:+ dquote) s +:+ dquote)
            = Some (String "034" s)).
    rewrite IH. reflexivity.
  - simpl. rewrite Hc, IH. reflexivity.
Qed.

(** Unescaping a quoted text gives back the text that was escaped. *)
Lemma csvUnquote_quoted (text : string) :
  csvUnquote (dquote +:+ replaceAll "034" (dquote +:+ dquote) text +:+ dquote)
  = Some text.
Proof. simpl. apply csvUnquoteBody_escaped. Qed.

(** C6, amended. For a value [v] stored under a field's id.  When [v] is
    truthy and [String(v)] is the text [text], the exported cell is a
    double quote, [text] with every double quote doubled, and a double
    quote, and unescaping that cell (strip the outer quotes, collapse the
    doubled quotes) gives back [text]: for a string that text is the value
    itself, for [true] it is [true], for a number its print, for an object
    without an own key [toString] it is [[object Object]].  When [v] is
    [null], [false], zero or the empty string, the cell is empty, two
    double quotes, and unescaping gives the empty string.  When [v] is
    truthy and [String(v)] throws, as for an object with an own key
    [toString], the cell throws. *)
Theorem csv_cell_roundtrip sub f v :
  sub_data sub !! field_id f = Some v →
  (¬ Falsy (Some v) →
   (∀ text, toString h v = Some text →
      csvCell h (cellValue sub f)
      = Some (dquote +:+ replaceAll "034" (dquote +:+ dquote) text +:+ dquote)
      ∧ csvUnquote (dquote +:+ replaceAll "034" (dquote +:+ dquote) text +:+ dquote)
        = Some text)
   ∧ (toString h v = None → csvCell h (cellValue sub f) = None))
  ∧ (Falsy (Some v) →
     csvCell h (cellValue sub f) = Some (dquote +:+ dquote)
     ∧ csvUnquote (dquote +:+ dquote) = Some "")
  ∧ (∀ s, v = JStr s →
       csvCell h (cellValue sub f)
       = Some (dquote +:+ replaceAll "034" (dquote +:+ dquote) s +:+ dquote)
       ∧ csvUnquote (dquote +:+ replaceAll "034" (dquote +:+ dquote) s +:+ dquote)
         = Some s)
  ∧ (v = JBool true →
     csvCell h (cellValue sub f) = Some (dquote +:+ "true" +:+ dquote))
  ∧ (∀ q, v = JNum q → ¬ (q == 0)%Q →
       csvCell h (cellValue sub f)
       = Some (dquote +:+ replaceAll "034" (dquote +:+ dquote) (numToString h q)
                 +:+ dquote))
  ∧ (∀ members, v = JObj members → "toString" ∉ map fst members →
       csvCell h (cellValue sub f) = Some (dquote +:+ "[object Object]" +:+ dquote))
  ∧ (∀ members x, v = JObj members → ("toString", x) ∈ members →
       csvCell h (cellValue sub f) = None).
Proof.
  intros Hv.
  assert (¬ Falsy (Some v) ↔ truthy (Some v) = true) as Htruthy.
  { rewrite Falsy_truthy. destruct (truthy (Some v)); split; congruence. }
  split; [|split; [|split; [|split; [|split; [|split]]]]].
  - intros Ht. apply Htruthy in Ht. rewrite (cell_of_truthy sub f v Hv Ht). split.
    + intros text ->. split; [reflexivity|apply csvUnquote_quoted].
    + intros ->. reflexivity.
  - intros Ht. apply Falsy_truthy in Ht.
    rewrite (cell_of_falsy sub f v Hv Ht). split; reflexivity.
  - intros s ->. split; [|apply csvUnquote_quoted].
    destruct (truthy (Some (JStr s))) eqn:Ht.
    + rewrite (cell_of_truthy sub f _ Hv Ht). reflexivity.
    + rewrite (cell_of_falsy sub f _ Hv Ht).
      cbn in Ht. apply negb_false_iff, String.eqb_eq in Ht. subst s. reflexivity.
  - intros ->. rewrite (cell_of_truthy sub f _ Hv eq_refl). reflexivity.
  - intros q -> Hq. rewrite (cell_of_truthy sub f _ Hv); [reflexivity|].
    apply Htruthy. intros Hfalsy. inversion Hfalsy; subst. contradiction.
  - intros members -> Hout. rewrite (cell_of_truthy sub f _ Hv eq_refl).
    rewrite (proj2 (toString_object members) Hout). reflexivity.
  - intros members x -> Hx. rewrite (cell_of_truthy sub f _ Hv eq_refl).
    rewrite (proj1 (toString_object members) x Hx). reflexivity.
Qed.

End FormsFacts.

(** What [o[key]] and [String(v)] give on a few values: inherited members
    are read where an own key is missing, an array joins its items with
    [null] as empty, and an object with an own key [toString] has no
    conversion, alone or inside an array. *)
Example javascript_samples :
  JS.getProperty ∅ "toString" = Some (JS.NativeFunction "toString")
  ∧ JS.getProperty ∅ "constructor" = Some (JS.NativeFunction "Object")
  ∧ JS.getProperty ∅ "__proto__" = Some JS.ObjectPrototype
  ∧ JS.getProperty {[ "toString" := JS.JStr "" ]} "toString" = Some (JS.Json (JS.JStr ""))
  ∧ JS.getProperty ∅ "email" = None
  ∧ JS.stringOf Samples.host (JS.NativeFunction "Object")
    = Some "function Object() { [native code] }"
  ∧ JS.toString Samples.host (JS.JArr [JS.JNum 1; JS.JNull; JS.JStr "a"]) = Some "1,,a"
  ∧ JS.toString Samples.host (JS.JObj [("a", JS.JNull)]) = Some "[object Object]"
  ∧ JS.toString Samples.host (JS.JObj [("toString", JS.JNull)]) = None
  ∧ JS.toString Samples.host (JS.JArr [JS.JObj [("toString", JS.JNull)]]) = None.
Proof. vm_compute. repeat split. Qed.

Lemma submit_unpublished_rejected_witness :
  Forms.submit Samples.host "f1"
    (Samples.request (Some {[ "email" := JS.JStr "a@b.com" ]})) 2000 "s1"
    (Samples.world (Samples.mkForm "f1" [Samples.emailChecked true] false))
  = (Forms.RespError 400 "Form is not accepting submissions",
     Samples.world (Samples.mkForm "f1" [Samples.emailChecked true] false)).
Proof.
  apply (submit_unpublished_rejected Samples.host _ "f1" _ 2000 "s1"
           (Samples.mkForm "f1" [Samples.emailChecked true] false));
    reflexivity.
Defined.

(** C10, at the failing input.  A published form with one required field
    whose id is [constructor]: a body that holds the empty string under
    that id is rejected with HTTP 400 and the required-field error naming
    the label, and nothing is stored; the empty body, which lacks the
    field, is accepted with HTTP 200, stored and counted, because
    [body[field.id]] reads the function that every object inherits under
    that name.  Under an id that [Object.prototype] does not have, the
    empty body is rejected like the empty string. *)
Lemma absent_required_field_accepted :
  Forms.submit Samples.host "f1"
    (Samples.request (Some {[ "constructor" := JS.JStr "" ]})) 2000 "s1"
    (Samples.world (Samples.mkForm "f1" [Samples.constructorField] true))
  = (Forms.RespError 400
       ("Field " +:+ JS.dquote +:+ "Constructor" +:+ JS.dquote +:+ " is required"),
     Samples.world (Samples.mkForm "f1" [Samples.constructorField] true))
  ∧ (let '(resp, w') :=
       Forms.submit Samples.host "f1" (Samples.request (Some ∅)) 2000 "s1"
         (Samples.world (Samples.mkForm "f1" [Samples.constructorField] true)) in
     resp = Forms.RespSubmitted "Thank you for your submission!" "s1"
     ∧ Forms.status resp = 200
     ∧ Forms.form_submissions <$> Forms.forms w' !! "form:f1" = Some 1
     ∧ Forms.sub_data <$> Forms.submissions w' !! "submission:f1:s1" = Some ∅)
  ∧ Forms.submit Samples.host "f1" (Samples.request (Some ∅)) 2000 "s1"
      (Samples.world (Samples.mkForm "f1" [Samples.emailPlain true] true))
    = (Forms.RespError 400
         ("Field " +:+ JS.dquote +:+ "Email Address" +:+ JS.dquote +:+ " is required"),
       Samples.world (Samples.mkForm "f1" [Samples.emailPlain true] true)).
Proof. vm_compute. repeat split. Qed.

Lemma falsy_value_treated_as_absent_witness :
  Forms.checkField Samples.host {[ "email" := JS.JStr "" ]} (Samples.emailChecked true)
  = Forms.Fail ("Field " +:+ JS.dquote +:+ "Email Address" +:+ JS.dquote +:+ " is required")
  ∧ Forms.submit Samples.host "f1"
      (Samples.request (Some {[ "email" := JS.JStr "" ]})) 2000 "s1"
      (Samples.world (Samples.mkForm "f1" [Samples.emailChecked true] true))
    = (Forms.RespError 400
         ("Field " +:+ JS.dquote +:+ "Email Address" +:+ JS.dquote +:+ " is required"),
       Samples.world (Samples.mkForm "f1" [Samples.emailChecked true] true)).
Proof.
  destruct (falsy_value_treated_as_absent Samples.host
              (Samples.world (Samples.mkForm "f1" [Samples.emailChecked true] true))
              "f1" (Samples.request (Some {[ "email" := JS.JStr "" ]})) 2000 "s1"
              (Samples.mkForm "f1" [Samples.emailChecked true] true)
              {[ "email" := JS.JStr "" ]} [] (Samples.emailChecked true) [])
    as (Hloop & Hsubmit & _); try reflexivity.
  - constructor.
  - split; [exact Hloop | apply Hsubmit; reflexivity].
Defined.

Lemma invalid_email_rejected_witness :
  Forms.validateField Samples.host (Samples.emailChecked true) (JS.JStr "not-an-email")
  = Forms.Fail "Email Address must be a valid email"
  ∧ Forms.submit Samples.host "f1"
      (Samples.request (Some {[ "email" := JS.JStr "not-an-email" ]})) 2000 "s1"
      (Samples.world (Samples.mkForm "f1" [Samples.emailChecked true] true))
    = (Forms.RespError 400 "Email Address must be a valid email",
       Samples.world (Samples.mkForm "f1" [Samples.emailChecked true] true)).
Proof.
  apply (invalid_email_rejected Samples.host
           (Samples.world (Samples.mkForm "f1" [Samples.emailChecked true] true))
           "f1" (Samples.request (Some {[ "email" := JS.JStr "not-an-email" ]}))
           2000 "s1"
           (Samples.mkForm "f1" [Samples.emailChecked true] true)
           {[ "email" := JS.JStr "not-an-email" ]} [] (Samples.emailChecked true) []
           Samples.noValidation "not-an-email");
    first [reflexivity | discriminate].
Defined.

(** C3, at the failing input: the scenario of the specification.  A
    published form with one required email field that carries no validation
    object (the shape of the README's example form) and the body whose
    [email] is [not-an-email]: the email expression rejects the string,
    [validateField] returns no error because it returns before the test,
    and [submit] answers HTTP 200, stores the submission and counts it.  The
    same field with a validation object rejects the same body with HTTP 400
    and the label followed by [must be a valid email]. *)
Lemma email_without_validation_accepted :
  Regex.test Regex.emailRegex "not-an-email" = false
  ∧ Forms.field_validation (Samples.emailPlain true) = None
  ∧ Forms.validateField Samples.host (Samples.emailPlain true) (JS.JStr "not-an-email")
    = Forms.Pass
  ∧ (let '(resp, w') :=
       Forms.submit Samples.host "f1"
         (Samples.request (Some {[ "email" := JS.JStr "not-an-email" ]})) 2000 "s1"
         (Samples.world (Samples.mkForm "f1" [Samples.emailPlain true] true)) in
     resp = Forms.RespSubmitted "Thank you for your submission!" "s1"
     ∧ Forms.status resp = 200
     ∧ Forms.form_submissions <$> Forms.forms w' !! "form:f1" = Some 1
     ∧ Forms.sub_data <$> Forms.submissions w' !! "submission:f1:s1"
       = Some {[ "email" := JS.JStr "not-an-email" ]})
  ∧ Forms.submit Samples.host "f1"
      (Samples.request (Some {[ "email" := JS.JStr "not-an-email" ]})) 2000 "s1"
      (Samples.world (Samples.mkForm "f1" [Samples.emailChecked true] true))
    = (Forms.RespError 400 "Email Address must be a valid email",
       Samples.world (Samples.mkForm "f1" [Samples.emailChecked true] true)).
Proof. vm_compute. repeat split. Qed.

(** Where else [submit] and [validateField] part on an email field, by
    design: an optional email field with a validation object and the empty
    string as value has an error from [validateField] and is accepted by
    [submit], which validates truthy values only; and a custom message set
    to the empty string is not the error returned, a set and non-empty one
    is. *)
Lemma invalid_email_accepted :
  (Regex.test Regex.emailRegex "" = false
   ∧ Forms.validateField Samples.host (Samples.emailChecked false) (JS.JStr "")
     = Forms.Fail "Email Address must be a valid email"
   ∧ fst (Forms.submit Samples.host "f1"
            (Samples.request (Some {[ "email" := JS.JStr "" ]})) 2000 "s1"
            (Samples.world (Samples.mkForm "f1" [Samples.emailChecked false] true)))
     = Forms.RespSubmitted "Thank you for your submission!" "s1")
  ∧ (Forms.validateField Samples.host (Samples.emailCustom "")
       (JS.JStr "not-an-email")
     = Forms.Fail "Email Address must be a valid email"
     ∧ Forms.validateField Samples.host (Samples.emailCustom "Use a work address")
         (JS.JStr "not-an-email")
       = Forms.Fail "Use a work address").
Proof. repeat split; vm_compute; reflexivity. Qed.

Lemma export_csv_layout_witness :
  ∃ rows,
    fst (Forms.export Samples.host "f1" Samples.worldWithSubmission)
    = Forms.RespCsv
        (String.concat JS.newline
           ("Submission ID,Submitted At,Second,First" :: map (String.concat ",") rows))
        "Contact Form-submissions.csv"
    ∧ snd (Forms.export Samples.host "f1" Samples.worldWithSubmission)
      = Samples.worldWithSubmission.
Proof.
  destruct (export_csv_layout Samples.host Samples.worldWithSubmission "f1"
              (Samples.mkForm "f1" Samples.twoFields true) eq_refl)
    as (subs & Hsubs & Hsame & _ & _ & Hcsv).
  destruct Hcsv as (rows & Hresp & _).
  - intros sub f v Hsub Hf Hv Ht.
    apply Hsubs in Hsub as (key & _ & Hkey).
    destruct (decide (key = "submission:f1:s1")) as [->|Hne].
    + injection Hkey as <-. 
      apply list_elem_of_In in Hf. 
      destruct Hf as [<-|[<-|[]]]; vm_compute in Hv; [discriminate|].
      injection Hv as <-. discriminate.
    + unfold Samples.worldWithSubmission in Hkey. cbn [Forms.submissions] in Hkey.
      rewrite lookup_singleton_ne in Hkey by congruence. discriminate.
  - exists rows. split; [exact Hresp | exact Hsame].
Defined.

(** The CSV text of the sample form: the header is not quoted, every value
    of a row is, and the missing value is two quotes. *)
Example export_sample :
  Forms.export Samples.host "f1" Samples.worldWithSubmission
  = (Forms.RespCsv
       ("Submission ID,Submitted At,Second,First" +:+ JS.newline
          +:+ JS.dquote +:+ "s1" +:+ JS.dquote +:+ ","
          +:+ JS.dquote +:+ "5T00:00:00.000Z" +:+ JS.dquote +:+ ","
          +:+ JS.dquote +:+ JS.dquote +:+ ","
          +:+ JS.dquote +:+ "a" +:+ JS.dquote +:+ JS.dquote +:+ "b,c" +:+ JS.dquote)
       "Contact Form-submissions.csv",
     Samples.worldWithSubmission).
Proof. vm_compute. reflexivity. Qed.

(** C4 as stated fails: on a form whose stored field list is not in the
    order of the [order] properties, the header follows the stored list and
    not the order [generateFormHTML] renders the fields in. *)
Lemma export_header_ignores_order_property :
  map Forms.field_label (Forms.renderOrder Samples.twoFields) = ["First"; "Second"]
  ∧ Forms.csvHeaders (Samples.mkForm "f1" Samples.twoFields true)
    = ["Submission ID"; "Submitted At"; "Second"; "First"]
  ∧ Forms.csvHeaders (Samples.mkForm "f1" Samples.twoFields true)
    ≠ "Submission ID" :: "Submitted At"
        :: map Forms.field_label (Forms.renderOrder Samples.twoFields)
  ∧ ∃ rows,
      fst (Forms.export Samples.host "f1" Samples.worldWithSubmission)
      = Forms.RespCsv ("Submission ID,Submitted At,Second,First" +:+ rows)
          "Contact Form-submissions.csv".
Proof.
  split; [reflexivity|]. split; [reflexivity|]. split; [discriminate|].
  eexists. vm_compute. reflexivity.
Qed.

Lemma csv_cell_roundtrip_witness :
  Forms.csvCell Samples.host
    (Forms.cellValue Samples.submission1 (Samples.mkField "a" Forms.TText "First" false None 1))
  = Some (JS.dquote +:+ "a" +:+ JS.dquote +:+ JS.dquote +:+ "b,c" +:+ JS.dquote)
  ∧ Forms.csvUnquote
      (JS.dquote +:+ "a" +:+ JS.dquote +:+ JS.dquote +:+ "b,c" +:+ JS.dquote)
    = Some ("a" +:+ JS.dquote +:+ "b,c").
Proof.
  destruct (csv_cell_roundtrip Samples.host Samples.submission1
              (Samples.mkField "a" Forms.TText "First" false None 1)
              (JS.JStr Samples.quoted) eq_refl) as (_ & _ & Hstring & _).
  exact (Hstring Samples.quoted eq_refl).
Defined.

(** C6 as stated fails: a stored zero, and a stored [false], are exported
    as the empty cell, which decodes to the empty string and not to the
    text of the value; and a stored object with an own key [toString] has
    no cell at all: [export] throws and the answer is 500. *)
Lemma csv_falsy_value_lost :
  (Forms.sub_data Samples.submissionZero !! "n" = Some (JS.JNum 0)
   ∧ JS.toString Samples.host (JS.JNum 0) = Some "0"
   ∧ Forms.csvCell Samples.host
       (Forms.cellValue Samples.submissionZero Samples.countField)
     = Some (JS.dquote +:+ JS.dquote)
   ∧ Forms.csvUnquote (JS.dquote +:+ JS.dquote) = Some ""
   ∧ Forms.export Samples.host "f2" (Samples.worldWith Samples.submissionZero)
     = (Forms.RespCsv
          ("Submission ID,Submitted At,Count,Agree" +:+ JS.newline
             +:+ JS.dquote +:+ "s2" +:+ JS.dquote +:+ ","
             +:+ JS.dquote +:+ "7T00:00:00.000Z" +:+ JS.dquote +:+ ","
             +:+ JS.dquote +:+ JS.dquote +:+ ","
             +:+ JS.dquote +:+ JS.dquote)
          "Contact Form-submissions.csv",
        Samples.worldWith Samples.submissionZero))
  ∧ (Forms.sub_data Samples.submissionObject !! "n"
     = Some (JS.JObj [("toString", JS.JStr "x")])
     ∧ JS.toString Samples.host (JS.JObj [("toString", JS.JStr "x")]) = None
     ∧ Forms.export Samples.host "f2" (Samples.worldWith Samples.submissionObject)
       = (Forms.RespUncaught, Samples.worldWith Samples.submissionObject)).
Proof. vm_compute. repeat split. Qed.

(** ** Advanced analytics *)

Section AnalyticsFacts.
Import JS Analytics.
Context (h : Host).

(** C9. For a session id that is not in the collector's session map, each of
    [trackInteraction], [markStarted], [markCompleted], [markSubmitted] and
    [trackDropOff] returns and leaves the collector as it was: the session
    map and every table of the store are unchanged. *)
Theorem absent_session_is_noop (c : Collector) sid now interaction lastFieldId :
  sessions c !! sid = None →
  trackInteraction sid interaction c = (tt, c)
  ∧ markStarted h now sid c = (tt, c)
  ∧ markCompleted h now sid c = (tt, c)
  ∧ markSubmitted h now sid c = (tt, c)
  ∧ trackDropOff h now sid lastFieldId c = (tt, c).
Proof.
  intros Hnone.
  unfold trackInteraction, markStarted, markCompleted, markSubmitted,
    trackDropOff, St.bind, St.gets.
  rewrite Hnone. repeat split.
Qed.

(** [getCounter] and [getAverage] read the store and leave it as it is. *)
Lemma getCounter_run key kv :
  getCounter key kv = (default 0 (counters kv !! ("analytics:" +:+ key)), kv).
Proof.
  unfold getCounter, St.bind, St.gets, St.ret.
  destruct (counters kv !! _); reflexivity.
Qed.

(** C5. The funnel of [getAnalytics] has the four steps View, Start,
    Complete, Submit, whose counts are the four total counters; the count of
    each step minus the count of the next is the step's [dropOff], and the
    [dropOff] of the last step is 0. *)
Theorem funnel_dropOff_invariant kv formId startDate endDate formName fields :
  ∃ s0 s1 s2 s3,
    a_funnel (fst (getAnalytics h formId startDate endDate formName fields kv))
    = [s0; s1; s2; s3]
    ∧ map step [s0; s1; s2; s3] = ["View"; "Start"; "Complete"; "Submit"]
    ∧ map step_count [s0; s1; s2; s3]
      = map (λ name, fst (getCounter (name +:+ ":" +:+ formId +:+ ":total") kv))
          ["views"; "starts"; "completions"; "submissions"]
    ∧ step_count s0 - step_count s1 = dropOff s0
    ∧ step_count s1 - step_count s2 = dropOff s1
    ∧ step_count s2 - step_count s3 = dropOff s2
    ∧ dropOff s3 = 0.
Proof.
  unfold getAnalytics, St.bind.
  rewrite !getCounter_run.
  repeat match goal with
         | |- context [let '(_, _) := ?m in _] => destruct m
         end.
  simpl. do 4 eexists. split; [reflexivity|]. repeat split.
Qed.

(** A method that only reads: [getVariant] leaves the store as it is. *)
Lemma getVariant_reads formId sid kv :
  snd (getVariant formId sid kv) = kv.
Proof.
  unfold getVariant, St.bind, St.gets, St.ret.
  destruct (abtests kv !! _) as [test|]; [|reflexivity].
  destruct (negb (isRunning (status test))); reflexivity.
Qed.

Lemma getVariant_running formId sid kv test :
  abtests kv !! ("abtest:" +:+ formId) = Some test →
  status test = running →
  getVariant formId sid kv = (assignVariant test sid, kv).
Proof.
  intros Htest Hrun. unfold getVariant, St.bind, St.gets, St.ret.
  rewrite Htest, Hrun. reflexivity.
Qed.

(** C1. Against a stored running test, two calls of [getVariant] with the
    same form id and session id, one after the other, return the same
    result and leave the store unchanged; the result is [assignVariant] of
    the stored test and the session id: the hash of the session id modulo
    the sum of the weights, walked down the variants in their stored order. *)
Theorem getVariant_deterministic formId sid kv test :
  abtests kv !! ("abtest:" +:+ formId) = Some test →
  status test = running →
  let first := getVariant formId sid kv in
  let second := getVariant formId sid (snd first) in
  fst first = fst second
  ∧ snd first = kv
  ∧ snd second = kv
  ∧ fst first = assignVariant test sid.
Proof.
  intros Htest Hrun first second. subst first second.
  rewrite !(getVariant_running formId sid kv test Htest Hrun). simpl.
  rewrite (getVariant_running formId sid kv test Htest Hrun).
  repeat split.
Qed.

Lemma totalWeight_sum (vs : list Variant) (acc : Z) :
  fold_left (λ sum v, sum + weight v) vs acc
  = acc + fold_right Z.add 0 (map weight vs).
Proof.
  revert acc. induction vs as [|v vs IH]; intros acc; simpl; [lia|].
  rewrite IH. lia.
Qed.

(** With positive weights the walk stops at the variant whose slice of
    [0 .. total) holds the threshold: the weights before it sum to at most
    the threshold, and adding its own weight exceeds it. *)
Lemma walkVariants_slice (vs : list Variant) (t : Z) :
  Forall (λ v, 0 < weight v) vs →
  0 ≤ t < fold_right Z.add 0 (map weight vs) →
  ∃ pre v post,
    vs = pre ++ v :: post
    ∧ fold_right Z.add 0 (map weight pre) ≤ t
    ∧ t < fold_right Z.add 0 (map weight pre) + weight v
    ∧ walkVariants (Some t) vs = Some (variant_id v).
Proof.
  intros Hpos. revert t. induction Hpos as [|v vs Hv Hpos IH]; intros t Ht.
  - simpl in Ht. lia.
  - simpl in Ht. simpl. destruct (t - weight v <? 0) eqn:Hlt.
    + exists [], v, vs. simpl. apply Z.ltb_lt in Hlt.
      repeat split; lia.
    + apply Z.ltb_ge in Hlt.
      destruct (IH (t - weight v)) as (pre & u & post & -> & Hlo & Hhi & Hwalk);
        [lia|].
      exists (v :: pre), u, post. simpl. repeat split; try lia. exact Hwalk.
Qed.

(** A running test with at least one variant and positive weights assigns
    every session to a variant of the test, the one whose slice holds the
    hash modulo the total weight. *)
Lemma assignVariant_slice (test : ABTest) (sid : string) :
  variants test ≠ [] →
  Forall (λ v, 0 < weight v) (variants test) →
  ∃ pre v post,
    variants test = pre ++ v :: post
    ∧ fold_right Z.add 0 (map weight pre)
      ≤ Z.rem (simpleHash sid) (fold_right Z.add 0 (map weight (variants test)))
      < fold_right Z.add 0 (map weight pre) + weight v
    ∧ assignVariant test sid = Returned (Some (variant_id v)).
Proof.
  intros Hne Hpos. unfold assignVariant.
  rewrite totalWeight_sum, Z.add_0_l.
  set (total := fold_right Z.add 0 (map weight (variants test))).
  assert (0 < total) as Htotal.
  { subst total. destruct Hpos as [|v vs Hv Hvs]; [congruence|].
    simpl. clear Hne. induction Hvs as [|u us Hu Hus IH]; simpl; lia. }
  assert (0 ≤ simpleHash sid) as Hhash by apply Z.abs_nonneg.
  unfold jsRem. destruct (total =? 0) eqn:Hz; [apply Z.eqb_eq in Hz; lia|].
  pose proof (Z.rem_bound_pos (simpleHash sid) total Hhash Htotal) as Hrem.
  destruct (walkVariants_slice (variants test) _ Hpos Hrem)
    as (pre & v & post & Hvs & Hlo & Hhi & Hwalk).
  exists pre, v, post. rewrite Hwalk. repeat split; assumption.
Qed.

End AnalyticsFacts.

Lemma absent_session_is_noop_witness :
  Analytics.trackInteraction "nobody" (Samples.focusOn "email" 10) Samples.emptyCollector
  = (tt, Samples.emptyCollector)
  ∧ Analytics.markStarted Samples.host 10 "nobody" Samples.emptyCollector
    = (tt, Samples.emptyCollector)
  ∧ Analytics.markCompleted Samples.host 10 "nobody" Samples.emptyCollector
    = (tt, Samples.emptyCollector)
  ∧ Analytics.markSubmitted Samples.host 10 "nobody" Samples.emptyCollector
    = (tt, Samples.emptyCollector)
  ∧ Analytics.trackDropOff Samples.host 10 "nobody" "email" Samples.emptyCollector
    = (tt, Samples.emptyCollector).
Proof.
  apply (absent_session_is_noop Samples.host Samples.emptyCollector "nobody" 10
           (Samples.focusOn "email" 10) "email").
  reflexivity.
Defined.

Lemma getVariant_deterministic_witness :
  let first := Analytics.getVariant "f1" "session-42" Samples.kvWithTest in
  let second := Analytics.getVariant "f1" "session-42" (snd first) in
  fst first = fst second
  ∧ snd first = Samples.kvWithTest
  ∧ snd second = Samples.kvWithTest
  ∧ fst first = Analytics.assignVariant Samples.runningTest "session-42".
Proof.
  apply (getVariant_deterministic "f1" "session-42" Samples.kvWithTest
           Samples.runningTest); reflexivity.
Defined.

(** The hash wraps around 32 bits; session [session-42] falls in the slice
    of the second variant (hash modulo 100 is 97, beyond the 30 of [A]). *)
Example simpleHash_sample :
  Analytics.simpleHash "session-42" = 1661803797
  ∧ Analytics.simpleHash "zzzzzzzzzzzz" = 1097476992
  ∧ Analytics.getVariant "f1" "session-42" Samples.kvWithTest
    = (Analytics.Returned (Some "B"), Samples.kvWithTest).
Proof. repeat split; vm_compute; reflexivity. Qed.

(** ** Conversion tracking *)

Section ConversionFacts.
Import JS Conversion.

Lemma sliceLast_length {A} (n : nat) (xs : list A) :
  (length (sliceLast n xs) ≤ n)%nat.
Proof. unfold sliceLast. rewrite length_drop. lia. Qed.

Lemma sliceLast_app_sliceLast {A} (n : nat) (xs ys : list A) :
  sliceLast n (sliceLast n xs ++ ys) = sliceLast n (xs ++ ys).
Proof.
  unfold sliceLast. rewrite !length_app, length_drop.
  destruct (decide (length xs ≤ n)%nat) as [Hle|Hgt].
  - replace (length xs - n)%nat with 0%nat by lia. simpl.
    rewrite Nat.sub_0_r. reflexivity.
  - replace (length xs - (length xs - n) + length ys - n)%nat
      with (length ys) by lia.
    replace (length xs + length ys - n)%nat
      with ((length xs - n) + length ys)%nat by lia.
    rewrite <- drop_drop. f_equal.
    rewrite drop_app_le by lia. reflexivity.
Qed.

Lemma journeyKey_inj (c1 c2 : string) :
  "journey:" +:+ c1 = "journey:" +:+ c2 → c1 = c2.
Proof. intros Heq. cbn in Heq. by simplify_eq. Qed.

Lemma trackTouchpoint_run now customerId t kv :
  trackTouchpoint now customerId t kv
  = (tt, putJourney ("journey:" +:+ customerId)
           (sliceLast 100
              (default [] (journeys kv !! ("journey:" +:+ customerId))
                 ++ [stamp now t])) kv).
Proof. reflexivity. Qed.

(** Every write leaves at most 100 touchpoints under the key it writes. *)
Lemma trackTouchpoint_bounded now customerId t kv :
  map_Forall (λ _ j, (length j ≤ 100)%nat) (journeys kv) →
  map_Forall (λ _ j, (length j ≤ 100)%nat)
    (journeys (snd (trackTouchpoint now customerId t kv))).
Proof.
  intros Hb. rewrite trackTouchpoint_run. simpl.
  apply map_Forall_insert_2; [apply sliceLast_length | exact Hb].
Qed.

Lemma trackAll_bounded calls kv :
  map_Forall (λ _ j, (length j ≤ 100)%nat) (journeys kv) →
  map_Forall (λ _ j, (length j ≤ 100)%nat) (journeys (snd (trackAll calls kv))).
Proof.
  revert kv. induction calls as [|[[now c] t] calls IH]; intros kv Hb; [exact Hb|].
  unfold trackAll. simpl. unfold St.bind.
  rewrite trackTouchpoint_run. apply IH.
  apply (trackTouchpoint_bounded now c t kv Hb).
Qed.

(** The journey of a customer after a sequence of calls: untouched when no
    call names the customer, else the last 100 of the old journey followed
    by the customer's new touchpoints. *)
Lemma trackAll_journey calls kv customerId :
  journeys (snd (trackAll calls kv)) !! ("journey:" +:+ customerId)
  = match touchpointsOf customerId calls with
    | [] => journeys kv !! ("journey:" +:+ customerId)
    | tps =>
        Some (sliceLast 100
                (default [] (journeys kv !! ("journey:" +:+ customerId)) ++ tps))
    end.
Proof.
  revert kv. induction calls as [|[[now c] t] calls IH]; intros kv; [reflexivity|].
  unfold trackAll. simpl. unfold St.bind. rewrite trackTouchpoint_run.
  fold (trackAll calls). rewrite IH. unfold putJourney; simpl.
  destruct (String.eqb c customerId) eqn:Hc.
  - apply String.eqb_eq in Hc. subst c. rewrite lookup_insert_eq. simpl.
    destruct (touchpointsOf customerId calls) as [|tp tps].
    + reflexivity.
    + rewrite sliceLast_app_sliceLast, <- app_assoc. reflexivity.
  - apply String.eqb_neq in Hc.
    rewrite lookup_insert_ne; [reflexivity|].
    intros Heq. apply Hc. apply journeyKey_inj. exact Heq.
Qed.

Lemma sliceLast_short {A} (n : nat) (xs : list A) :
  (length xs ≤ n)%nat → sliceLast n xs = xs.
Proof.
  intros Hle. unfold sliceLast.
  replace (length xs - n)%nat with 0%nat by lia. reflexivity.
Qed.

Lemma getJourney_run customerId kv :
  getJourney customerId kv
  = (default [] (journeys kv !! ("journey:" +:+ customerId)), kv).
Proof. reflexivity. Qed.

(** C7. From a store in which every journey has at most 100 touchpoints (the
    empty store is one), after any sequence of [trackTouchpoint] calls, for
    any customers: every stored journey has at most 100 touchpoints; a
    customer's journey is the last 100 of its former journey followed by the
    touchpoints the sequence recorded for that customer, oldest first; and
    for a customer who had none before and got 150, it is those 150 without
    the first 50, and has length 100. *)
Theorem journey_bounded_history calls kv customerId :
  map_Forall (λ _ j, (length j ≤ 100)%nat) (journeys kv) →
  map_Forall (λ _ j, (length j ≤ 100)%nat) (journeys (snd (trackAll calls kv)))
  ∧ fst (getJourney customerId (snd (trackAll calls kv)))
    = sliceLast 100
        (fst (getJourney customerId kv) ++ touchpointsOf customerId calls)
  ∧ (fst (getJourney customerId kv) = [] →
     length (touchpointsOf customerId calls) = 150%nat →
     fst (getJourney customerId (snd (trackAll calls kv)))
     = drop 50 (touchpointsOf customerId calls)
     ∧ length (fst (getJourney customerId (snd (trackAll calls kv)))) = 100%nat).
Proof.
  intros Hb.
  assert (fst (getJourney customerId (snd (trackAll calls kv)))
          = sliceLast 100
              (fst (getJourney customerId kv) ++ touchpointsOf customerId calls))
    as Hj.
  { rewrite !getJourney_run. simpl. rewrite trackAll_journey.
    destruct (touchpointsOf customerId calls) as [|tp tps]; [|reflexivity].
    rewrite app_nil_r. symmetry. apply sliceLast_short.
    destruct (journeys kv !! ("journey:" +:+ customerId)) as [j|] eqn:Hold;
      simpl; [|lia].
    exact (Hb _ _ Hold). }
  split; [apply trackAll_bounded, Hb|]. split; [exact Hj|].
  intros Hnone Hlen. rewrite Hj, Hnone. simpl.
  unfold sliceLast. rewrite Hlen. simpl.
  split; [reflexivity|]. rewrite length_drop. lia.
Qed.

End ConversionFacts.

Section ConversionWinner.
Import JS Conversion.

(** The first element of the sorted array, without sorting. *)
Lemma head_sortWith {A} (le : A → A → bool) (xs : list A) :
  head (sortWith le xs) = firstSorted le xs.
Proof.
  induction xs as [|x xs IH]; [reflexivity|].
  unfold sortWith, firstSorted in *. simpl. rewrite <- IH.
  destruct (foldr (insertSorted le) [] xs) as [|y ys]; [reflexivity|].
  simpl. destruct (le x y); reflexivity.
Qed.

Lemma rate_le_true (a b : Q) : Qle_bool (b - a) 0 = true ↔ (b <= a)%Q.
Proof. rewrite Qle_bool_iff. split; intros; lra. Qed.

Lemma rate_le_false (a b : Q) : Qle_bool (b - a) 0 = false ↔ (a < b)%Q.
Proof.
  destruct (Qle_bool (b - a) 0) eqn:Hle.
  - apply Qle_bool_iff in Hle. split; [discriminate|]. intros; lra.
  - split; [|reflexivity]. intros _.
    destruct (Qlt_le_dec a b) as [Hlt|Hge]; [exact Hlt|].
    assert (Qle_bool (b - a) 0 = true) as Habs
      by (apply Qle_bool_iff; lra).
    congruence.
Qed.

(** What sorting by descending conversion rate puts first: a variant of the
    array whose rate no other exceeds, and which every variant before it in
    the array falls short of. *)
Lemma firstSorted_rate (vs : list ResultVariant) (k i : nat) (v : ResultVariant) :
  firstSorted
    (λ a b : nat * ResultVariant,
       Qle_bool (conversionRate (snd b) - conversionRate (snd a)) 0)
    (zip (seq k (length vs)) vs) = Some (i, v) →
  (k ≤ i)%nat
  ∧ vs !! (i - k)%nat = Some v
  ∧ (∀ (j : nat) u, vs !! j = Some u → (conversionRate u <= conversionRate v)%Q)
  ∧ (∀ (j : nat) u, (k + j < i)%nat → vs !! j = Some u →
       (conversionRate u < conversionRate v)%Q).
Proof.
  revert k i v. induction vs as [|x vs IH]; intros k i v; [discriminate|].
  simpl.
  destruct (firstSorted _ (zip (seq (S k) (length vs)) vs)) as [[j y]|] eqn:Hrest.
  - apply IH in Hrest as (Hk & Hy & Hmax & Hstrict). simpl.
    destruct (Qle_bool (conversionRate y - conversionRate x) 0) eqn:Hle;
      intros [= <- <-].
    + apply rate_le_true in Hle.
      split; [lia|]. split; [rewrite Nat.sub_diag; reflexivity|]. split.
      * intros [|j'] u Hu; simpl in Hu.
        -- injection Hu as <-. lra.
        -- specialize (Hmax j' u Hu). lra.
      * intros j' u Hlt. lia.
    + apply rate_le_false in Hle.
      split; [lia|]. split.
      { replace (j - k)%nat with (S (j - S k)) by lia. exact Hy. }
      split.
      * intros [|j'] u Hu; simpl in Hu.
        -- injection Hu as <-. lra.
        -- exact (Hmax j' u Hu).
      * intros [|j'] u Hlt Hu; simpl in Hu.
        -- injection Hu as <-. exact Hle.
        -- apply (Hstrict j' u); [lia | exact Hu].
  - intros [= <- <-].
    destruct vs as [|u vs].
    + split; [lia|]. split; [rewrite Nat.sub_diag; reflexivity|]. split.
      * intros [|j'] u Hu; simpl in Hu; [|discriminate].
        injection Hu as <-. lra.
      * intros j' u Hlt. lia.
    + simpl in Hrest.
      destruct (firstSorted _ (zip (seq (S (S k)) (length vs)) vs)) as [[j y]|];
        [destruct (Qle_bool _ 0)|]; discriminate.
Qed.

Lemma determineWinner_first (variants : list ResultVariant) :
  determineWinner variants
  = match firstSorted
            (λ a b : nat * ResultVariant,
               Qle_bool (conversionRate (snd b) - conversionRate (snd a)) 0)
            (zip (seq 0 (length variants)) variants) with
    | None => variants
    | Some (top, first) =>
        if (100 <=? views first) && (10 <=? conversions first)
        then <[top := crown first]> variants
        else variants
    end.
Proof.
  unfold determineWinner. rewrite <- head_sortWith.
  destruct (sortWith _ _) as [|[top first] rest]; reflexivity.
Qed.

Lemma meetsFloor_check (r : ResultVariant) :
  (100 <=? views r) && (10 <=? conversions r) = true ↔ meetsFloor r.
Proof. unfold meetsFloor. rewrite andb_true_iff, !Z.leb_le. reflexivity. Qed.

(** The winner rule on an array in which no variant is marked yet. *)
Lemma determineWinner_spec (base : list ResultVariant) :
  (∀ (i : nat) r, base !! i = Some r → isWinner r = false) →
  ∀ (i : nat) r, determineWinner base !! i = Some r →
    (isWinner r = true ↔
       meetsFloor r
       ∧ (∀ (j : nat) u, determineWinner base !! j = Some u →
            (conversionRate u <= conversionRate r)%Q)
       ∧ (∀ (j : nat) u, (j < i)%nat → determineWinner base !! j = Some u →
            (conversionRate u < conversionRate r)%Q)).
Proof.
  intros Hbase. rewrite determineWinner_first.
  destruct (firstSorted _ _) as [[t first]|] eqn:Htop.
  2: { intros i r Hr. destruct base as [|x base]; [discriminate|].
       simpl in Htop.
       destruct (firstSorted _ (zip (seq 1 (length base)) base)) as [[j y]|];
         [destruct (Qle_bool _ 0)|]; discriminate. }
  apply firstSorted_rate in Htop as (_ & Hfirst & Hmax & Hstrict).
  rewrite Nat.sub_0_r in Hfirst.
  pose proof (lookup_lt_Some _ _ _ Hfirst) as Hlt.
  destruct ((100 <=? views first) && (10 <=? conversions first)) eqn:Hfloor.
  - (* the first of the sorted array meets the floor and is crowned *)
    apply meetsFloor_check in Hfloor.
    assert (∀ (j : nat) u, <[t := crown first]> base !! j = Some u →
              (j = t ∧ u = crown first) ∨ (j ≠ t ∧ base !! j = Some u)) as Hcases.
    { intros j u Hu. destruct (decide (j = t)) as [->|Hne].
      - rewrite list_lookup_insert_eq in Hu by exact Hlt.
        injection Hu as <-. left. split; reflexivity.
      - rewrite list_lookup_insert_ne in Hu by congruence. right. split; assumption. }
    intros i r Hr. destruct (Hcases i r Hr) as [[-> ->]|[Hne Hi]].
    + split; [intros _|reflexivity]. split; [exact Hfloor|]. split.
      * intros j u Hu. destruct (Hcases j u Hu) as [[_ ->]|[_ Hj]]; simpl.
        -- lra.
        -- exact (Hmax j u Hj).
      * intros j u Hjt Hu. destruct (Hcases j u Hu) as [[-> _]|[_ Hj]]; simpl.
        -- lia.
        -- apply (Hstrict j u); [lia | exact Hj].
    + rewrite (Hbase i r Hi). split; [discriminate|].
      intros (_ & Hall & Hbefore). exfalso.
      assert (<[t := crown first]> base !! t = Some (crown first)) as Ht
        by (apply list_lookup_insert_eq, Hlt).
      pose proof (Hall t _ Ht) as Hle. simpl in Hle.
      pose proof (Hmax i r Hi) as Hge.
      destruct (decide (i < t)%nat) as [Hit|Hit].
      * pose proof (Hstrict i r ltac:(lia) Hi). lra.
      * pose proof (Hbefore t _ ltac:(lia) Ht) as Hs. simpl in Hs. lra.
  - (* the first of the sorted array misses the floor: nobody is marked *)
    intros i r Hi. rewrite (Hbase i r Hi). split; [discriminate|].
    intros (Hfl & Hall & Hbefore). exfalso.
    pose proof (Hall t first Hfirst) as Hle.
    pose proof (Hmax i r Hi) as Hge.
    destruct (decide (i = t)) as [->|Hne].
    + rewrite Hfirst in Hi. injection Hi as ->.
      apply meetsFloor_check in Hfl. congruence.
    + destruct (decide (i < t)%nat) as [Hit|Hit].
      * pose proof (Hstrict i r ltac:(lia) Hi). lra.
      * pose proof (Hbefore t first ltac:(lia) Hfirst). lra.
Qed.

(** C8, amended. In the result of [getResults] the variants are those of the
    stored test, in their order, with conversion rate
    [conversions / views * 100] (0 without views); a variant is marked
    [isWinner] exactly when it meets the floor of 100 views and 10
    conversions, no variant at all has a higher conversion rate, and every
    variant before it has a lower one. *)
Theorem winner_is_top_rate_meeting_floor testId kv test :
  tests kv !! ("abtest:" +:+ testId) = Some test →
  ∃ result,
    getResults testId kv = (Some result, kv)
    ∧ map (λ r, (id r, views r, conversions r, conversionRate r)) (r_variants result)
      = map (λ v, (tv_id v, tv_views v, tv_conversions v,
                   if 0 <? tv_views v
                   then (inject_Z (tv_conversions v) / inject_Z (tv_views v) * 100)%Q
                   else 0%Q)) (test_variants test)
    ∧ ∀ (i : nat) r, r_variants result !! i = Some r →
        (isWinner r = true ↔
           meetsFloor r
           ∧ (∀ (j : nat) u, r_variants result !! j = Some u →
                (conversionRate u <= conversionRate r)%Q)
           ∧ (∀ (j : nat) u, (j < i)%nat → r_variants result !! j = Some u →
                (conversionRate u < conversionRate r)%Q)).
Proof.
  intros Htest. unfold getResults, St.bind, St.gets, St.ret. rewrite Htest.
  eexists. split; [reflexivity|]. simpl.
  assert (∀ (i : nat) r, map toResult (test_variants test) !! i = Some r →
            isWinner r = false) as Hbase.
  { intros i r Hr. rewrite list_lookup_fmap in Hr.
    destruct (test_variants test !! i); [|discriminate].
    injection Hr as <-. reflexivity. }
  split; [|apply determineWinner_spec, Hbase].
  rewrite determineWinner_first.
  destruct (firstSorted _ _) as [[t first]|] eqn:Htop;
    [|rewrite map_map; reflexivity].
  destruct ((100 <=? views first) && (10 <=? conversions first));
    [|rewrite map_map; reflexivity].
  apply firstSorted_rate in Htop as (_ & Hfirst & _).
  rewrite Nat.sub_0_r in Hfirst.
  rewrite <- (map_map toResult
                (λ r, (id r, views r, conversions r, conversionRate r))).
  apply list_eq. intros j. rewrite !list_lookup_fmap.
  destruct (decide (j = t)) as [->|Hne].
  - rewrite list_lookup_insert_eq by (eapply lookup_lt_Some; exact Hfirst).
    rewrite list_lookup_fmap in Hfirst.
    destruct (test_variants test !! t); [|discriminate].
    injection Hfirst as <-. reflexivity.
  - rewrite list_lookup_insert_ne by congruence.
    rewrite list_lookup_fmap. reflexivity.
Qed.

End ConversionWinner.

Lemma journey_bounded_history_witness :
  fst (Conversion.getJourney "alice"
         (snd (Conversion.trackAll Samples.calls150 Samples.noJourneys)))
  = drop 50 (Conversion.touchpointsOf "alice" Samples.calls150)
  ∧ length (fst (Conversion.getJourney "alice"
                   (snd (Conversion.trackAll Samples.calls150 Samples.noJourneys))))
    = 100%nat.
Proof.
  destruct (journey_bounded_history Samples.calls150 Samples.noJourneys "alice")
    as (_ & _ & H150).
  - apply map_Forall_empty.
  - apply H150; [reflexivity | vm_compute; reflexivity].
Defined.

Lemma winner_is_top_rate_meeting_floor_witness :
  ∃ result,
    Conversion.getResults "t1" (Samples.conversionKV Samples.clearWinner)
    = (Some result, Samples.conversionKV Samples.clearWinner)
    ∧ map (λ r, (Conversion.id r, Conversion.isWinner r)) (Conversion.r_variants result)
      = [("A", false); ("B", true)].
Proof.
  destruct (winner_is_top_rate_meeting_floor "t1"
              (Samples.conversionKV Samples.clearWinner) Samples.clearWinner eq_refl)
    as (result & Hrun & _ & _).
  exists result. split; [exact Hrun|].
  vm_compute in Hrun. injection Hrun as <-. reflexivity.
Defined.

(** C8 as stated fails: variant [B] meets the floor and no variant that
    meets it converts better, yet no variant is marked, because variant [A],
    with too few views, has the higher conversion rate. *)
Lemma qualified_best_not_winner :
  ∃ result a b,
    fst (Conversion.getResults "t1" (Samples.conversionKV Samples.smallSampleLeads))
    = Some result
    ∧ Conversion.r_variants result = [a; b]
    ∧ Conversion.id b = "B"
    ∧ Conversion.bestAmongQualified (Conversion.r_variants result) b
    ∧ Conversion.isWinner b = false
    ∧ Conversion.isWinner a = false.
Proof.
  eexists _, _, _. split; [vm_compute; reflexivity|].
  split; [reflexivity|]. split; [reflexivity|]. split; [|split; reflexivity].
  split.
  - split; vm_compute; discriminate.
  - intros u Hu [Hviews Hconv].
    apply elem_of_cons in Hu as [->|Hu].
    + vm_compute in Hviews. exfalso. apply Hviews. reflexivity.
    + apply list_elem_of_singleton in Hu as ->. apply Qle_refl.
Qed.

(** ** Scenarios *)

(** The scenario of the specification: a published form with one required
    email field accepts [a@b.com], stores the submission and counts it. *)
Example submit_valid_email :
  let w := Samples.world (Samples.mkForm "f1" [Samples.emailChecked true] true) in
  let '(resp, w') :=
    Forms.submit Samples.host "f1"
      (Samples.request (Some {[ "email" := JS.JStr "a@b.com" ]})) 2000 "s1" w in
  resp = Forms.RespSubmitted "Thank you for your submission!" "s1"
  ∧ Forms.form_submissions <$> Forms.forms w' !! "form:f1" = Some 1
  ∧ Forms.sub_createdAt <$> Forms.submissions w' !! "submission:f1:s1" = Some 2000.
Proof. vm_compute. repeat split. Qed.

(** The email and phone expressions on a few strings. *)
Example emailRegex_samples :
  map (Regex.test Regex.emailRegex)
    ["a@b.com"; "a@b.c.d"; "not-an-email"; "a@b@c.d"; "a@.d"; "a@b."; "a @b.d"; "@b.c"; ""]
  = [true; true; false; false; false; false; false; false; false].
Proof. vm_compute. reflexivity. Qed.

Example phoneRegex_samples :
  map (Regex.test Regex.phoneRegex) ["+1 (555) 123-4567"; "555x"; ""]
  = [true; false; false].
Proof. vm_compute. reflexivity. Qed.

(** A session that exists is counted: view, start and submission counters
    move, and the session leaves the map on submit. *)
Example session_lifecycle :
  let device := {| Analytics.device_type := Analytics.desktop; Analytics.browser := "b";
                   Analytics.os := "o"; Analytics.screenWidth := 1280;
                   Analytics.screenHeight := 800 |} in
  let geo := {| Analytics.country := None; Analytics.region := None;
                Analytics.city := None |} in
  let run :=
    await! Analytics.startSession Samples.host 1 "f1" "sid" device geo None None None;
    await! Analytics.markStarted Samples.host 2 "sid";
    await! Analytics.trackInteraction "sid" (Samples.focusOn "email" 3);
    await! Analytics.markCompleted Samples.host 4 "sid";
    await! Analytics.markSubmitted Samples.host 5 "sid";
    Analytics.onKV (Analytics.getAnalytics Samples.host "f1" 0 0 "Contact Form" []) in
  let '(a, c) := run Samples.emptyCollector in
  map Analytics.step_count (Analytics.a_funnel a) = [1; 1; 1; 1]
  ∧ map Analytics.dropOff (Analytics.a_funnel a) = [0; 0; 0; 0]
  ∧ Analytics.sessions c !! "sid" = None
  ∧ Analytics.counters (Analytics.kv c) !! "analytics:field:f1:email:focuses" = Some 1.
Proof. vm_compute. repeat split. Qed.

(** ** The form application: the other routes *)

Section FormRoutes.
Import JS Forms.
Context (h : Host).

Lemma formKey_inj (a b : string) : "form:" +:+ a = "form:" +:+ b → a = b.
Proof. intros Heq. cbn in Heq. by simplify_eq. Qed.

Lemma submit_cases w id req now uuid :
  (snd (submit h id req now uuid w) = w
   ∧ status (fst (submit h id req now uuid w)) ∈ [400; 404; 500])
  ∨ (∃ form body,
       forms w !! ("form:" +:+ id) = Some form
       ∧ form_published form = true
       ∧ isClosed form now = false
       ∧ req_body req = Some body
       ∧ checkFields h body (form_fields form) = Pass
       ∧ snd (submit h id req now uuid w) = accepted w id req body form now uuid
       ∧ fst (submit h id req now uuid w)
         = if truthyStr (redirectUrl (form_settings form))
           then RespRedirect (default "" (redirectUrl (form_settings form)))
           else RespSubmitted (successMessage (form_settings form)) uuid).
Proof.
  unfold submit, St.bind, getForm, St.gets, St.ret.
  destruct (forms w !! ("form:" +:+ id)) as [form|] eqn:Hform;
    [|left; split; [reflexivity|set_solver]].
  destruct (form_published form) eqn:Hpub; simpl;
    [|left; split; [reflexivity|set_solver]].
  destruct (isClosed form now) eqn:Hclosed;
    [left; split; [reflexivity|set_solver]|].
  destruct (req_body req) as [body|] eqn:Hbody;
    [|left; split; [reflexivity|set_solver]].
  destruct (checkFields h body (form_fields form)) eqn:Hcheck;
    [|left; split; [reflexivity|set_solver]..].
  right. exists form, body. repeat (split; [assumption || reflexivity|]).
  unfold putSubmission, putForm, fetch, St.modify, accepted. simpl.
  destruct (truthyStr (webhookUrl (form_settings form)));
    destruct (truthyStr (redirectUrl (form_settings form))); simpl;
    split; try reflexivity; rewrite ?app_nil_r; destruct w; reflexivity.
Qed.

(** X1. [submit] either answers an error (400, 404 or 500) and leaves the
    forms, the submissions and the webhook outbox as they were, or accepts
    (200 or 302) and then writes exactly: the new submission under
    [submission:<id>:<uuid>], made of the generated id, the form id of the
    route, the body as data, the request's metadata and the clock reading;
    the form under the key of its own id, with [submissions] raised by one
    and every other property as it was; and one webhook request carrying the
    form's name and that submission if a webhook URL is configured. *)
Theorem submit_rejects_or_stores w id req now uuid :
  (status (fst (submit h id req now uuid w)) ∈ [400; 404; 500]
   ∧ snd (submit h id req now uuid w) = w)
  ∨ (status (fst (submit h id req now uuid w)) ∈ [200; 302]
     ∧ ∃ form body,
         forms w !! ("form:" +:+ id) = Some form
         ∧ req_body req = Some body
         ∧ snd (submit h id req now uuid w)
           = {| forms :=
                  <["form:" +:+ form_id form :=
                      {| form_id := form_id form;
                         form_name := form_name form;
                         form_description := form_description form;
                         form_fields := form_fields form;
                         form_settings := form_settings form;
                         form_createdAt := form_createdAt form;
                         form_updatedAt := form_updatedAt form;
                         form_published := form_published form;
                         form_submissions := form_submissions form + 1 |}]>
                    (forms w);
                submissions :=
                  <["submission:" +:+ id +:+ ":" +:+ uuid :=
                      {| sub_id := uuid;
                         sub_formId := id;
                         sub_data := body;
                         sub_metadata :=
                           {| ip := req_ip req; userAgent := req_userAgent req;
                              referrer := req_referer req;
                              country := req_country req |};
                         sub_createdAt := now |}]>
                    (submissions w);
                outbox :=
                  outbox w
                  ++ (if truthyStr (webhookUrl (form_settings form))
                      then [{| hook_url := default "" (webhookUrl (form_settings form));
                               hook_form := form_name form;
                               hook_submission :=
                                 {| sub_id := uuid;
                                    sub_formId := id;
                                    sub_data := body;
                                    sub_metadata :=
                                      {| ip := req_ip req;
                                         userAgent := req_userAgent req;
                                         referrer := req_referer req;
                                         country := req_country req |};
                                    sub_createdAt := now |} |}]
                      else []) |}).
Proof.
  destruct (submit_cases w id req now uuid)
    as [[Hw Hst]|(form & body & Hform & _ & _ & Hbody & _ & Hw & Hresp)].
  - left. split; assumption.
  - right. split.
    + rewrite Hresp. destruct (truthyStr _); simpl; set_solver.
    + exists form, body. split; [assumption|]. split; [assumption|].
      rewrite Hw. reflexivity.
Qed.

(** X2. A published form whose close date is set (not zero) and lies before
    the current time answers every submit request with HTTP 400 and its
    [closedMessage], or [Form is closed] when that is absent or empty, and
    nothing is stored; at the close date itself the form is still open. *)
Theorem submit_closed_rejected w id req now uuid form deadline :
  forms w !! ("form:" +:+ id) = Some form →
  form_published form = true →
  closeDate (form_settings form) = Some deadline →
  deadline ≠ 0 →
  (deadline < now →
   submit h id req now uuid w
   = (RespError 400 (orElse (closedMessage (form_settings form)) "Form is closed"), w))
  ∧ isClosed form deadline = false.
Proof.
  intros Hform Hpub Hclose Hnz. split.
  - intros Hlt. unfold submit, St.bind, getForm, St.gets, St.ret.
    rewrite Hform, Hpub. simpl. unfold isClosed. rewrite Hclose. simpl.
    assert ((deadline =? 0) = false) as -> by (apply Z.eqb_neq, Hnz).
    assert ((deadline <? now) = true) as -> by (apply Z.ltb_lt, Hlt).
    reflexivity.
  - unfold isClosed. rewrite Hclose. simpl. rewrite Z.ltb_irrefl.
    apply andb_false_r.
Qed.

Lemma putForm_run key form w :
  putForm key form w
  = (tt, {| forms := <[key := form]> (forms w);
            submissions := submissions w; outbox := outbox w |}).
Proof. reflexivity. Qed.

(** X3. [POST /forms] with a name stores a form under the generated id that
    is unpublished and has no submissions, whatever the body says about
    [id], [published] or [submissions]; the form can be read back, and every
    submit request to it is rejected as not accepting submissions.  Without
    a name, or with an empty one, the answer is 400 and nothing is stored. *)
Theorem createForm_starts_unpublished w patch now uuid :
  if truthyStr (p_name patch) then
    ∃ form,
      createForm (Some patch) now uuid w
      = (ReplyCreated uuid (default "" (p_name patch)),
         {| forms := <["form:" +:+ uuid := form]> (forms w);
            submissions := submissions w; outbox := outbox w |})
      ∧ form_id form = uuid
      ∧ form_published form = false
      ∧ form_submissions form = 0
      ∧ fst (readForm uuid (snd (createForm (Some patch) now uuid w))) = ReplyForm form
      ∧ ∀ req now' uuid',
          submit h uuid req now' uuid' (snd (createForm (Some patch) now uuid w))
          = (RespError 400 "Form is not accepting submissions",
             snd (createForm (Some patch) now uuid w))
  else
    createForm (Some patch) now uuid w
    = (ReplyError 400 "Missing required field: name", w).
Proof.
  unfold createForm. destruct (truthyStr (p_name patch)) eqn:Hname; simpl;
    [|reflexivity].
  eexists. unfold St.bind. rewrite putForm_run. unfold St.ret. simpl.
  split; [reflexivity|]. split; [reflexivity|]. split; [reflexivity|].
  split; [reflexivity|]. split.
  - unfold readForm, St.bind, getForm, St.gets, St.ret. simpl.
    rewrite lookup_insert_eq. reflexivity.
  - intros req now' uuid'.
    unfold submit, St.bind, getForm, St.gets, St.ret. simpl.
    rewrite lookup_insert_eq. reflexivity.
Qed.

Lemma publishAs_run published id now w form :
  forms w !! ("form:" +:+ id) = Some form →
  publishAs published id now w
  = (ReplyPublished (form_id form) published,
     {| forms := <["form:" +:+ form_id form := setPublished form published now]> (forms w);
        submissions := submissions w; outbox := outbox w |}).
Proof.
  intros Hform. unfold publishAs, St.bind, getForm, St.gets.
  rewrite Hform. reflexivity.
Qed.

(** X4. On a form stored under its own id, [publish] ([published] is
    [true]) and [unpublish] ([false]) answer with the id and the flag, and
    replace that one form by itself with [published] set to the flag,
    [updatedAt] set to the clock reading and every other property as it
    was, touching nothing else; the form then reads back with that flag; a
    later toggle overrides an earlier one; and after [unpublish] every
    submit request is rejected as not accepting submissions. *)
Theorem publish_toggle w id now form published :
  forms w !! ("form:" +:+ id) = Some form →
  form_id form = id →
  publishAs published id now w
  = (ReplyPublished id published,
     {| forms :=
          <["form:" +:+ id :=
              {| form_id := form_id form;
                 form_name := form_name form;
                 form_description := form_description form;
                 form_fields := form_fields form;
                 form_settings := form_settings form;
                 form_createdAt := form_createdAt form;
                 form_updatedAt := now;
                 form_published := published;
                 form_submissions := form_submissions form |}]> (forms w);
        submissions := submissions w; outbox := outbox w |})
  ∧ publish id now w = publishAs true id now w
  ∧ unpublish id now w = publishAs false id now w
  ∧ (∃ stored,
       fst (readForm id (snd (publishAs published id now w))) = ReplyForm stored
       ∧ form_published stored = published
       ∧ form_updatedAt stored = now
       ∧ form_submissions stored = form_submissions form)
  ∧ (∀ earlier before,
       snd (publishAs published id now (snd (publishAs earlier id before w)))
       = snd (publishAs published id now w))
  ∧ (∀ req now' uuid,
       submit h id req now' uuid (snd (unpublish id now w))
       = (RespError 400 "Form is not accepting submissions",
          snd (unpublish id now w))).
Proof.
  intros Hform Hid.
  change {| form_id := form_id form;
            form_name := form_name form;
            form_description := form_description form;
            form_fields := form_fields form;
            form_settings := form_settings form;
            form_createdAt := form_createdAt form;
            form_updatedAt := now;
            form_published := published;
            form_submissions := form_submissions form |}
    with (setPublished form published now).
  assert (∀ b t, publishAs b id t w
                 = (ReplyPublished id b,
                    {| forms := <["form:" +:+ id := setPublished form b t]> (forms w);
                       submissions := submissions w; outbox := outbox w |})) as Hrun.
  { intros b t. rewrite (publishAs_run b id t w form Hform), Hid. reflexivity. }
  split; [apply Hrun|]. split; [reflexivity|]. split; [reflexivity|]. split; [|split].
  - exists (setPublished form published now). rewrite Hrun. cbn [snd].
    unfold readForm, St.bind, getForm, St.gets, St.ret. cbn [forms fst].
    rewrite lookup_insert_eq. repeat split; reflexivity.
  - intros earlier before. rewrite (Hrun earlier before). simpl.
    erewrite publishAs_run by (simpl; apply lookup_insert_eq).
    rewrite Hrun. simpl. rewrite Hid, insert_insert_eq. reflexivity.
  - intros req now' uuid. unfold unpublish. rewrite Hrun. simpl.
    unfold submit, St.bind, getForm, St.gets, St.ret. simpl.
    rewrite lookup_insert_eq. reflexivity.
Qed.

(** X5. [PUT /forms/:id] on a form stored under its own id keeps the id and
    the creation time even when the body sets them, stamps [updatedAt],
    stores the merged form under the same key and touches no other key; the
    merged form can be read back. *)
Theorem updateForm_keeps_identity w id patch now existing :
  forms w !! ("form:" +:+ id) = Some existing →
  form_id existing = id →
  updateForm id (Some patch) now w
  = (ReplyUpdated id,
     {| forms := <["form:" +:+ id := mergeForm existing patch now]> (forms w);
        submissions := submissions w; outbox := outbox w |})
  ∧ fst (readForm id (snd (updateForm id (Some patch) now w)))
    = ReplyForm (mergeForm existing patch now)
  ∧ form_id (mergeForm existing patch now) = id
  ∧ form_createdAt (mergeForm existing patch now) = form_createdAt existing
  ∧ form_updatedAt (mergeForm existing patch now) = now.
Proof.
  intros Hform Hid.
  assert (updateForm id (Some patch) now w
          = (ReplyUpdated id,
             {| forms := <["form:" +:+ id := mergeForm existing patch now]> (forms w);
                submissions := submissions w; outbox := outbox w |})) as Hrun.
  { unfold updateForm, St.bind, getForm, St.gets. rewrite Hform.
    rewrite putForm_run. unfold St.ret. simpl. rewrite Hid. reflexivity. }
  split; [exact Hrun|]. rewrite Hrun. simpl. split.
  - unfold readForm, St.bind, getForm, St.gets, St.ret. simpl.
    rewrite lookup_insert_eq. reflexivity.
  - split; [exact Hid|]. split; reflexivity.
Qed.

(** X6. For an id with no stored form, every route that reads the form
    answers 404 and changes nothing, before it looks at the request: read,
    update (even with an unreadable body), publish, unpublish, submit,
    export and analytics. *)
Theorem missing_form_404 w id updates req now uuid :
  forms w !! ("form:" +:+ id) = None →
  readForm id w = (ReplyError 404 "Form not found", w)
  ∧ updateForm id updates now w = (ReplyError 404 "Form not found", w)
  ∧ publish id now w = (ReplyError 404 "Form not found", w)
  ∧ unpublish id now w = (ReplyError 404 "Form not found", w)
  ∧ submit h id req now uuid w = (RespError 404 "Form not found", w)
  ∧ export h id w = (RespError 404 "Form not found", w)
  ∧ formAnalytics h id w = (ReplyError 404 "Form not found", w).
Proof.
  intros Hnone.
  unfold readForm, updateForm, publish, unpublish, publishAs, submit, export,
    formAnalytics, St.bind, getForm, St.gets, St.ret.
  rewrite Hnone. repeat split.
Qed.

Lemma forEach_delete keys w :
  forms (snd (St.forEach keys deleteSubmissionKey w)) = forms w
  ∧ outbox (snd (St.forEach keys deleteSubmissionKey w)) = outbox w
  ∧ ∀ k, submissions (snd (St.forEach keys deleteSubmissionKey w)) !! k
         = if decide (k ∈ keys) then None else submissions w !! k.
Proof.
  revert w. induction keys as [|key keys IH]; intros w.
  - split; [reflexivity|]. split; [reflexivity|].
    intros k. rewrite decide_False by apply not_elem_of_nil. reflexivity.
  - simpl. unfold St.bind, deleteSubmissionKey at 1 3 5, St.modify.
    set (w1 := {| forms := forms w; submissions := delete key (submissions w);
                  outbox := outbox w |}).
    destruct (IH w1) as (Hf & Ho & Hs). split; [exact Hf|]. split; [exact Ho|].
    intros k. rewrite Hs. subst w1. simpl.
    destruct (decide (k ∈ keys)) as [Hin|Hnin].
    + rewrite decide_True by (apply elem_of_cons; auto). reflexivity.
    + destruct (decide (k = key)) as [->|Hne].
      * rewrite decide_True by (apply elem_of_cons; auto). apply lookup_delete_eq.
      * rewrite decide_False by (rewrite elem_of_cons; tauto).
        apply lookup_delete_ne. congruence.
Qed.

Lemma listSubmissionKeys_spec prefix w k :
  k ∈ fst (listSubmissionKeys prefix w)
  ↔ String.prefix prefix k = true ∧ is_Some (submissions w !! k).
Proof.
  unfold listSubmissionKeys, St.gets. simpl.
  rewrite merge_sort_Permutation, list_elem_of_filter, list_elem_of_fmap.
  rewrite Is_true_true. split.
  - intros [Hp ([k' sub] & -> & Hin)]. split; [exact Hp|].
    apply elem_of_map_to_list in Hin. simpl. eauto.
  - intros [Hp [sub Hsub]]. split; [exact Hp|].
    exists (k, sub). split; [reflexivity|]. apply elem_of_map_to_list, Hsub.
Qed.

Lemma omap_map_id {A B} (f : A → option B) (l : list A) :
  omap (λ data, data) (map f l) = omap f l.
Proof.
  induction l as [|x l IH]; [reflexivity|].
  csimpl. rewrite IH. reflexivity.
Qed.

Lemma loadSubmissions_run id w :
  loadSubmissions id w
  = (omap (λ key, submissions w !! key)
       (fst (listSubmissionKeys ("submission:" +:+ id +:+ ":") w)), w).
Proof.
  unfold loadSubmissions, St.bind, listSubmissionKeys, getSubmission.
  unfold St.gets at 1. rewrite mapM_gets. unfold St.ret. simpl.
  f_equal. apply omap_map_id.
Qed.

Lemma deleteForm_run id w :
  deleteForm id w
  = (ReplyDeleted,
     snd (St.forEach
            (fst (listSubmissionKeys ("submission:" +:+ id +:+ ":")
                    {| forms := delete ("form:" +:+ id) (forms w);
                       submissions := submissions w; outbox := outbox w |}))
            deleteSubmissionKey
            {| forms := delete ("form:" +:+ id) (forms w);
               submissions := submissions w; outbox := outbox w |})).
Proof.
  unfold deleteForm, St.bind, deleteFormKey, St.modify.
  unfold listSubmissionKeys, St.gets, St.ret. simpl.
  destruct (St.forEach _ _ _) as [[] w1]. reflexivity.
Qed.

(** X7. [DELETE /forms/:id] removes the form and every submission whose key
    starts with [submission:<id>:], keeps every other submission and every
    other form, and sends nothing; afterwards the form reads as 404 and no
    submission of it is left to load.  It answers [deleted] whether or not
    the form existed. *)
Theorem deleteForm_cascades w id :
  fst (deleteForm id w) = ReplyDeleted
  ∧ forms (snd (deleteForm id w)) = delete ("form:" +:+ id) (forms w)
  ∧ outbox (snd (deleteForm id w)) = outbox w
  ∧ (∀ k, submissions (snd (deleteForm id w)) !! k
          = if String.prefix ("submission:" +:+ id +:+ ":") k
            then None else submissions w !! k)
  ∧ fst (readForm id (snd (deleteForm id w))) = ReplyError 404 "Form not found"
  ∧ fst (loadSubmissions id (snd (deleteForm id w))) = [].
Proof.
  set (prefix := "submission:" +:+ id +:+ ":").
  set (w0 := {| forms := delete ("form:" +:+ id) (forms w);
                submissions := submissions w; outbox := outbox w |}).
  set (keys := fst (listSubmissionKeys prefix w0)).
  pose proof (deleteForm_run id w) as Hrun. fold prefix w0 keys in Hrun.
  destruct (forEach_delete keys w0) as (Hf & Ho & Hs).
  assert (∀ k, submissions (snd (deleteForm id w)) !! k
               = if String.prefix prefix k then None else submissions w !! k) as Hsub.
  { intros k. rewrite Hrun. simpl. rewrite Hs.
    change (submissions w0) with (submissions w).
    destruct (decide (k ∈ keys)) as [Hin|Hnin].
    - apply listSubmissionKeys_spec in Hin as [-> _]. reflexivity.
    - destruct (String.prefix prefix k) eqn:Hp; [|reflexivity].
      destruct (submissions w !! k) as [sub|] eqn:Hk; [|reflexivity].
      exfalso. apply Hnin. apply listSubmissionKeys_spec. split; [exact Hp|].
      change (submissions w0) with (submissions w). rewrite Hk. eauto. }
  split; [rewrite Hrun; reflexivity|].
  split; [rewrite Hrun; cbn [snd]; rewrite Hf; reflexivity|].
  split; [rewrite Hrun; cbn [snd]; rewrite Ho; reflexivity|].
  split; [exact Hsub|]. split.
  - unfold readForm, St.bind, getForm, St.gets, St.ret.
    rewrite Hrun. cbn [snd fst]. rewrite Hf. subst w0. cbn [forms].
    rewrite lookup_delete_eq. reflexivity.
  - rewrite loadSubmissions_run. cbn [fst]. fold prefix.
    assert (fst (listSubmissionKeys prefix (snd (deleteForm id w))) = []) as ->;
      [|reflexivity].
    apply elem_of_nil_inv. intros k Hin.
    apply listSubmissionKeys_spec in Hin as [Hp [sub Hk]].
    rewrite Hsub, Hp in Hk. discriminate.
Qed.

Lemma wellKeyed_insert w w' form :
  wellKeyed w →
  forms w' = <["form:" +:+ form_id form := form]> (forms w) →
  wellKeyed w'.
Proof.
  intros Hw Hforms id f. rewrite Hforms.
  destruct (decide ("form:" +:+ form_id form = "form:" +:+ id)) as [Heq|Hne].
  - rewrite Heq, lookup_insert_eq. intros [= <-]. apply formKey_inj, Heq.
  - rewrite lookup_insert_ne by exact Hne. apply Hw.
Qed.

(** X8. In a store where every form sits under the key of its own id (the
    empty store is one), every handler keeps it so: create, update, publish,
    unpublish, submit, delete of a form and delete of a submission.  So the
    counter and the flags of a form are never written under another form's
    key. *)
Theorem wellKeyed_preserved w :
  wellKeyed w →
  (∀ body now uuid, wellKeyed (snd (createForm body now uuid w)))
  ∧ (∀ id updates now, wellKeyed (snd (updateForm id updates now w)))
  ∧ (∀ published id now, wellKeyed (snd (publishAs published id now w)))
  ∧ (∀ id req now uuid, wellKeyed (snd (submit h id req now uuid w)))
  ∧ (∀ id, wellKeyed (snd (deleteForm id w)))
  ∧ (∀ formId subId, wellKeyed (snd (deleteSubmission formId subId w))).
Proof.
  intros Hw. split; [|split; [|split; [|split; [|split]]]].
  - intros [patch|] now uuid; [|exact Hw]. unfold createForm.
    destruct (truthyStr (p_name patch)); cbn [negb]; [|exact Hw].
    unfold St.bind. rewrite putForm_run. unfold St.ret. cbn [snd].
    match goal with
    | |- wellKeyed {| forms := <[_ := ?f]> _; submissions := _; outbox := _ |} =>
        apply (wellKeyed_insert w _ f Hw)
    end.
    reflexivity.
  - intros id updates now. unfold updateForm, St.bind, getForm, St.gets.
    destruct (forms w !! ("form:" +:+ id)) as [existing|]; [|exact Hw].
    destruct updates as [patch|]; [|exact Hw].
    rewrite putForm_run. unfold St.ret. cbn [snd].
    apply (wellKeyed_insert w _ (mergeForm existing patch now) Hw).
    reflexivity.
  - intros published id now. unfold publishAs, St.bind, getForm, St.gets.
    destruct (forms w !! ("form:" +:+ id)) as [form|]; [|exact Hw].
    rewrite putForm_run. unfold St.ret. cbn [snd].
    apply (wellKeyed_insert w _ (setPublished form published now) Hw).
    reflexivity.
  - intros id req now uuid.
    destruct (submit_cases w id req now uuid)
      as [[-> _]|(form & body & _ & _ & _ & _ & _ & -> & _)]; [exact Hw|].
    apply (wellKeyed_insert w _ (bumpSubmissions form) Hw).
    reflexivity.
  - intros id id' form. rewrite deleteForm_run. cbn [snd].
    destruct (forEach_delete
                (fst (listSubmissionKeys ("submission:" +:+ id +:+ ":")
                        {| forms := delete ("form:" +:+ id) (forms w);
                           submissions := submissions w; outbox := outbox w |}))
                {| forms := delete ("form:" +:+ id) (forms w);
                   submissions := submissions w; outbox := outbox w |})
      as (-> & _). cbn [forms].
    intros Hlook. apply lookup_delete_Some in Hlook as [_ Hlook]. apply Hw, Hlook.
  - intros formId subId. exact Hw.
Qed.

Lemma prefix_append (p s : string) : String.prefix p (p +:+ s) = true.
Proof.
  induction p as [|a p IH]; [destruct s; reflexivity|].
  change (String a p +:+ s) with (String a (p +:+ s)). simpl.
  destruct (ascii_dec a a) as [_|Hne]; [exact IH | congruence].
Qed.

Lemma submit_accepts w id req now uuid form body :
  forms w !! ("form:" +:+ id) = Some form →
  form_published form = true →
  isClosed form now = false →
  req_body req = Some body →
  checkFields h body (form_fields form) = Pass →
  submit h id req now uuid w
  = (if truthyStr (redirectUrl (form_settings form))
     then RespRedirect (default "" (redirectUrl (form_settings form)))
     else RespSubmitted (successMessage (form_settings form)) uuid,
     accepted w id req body form now uuid).
Proof.
  intros Hform Hpub Hclosed Hbody Hcheck.
  unfold submit, St.bind, getForm, St.gets, St.ret.
  rewrite Hform, Hpub. cbn [negb]. rewrite Hclosed, Hbody, Hcheck.
  unfold putSubmission, putForm, fetch, St.modify, accepted. simpl.
  destruct (truthyStr (webhookUrl (form_settings form)));
    destruct (truthyStr (redirectUrl (form_settings form))); simpl;
    rewrite ?app_nil_r; destruct w; reflexivity.
Qed.

Lemma prefix_append2 (p1 p2 s : string) :
  String.prefix (p1 +:+ p2) (p1 +:+ p2 +:+ s) = true.
Proof.
  induction p1 as [|a p1 IH]; [exact (prefix_append p2 s)|].
  change (String a p1 +:+ p2) with (String a (p1 +:+ p2)).
  change (String a p1 +:+ p2 +:+ s) with (String a (p1 +:+ p2 +:+ s)). simpl.
  destruct (ascii_dec a a) as [_|Hne]; [exact IH | congruence].
Qed.

Lemma prefix_append3 (p1 p2 p3 s : string) :
  String.prefix (p1 +:+ p2 +:+ p3) (p1 +:+ p2 +:+ p3 +:+ s) = true.
Proof.
  induction p1 as [|a p1 IH]; [exact (prefix_append2 p2 p3 s)|].
  change (String a p1 +:+ p2 +:+ p3) with (String a (p1 +:+ p2 +:+ p3)).
  change (String a p1 +:+ p2 +:+ p3 +:+ s)
    with (String a (p1 +:+ p2 +:+ p3 +:+ s)). simpl.
  destruct (ascii_dec a a) as [_|Hne]; [exact IH | congruence].
Qed.

(** X9. After an accepted submission to a form stored under its own id, the
    submission can be read back under the generated id: it holds that id,
    the form id, the submitted body as data, the request's metadata and the
    clock reading; the form reads back with [submissions] raised by one and
    every other property as it was; and the submission is among those
    [export] and the analytics route load. *)
Theorem accepted_submission_readable w id req now uuid form body :
  forms w !! ("form:" +:+ id) = Some form →
  form_id form = id →
  form_published form = true →
  isClosed form now = false →
  req_body req = Some body →
  checkFields h body (form_fields form) = Pass →
  fst (readSubmission id uuid (snd (submit h id req now uuid w)))
  = ReplySubmission
      {| sub_id := uuid;
         sub_formId := id;
         sub_data := body;
         sub_metadata :=
           {| ip := req_ip req; userAgent := req_userAgent req;
              referrer := req_referer req; country := req_country req |};
         sub_createdAt := now |}
  ∧ fst (readForm id (snd (submit h id req now uuid w)))
    = ReplyForm
        {| form_id := form_id form;
           form_name := form_name form;
           form_description := form_description form;
           form_fields := form_fields form;
           form_settings := form_settings form;
           form_createdAt := form_createdAt form;
           form_updatedAt := form_updatedAt form;
           form_published := form_published form;
           form_submissions := form_submissions form + 1 |}
  ∧ {| sub_id := uuid;
       sub_formId := id;
       sub_data := body;
       sub_metadata :=
         {| ip := req_ip req; userAgent := req_userAgent req;
            referrer := req_referer req; country := req_country req |};
       sub_createdAt := now |}
    ∈ fst (loadSubmissions id (snd (submit h id req now uuid w))).
Proof.
  intros Hform Hid Hpub Hclosed Hbody Hcheck.
  change {| sub_id := uuid;
            sub_formId := id;
            sub_data := body;
            sub_metadata :=
              {| ip := req_ip req; userAgent := req_userAgent req;
                 referrer := req_referer req; country := req_country req |};
            sub_createdAt := now |}
    with (submissionOf id req body now uuid).
  change {| form_id := form_id form;
            form_name := form_name form;
            form_description := form_description form;
            form_fields := form_fields form;
            form_settings := form_settings form;
            form_createdAt := form_createdAt form;
            form_updatedAt := form_updatedAt form;
            form_published := form_published form;
            form_submissions := form_submissions form + 1 |}
    with (bumpSubmissions form).
  rewrite (submit_accepts w id req now uuid form body) by assumption.
  cbn [snd]. split; [|split].
  - unfold readSubmission, St.bind, getSubmission, St.gets, St.ret, accepted.
    cbn [submissions fst snd]. rewrite lookup_insert_eq. reflexivity.
  - unfold readForm, St.bind, getForm, St.gets, St.ret, accepted.
    cbn [forms fst snd]. rewrite Hid, lookup_insert_eq. reflexivity.
  - rewrite loadSubmissions_run. cbn [fst]. apply list_elem_of_omap.
    exists ("submission:" +:+ id +:+ ":" +:+ uuid). split.
    + apply listSubmissionKeys_spec. split.
      * apply prefix_append3.
      * unfold accepted. cbn [submissions]. rewrite lookup_insert_eq. eauto.
    + unfold accepted. cbn [submissions]. apply lookup_insert_eq.
Qed.

Lemma tally_sum key counts :
  fold_right Z.add 0 (map snd (tally key counts))
  = fold_right Z.add 0 (map snd counts) + 1.
Proof.
  induction counts as [|[k n] counts IH]; simpl; [reflexivity|].
  destruct (String.eqb k key); simpl; lia.
Qed.

Lemma tally_keys key counts :
  NoDup (map fst counts) → Forall (λ kn, 1 ≤ snd kn) counts →
  NoDup (map fst (tally key counts)) ∧ Forall (λ kn, 1 ≤ snd kn) (tally key counts)
  ∧ ∀ k, k ∈ map fst (tally key counts) ↔ k = key ∨ k ∈ map fst counts.
Proof.
  induction counts as [|[k n] counts IH]; intros Hnd Hpos.
  - simpl. split; [apply NoDup_singleton|]. split.
    + constructor; [simpl; lia | constructor].
    + intros k. rewrite list_elem_of_singleton, elem_of_nil. tauto.
  - simpl in *. apply NoDup_cons in Hnd as [Hk Hnd].
    apply Forall_cons in Hpos as [Hn Hpos]. simpl in Hn.
    destruct (String.eqb k key) eqn:Hkey.
    + apply String.eqb_eq in Hkey as ->. simpl. split; [apply NoDup_cons; auto|].
      split; [constructor; [simpl; lia | exact Hpos]|].
      intros k. rewrite elem_of_cons. tauto.
    + apply String.eqb_neq in Hkey.
      destruct (IH Hnd Hpos) as (Hnd' & Hpos' & Hmem). simpl. split.
      * apply NoDup_cons. split; [|exact Hnd'].
        rewrite Hmem. intros [->|Hin]; [congruence | exact (Hk Hin)].
      * split; [constructor; [exact Hn | exact Hpos']|].
        intros k'. rewrite !elem_of_cons, Hmem. tauto.
Qed.

Lemma tally_fold {A} (keyOf : A → string) (xs : list A) (counts : list (string * Z)) :
  NoDup (map fst counts) → Forall (λ kn, 1 ≤ snd kn) counts →
  fold_right Z.add 0 (map snd (fold_left (λ c x, tally (keyOf x) c) xs counts))
  = fold_right Z.add 0 (map snd counts) + Z.of_nat (length xs)
  ∧ NoDup (map fst (fold_left (λ c x, tally (keyOf x) c) xs counts))
  ∧ Forall (λ kn, 1 ≤ snd kn) (fold_left (λ c x, tally (keyOf x) c) xs counts)
  ∧ ∀ k, k ∈ map fst (fold_left (λ c x, tally (keyOf x) c) xs counts)
         ↔ k ∈ map keyOf xs ∨ k ∈ map fst counts.
Proof.
  revert counts. induction xs as [|x xs IH]; intros counts Hnd Hpos.
  - simpl. split; [lia|]. split; [exact Hnd|]. split; [exact Hpos|].
    intros k. rewrite elem_of_nil. tauto.
  - destruct (tally_keys (keyOf x) counts Hnd Hpos) as (Hnd' & Hpos' & Hmem).
    destruct (IH (tally (keyOf x) counts) Hnd' Hpos') as (Hsum & Hnd'' & Hpos'' & Hmem').
    cbn [fold_left]. split; [rewrite Hsum, tally_sum; cbn [length]; lia|].
    split; [exact Hnd''|]. split; [exact Hpos''|].
    intros k. rewrite Hmem', Hmem. cbn [map]. rewrite elem_of_cons. tauto.
Qed.

(** X10. For a stored form, [GET /forms/:id/analytics] changes nothing and
    reports the number of loaded submissions as [totalSubmissions]; the
    counts of [byDay] add up to it, and so do the counts of [byCountry];
    every day and every country is listed once, with a count of at least
    one, and the days listed are exactly the days of the submissions. *)
Theorem formAnalytics_totals w id form :
  forms w !! ("form:" +:+ id) = Some form →
  ∃ stats,
    formAnalytics h id w = (ReplyStats stats, w)
    ∧ totalSubmissions stats = Z.of_nat (length (fst (loadSubmissions id w)))
    ∧ fold_right Z.add 0 (map snd (byDay stats)) = totalSubmissions stats
    ∧ fold_right Z.add 0 (map snd (byCountry stats)) = totalSubmissions stats
    ∧ NoDup (map fst (byDay stats)) ∧ NoDup (map fst (byCountry stats))
    ∧ Forall (λ kn, 1 ≤ snd kn) (byDay stats ++ byCountry stats)
    ∧ ∀ day, day ∈ map fst (byDay stats)
             ↔ day ∈ map (dayOf h) (fst (loadSubmissions id w)).
Proof.
  intros Hform. unfold formAnalytics, St.bind, getForm, St.gets.
  rewrite Hform. rewrite loadSubmissions_run. unfold St.ret. cbn [fst].
  set (subs := omap _ _).
  destruct (tally_fold (dayOf h) subs [] (NoDup_nil_2) (Forall_nil_2 _))
    as (Hsum & Hnd & Hpos & Hmem).
  destruct (tally_fold (countryOf) subs [] (NoDup_nil_2) (Forall_nil_2 _))
    as (Hsum' & Hnd' & Hpos' & _).
  eexists. split; [reflexivity|]. cbn [totalSubmissions byDay byCountry].
  split; [reflexivity|]. split; [rewrite Hsum; simpl; lia|].
  split; [rewrite Hsum'; simpl; lia|]. split; [exact Hnd|]. split; [exact Hnd'|].
  split; [apply Forall_app; split; assumption|].
  intros day. rewrite Hmem, elem_of_nil. tauto.
Qed.

End FormRoutes.

(** ** Sorting *)

Lemma StronglySorted_mono {A} (R1 R2 : A → A → Prop) (l : list A) :
  (∀ a b, R1 a b → R2 a b) → StronglySorted R1 l → StronglySorted R2 l.
Proof.
  intros Himpl Hs. induction Hs as [|x l Hs IH Hx]; constructor; [exact IH|].
  eapply Forall_impl; [exact Hx|]. intros y. apply Himpl.
Qed.

Lemma Sorted_mono {A} (R1 R2 : A → A → Prop) (l : list A) :
  (∀ a b, R1 a b → R2 a b) → Sorted R1 l → Sorted R2 l.
Proof.
  intros Himpl Hs. induction Hs as [|x l Hs IH Hx]; constructor; [exact IH|].
  destruct Hx; constructor. apply Himpl. assumption.
Qed.

Section SortFacts.
Import JS.
Context {A : Type} (le : A → A → bool).

Lemma insertSorted_Permutation x l : insertSorted le x l ≡ₚ x :: l.
Proof.
  induction l as [|y l IH]; simpl; [reflexivity|].
  destruct (le x y); [reflexivity|].
  rewrite IH. apply perm_swap.
Qed.

Lemma sortWith_Permutation xs : sortWith le xs ≡ₚ xs.
Proof.
  induction xs as [|x xs IH]; [reflexivity|].
  unfold sortWith in *. simpl. rewrite insertSorted_Permutation, IH. reflexivity.
Qed.

Lemma insertSorted_sorted x l :
  (∀ a b, le a b = false → le b a = true) →
  (∀ a b c, le a b = true → le b c = true → le a c = true) →
  StronglySorted (λ a b, le a b = true) l →
  StronglySorted (λ a b, le a b = true) (insertSorted le x l).
Proof.
  intros Htotal Htrans Hl. induction Hl as [|y l Hl IH Hy]; simpl.
  - repeat constructor.
  - destruct (le x y) eqn:Hxy.
    + constructor; [constructor; assumption|].
      constructor; [exact Hxy|].
      eapply Forall_impl; [exact Hy|]. intros z Hz. eapply Htrans; eassumption.
    + constructor; [exact IH|].
      rewrite insertSorted_Permutation. constructor; [|exact Hy].
      apply Htotal, Hxy.
Qed.

Lemma sortWith_sorted xs :
  (∀ a b, le a b = false → le b a = true) →
  (∀ a b c, le a b = true → le b c = true → le a c = true) →
  StronglySorted (λ a b, le a b = true) (sortWith le xs).
Proof.
  intros Htotal Htrans. induction xs as [|x xs IH]; [constructor|].
  unfold sortWith in *. simpl. apply insertSorted_sorted; assumption.
Qed.

Lemma sortWith_fixed xs :
  Sorted (λ a b, le a b = true) xs → sortWith le xs = xs.
Proof.
  intros Hs. induction Hs as [|x xs Hs IH Hhd]; [reflexivity|].
  unfold sortWith in *. simpl. rewrite IH.
  destruct Hhd as [|y l Hxy]; simpl; [reflexivity|]. rewrite Hxy. reflexivity.
Qed.

Lemma filter_insertSorted (P : A → Prop) `{∀ x, Decision (P x)} x l :
  (∀ a b, P a → P b → le a b = true) →
  filter P (insertSorted le x l) = filter P (x :: l).
Proof.
  intros Hclass. induction l as [|y l IH]; simpl; [reflexivity|].
  destruct (le x y) eqn:Hxy; [reflexivity|].
  rewrite filter_cons, IH, !filter_cons.
  destruct (decide (P x)) as [Hx|Hx]; [|reflexivity].
  destruct (decide (P y)) as [Hy|Hy]; [|reflexivity].
  rewrite (Hclass x y Hx Hy) in Hxy. discriminate.
Qed.

(** Stability: the elements of one class, any two of which compare as
    [le], keep their order. *)
Lemma filter_sortWith (P : A → Prop) `{∀ x, Decision (P x)} xs :
  (∀ a b, P a → P b → le a b = true) →
  filter P (sortWith le xs) = filter P xs.
Proof.
  intros Hclass. induction xs as [|x xs IH]; [reflexivity|].
  unfold sortWith in *. simpl. rewrite filter_insertSorted by exact Hclass.
  rewrite !filter_cons, IH. reflexivity.
Qed.

End SortFacts.

(** ** Field validation and rendering order *)

Section FieldFacts.
Import JS Forms.
Context (h : Host).

(** The order of the fields in [generateFormHTML]: every field once, in
    non-decreasing [order]; fields with the same [order] keep the order of
    the stored list, and a list already in order is rendered as it is. *)
Theorem renderOrder_stable_sort fields :
  renderOrder fields ≡ₚ fields
  ∧ StronglySorted (λ a b, field_order a ≤ field_order b) (renderOrder fields)
  ∧ (∀ k, filter (λ f, field_order f = k) (renderOrder fields)
          = filter (λ f, field_order f = k) fields)
  ∧ (Sorted (λ a b, field_order a ≤ field_order b) fields →
     renderOrder fields = fields).
Proof.
  unfold renderOrder. split; [apply sortWith_Permutation|]. split; [|split].
  - eapply StronglySorted_mono; [|apply sortWith_sorted].
    + intros a b Hab. simpl in Hab. apply Z.leb_le in Hab. lia.
    + intros a b Hab. apply Z.leb_gt in Hab. apply Z.leb_le. lia.
    + intros a b c Hab Hbc. apply Z.leb_le in Hab, Hbc. apply Z.leb_le. lia.
  - intros k. apply filter_sortWith. intros a b Ha Hb. simpl in Ha, Hb.
    apply Z.leb_le. lia.
  - intros Hs. apply sortWith_fixed.
    eapply Sorted_mono; [|exact Hs].
    intros a b Hab. simpl in Hab. apply Z.leb_le. lia.
Qed.

Lemma phoneRegex_chars s :
  Regex.test Regex.phoneRegex s = true
  ↔ s ≠ "" ∧ Regex.allChars Regex.phoneChar s = true.
Proof. rewrite test_matches. apply matches_Plus_Cls. Qed.

(** X12. For a phone field with a validation object, a string value passes
    the phone check exactly when it is not empty and holds only digits,
    white space and the characters [-+()]; then the outcome is that of the
    length and pattern checks.  Any other string is rejected with the custom
    message, or with the label followed by [must be a valid phone number]. *)
Theorem validateField_phone field validation s :
  field_type field = TPhone →
  field_validation field = Some validation →
  (s ≠ "" ∧ Regex.allChars Regex.phoneChar s = true →
   validateField h field (JStr s) = validateString h field validation (JStr s))
  ∧ (s = "" ∨ Regex.allChars Regex.phoneChar s = false →
     validateField h field (JStr s)
     = Fail (orElse (v_customMessage validation)
               (field_label field +:+ " must be a valid phone number"))).
Proof.
  intros Hty Hval. unfold validateField, validateEmail, validatePhone, validateNumber.
  rewrite Hval, Hty. cbn [FieldType_eqb andThen stringOf toString]. split.
  - intros Hok. apply phoneRegex_chars in Hok. rewrite Hok. reflexivity.
  - intros Hbad.
    destruct (Regex.test Regex.phoneRegex s) eqn:Htest; [|reflexivity].
    apply phoneRegex_chars in Htest as [Hne Hall].
    destruct Hbad as [->|Hbad]; congruence.
Qed.

(** X13. For a number field whose validation sets [min] and [max], a value
    that [parseFloat] reads as the finite number [q] passes the number
    checks exactly when [min <= q <= max] (both bounds included); below
    [min] and above [max] it is rejected with the custom message or the
    message naming the bound.  A value that reads as NaN is rejected with
    the label followed by [must be a number], whatever the custom message.
    [parseFloat] reads the text [String(value)]; on a value that [String]
    cannot convert it throws, and so does [validateField]. *)
Theorem validateField_number field validation (value : jvalue) lo hi :
  field_type field = TNumber →
  field_validation field = Some validation →
  v_min validation = Some lo →
  v_max validation = Some hi →
  (toString h value = None → validateField h field value = Throws)
  ∧ ∀ text, toString h value = Some text →
      (parseFloat h text = NaN →
       validateField h field value = Fail (field_label field +:+ " must be a number"))
      ∧ ∀ q, parseFloat h text = Num q →
          ((lo <= q)%Q ∧ (q <= hi)%Q →
           validateField h field value = validateString h field validation value)
          ∧ ((q < lo)%Q →
             validateField h field value
             = Fail (orElse (v_customMessage validation)
                       (field_label field +:+ " must be at least " +:+ numToString h lo)))
          ∧ ((lo <= q)%Q ∧ (hi < q)%Q →
             validateField h field value
             = Fail (orElse (v_customMessage validation)
                       (field_label field +:+ " must be at most " +:+ numToString h hi))).
Proof.
  intros Hty Hval Hmin Hmax.
  unfold validateField, validateEmail, validatePhone, validateNumber.
  rewrite Hval, Hty, Hmin, Hmax. cbn [FieldType_eqb andThen stringOf]. split.
  { intros ->. reflexivity. }
  intros text ->. cbv zeta. split.
  - intros ->. reflexivity.
  - intros q ->. cbn [isNaN num_lt num_gt]. unfold Qlt_bool.
    destruct (Qle_bool lo q) eqn:Hlo; destruct (Qle_bool q hi) eqn:Hhi;
      cbn [negb andThen];
      repeat match goal with
             | H : Qle_bool _ _ = true |- _ => apply Qle_bool_iff in H
             | H : Qle_bool ?a ?b = false |- _ =>
                 assert (¬ (a <= b)%Q)
                   by (intros Hc; apply Qle_bool_iff in Hc; congruence);
                 clear H
             end;
      repeat split; intros; try reflexivity; exfalso; lra.
Qed.

(** X14. For a field that is neither email, phone nor number, with a
    validation object that sets no pattern, a string value passes exactly
    when its length respects [minLength] and [maxLength], both included; a
    bound that is absent or zero is not checked. *)
Theorem validateField_length field validation s :
  field_type field ≠ TEmail → field_type field ≠ TPhone →
  field_type field ≠ TNumber →
  field_validation field = Some validation →
  truthyStr (v_pattern validation) = false →
  validateField h field (JStr s) = Pass
  ↔ (∀ n, v_minLength validation = Some n → n = 0 ∨ n ≤ Z.of_nat (String.length s))
    ∧ (∀ n, v_maxLength validation = Some n → n = 0 ∨ Z.of_nat (String.length s) ≤ n).
Proof.
  intros Hne Hnp Hnn Hval Hpat.
  unfold validateField, validateEmail, validatePhone, validateNumber, validateString.
  rewrite Hval, Hpat. cbv zeta.
  destruct (field_type field); try congruence; cbn [FieldType_eqb andThen];
    unfold truthyZ;
    destruct (v_minLength validation) as [lo|];
    destruct (v_maxLength validation) as [hi|]; cbn [default];
    repeat match goal with
           | |- context [?a =? ?b] =>
               destruct (Z.eqb_spec a b); cbn [negb andb andThen]
           | |- context [?a <? ?b] =>
               destruct (Z.ltb_spec a b); cbn [negb andb andThen]
           end;
    cbv [id] in *;
    (split;
     [intros Hpass; try discriminate; split; intros ? Heq;
      try discriminate Heq; injection Heq as <-; lia
     |intros [Hlo Hhi]; try reflexivity; exfalso;
      try (destruct (Hlo _ eq_refl); lia); try (destruct (Hhi _ eq_refl); lia)]).
Qed.

End FieldFacts.

(** ** Advanced analytics: counters, averages, sessions *)

Section CollectorFacts.
Import JS Analytics.
Context (h : Host).

Lemma analyticsKey_inj (a b : string) : "analytics:" +:+ a = "analytics:" +:+ b → a = b.
Proof. intros Heq. cbn in Heq. by simplify_eq. Qed.

Lemma incrementCounter_run key kv :
  incrementCounter key kv
  = (tt, putCounter ("analytics:" +:+ key)
           (default 0 (counters kv !! ("analytics:" +:+ key)) + 1) kv).
Proof.
  unfold incrementCounter, St.bind, St.gets, St.modify.
  destruct (counters kv !! _); reflexivity.
Qed.

Lemma getCounter_value key kv :
  getCounter key kv = (default 0 (counters kv !! ("analytics:" +:+ key)), kv).
Proof.
  unfold getCounter, St.bind, St.gets, St.ret.
  destruct (counters kv !! _); reflexivity.
Qed.

Lemma forEach_incrementCounter key (n : nat) kv :
  snd (St.forEach (replicate n key) incrementCounter kv)
  = match n with
    | O => kv
    | S _ => putCounter ("analytics:" +:+ key)
               (default 0 (counters kv !! ("analytics:" +:+ key)) + Z.of_nat n) kv
    end.
Proof.
  revert kv. induction n as [|n IH]; intros kv; [reflexivity|].
  cbn [replicate St.forEach]. unfold St.bind. rewrite incrementCounter_run.
  rewrite IH. destruct n as [|n]; [reflexivity|].
  unfold putCounter. cbn [counters averages errorTables storedSessions abtests].
  rewrite lookup_insert_eq, insert_insert_eq.
  change (default 0 (Some ?x)) with x.
  generalize (default 0 (counters kv !! ("analytics:" +:+ key))). intros d.
  replace (d + 1 + Z.of_nat (S n)) with (d + Z.of_nat (S (S n))) by lia.
  reflexivity.
Qed.

(** X15. Incrementing a counter [n] times makes [getCounter] return [n]
    more than before (a counter never written reads as 0), leaves every
    other counter as it was, and touches no average, error table, session
    or test. *)
Theorem counter_counts_increments key (n : nat) kv :
  fst (getCounter key (snd (St.forEach (replicate n key) incrementCounter kv)))
  = fst (getCounter key kv) + Z.of_nat n
  ∧ (∀ other, other ≠ key →
       fst (getCounter other (snd (St.forEach (replicate n key) incrementCounter kv)))
       = fst (getCounter other kv))
  ∧ averages (snd (St.forEach (replicate n key) incrementCounter kv)) = averages kv
  ∧ errorTables (snd (St.forEach (replicate n key) incrementCounter kv)) = errorTables kv
  ∧ storedSessions (snd (St.forEach (replicate n key) incrementCounter kv))
    = storedSessions kv
  ∧ abtests (snd (St.forEach (replicate n key) incrementCounter kv)) = abtests kv.
Proof.
  rewrite forEach_incrementCounter. destruct n as [|n].
  - cbn [Z.of_nat]. rewrite Z.add_0_r. repeat split.
  - split; [|split; [|repeat split]].
    + rewrite !getCounter_value. cbn [fst putCounter counters].
      rewrite lookup_insert_eq. reflexivity.
    + intros other Hne. rewrite !getCounter_value. cbn [fst putCounter counters].
      rewrite lookup_insert_ne; [reflexivity|].
      intros Heq. apply Hne. symmetry. apply analyticsKey_inj, Heq.
Qed.

Lemma addToAverage_run key value kv :
  addToAverage key value kv
  = (tt, putAverage ("analytics:" +:+ key)
           match averages kv !! ("analytics:" +:+ key) with
           | Some data => {| sum := (sum data + value)%Q; count := count data + 1 |}
           | None => {| sum := value; count := 1 |}
           end kv).
Proof. reflexivity. Qed.

Lemma getAverage_run key kv :
  getAverage key kv
  = (match averages kv !! ("analytics:" +:+ key) with
     | Some data =>
         if 0 <? count data then (sum data / inject_Z (count data))%Q else 0%Q
     | None => 0%Q
     end, kv).
Proof. reflexivity. Qed.

Lemma forEach_addToAverage key values data kv :
  averages kv !! ("analytics:" +:+ key) = Some data →
  averages (snd (St.forEach values (addToAverage key) kv)) !! ("analytics:" +:+ key)
  = Some {| sum := fold_left Qplus values (sum data);
            count := count data + Z.of_nat (length values) |}.
Proof.
  revert data kv. induction values as [|v values IH]; intros data kv Hdata.
  - simpl. rewrite Hdata, Z.add_0_r. destruct data; reflexivity.
  - cbn [St.forEach]. unfold St.bind. rewrite addToAverage_run, Hdata.
    erewrite IH by (unfold putAverage; cbn [averages]; apply lookup_insert_eq).
    cbn [sum count fold_left length]. do 2 f_equal. lia.
Qed.

Lemma fold_left_Qplus values a :
  (fold_left Qplus values a == a + fold_right Qplus 0 values)%Q.
Proof.
  revert a. induction values as [|v values IH]; intros a; simpl; [lra|].
  rewrite IH. lra.
Qed.

(** X16. After a first sample and any further samples are added to an
    average that had none, [getAverage] returns their arithmetic mean; an
    average never written reads as 0. *)
Theorem average_is_mean key first others kv :
  averages kv !! ("analytics:" +:+ key) = None →
  fst (getAverage key kv) = 0%Q
  ∧ (fst (getAverage key (snd (St.forEach (first :: others) (addToAverage key) kv)))
     == (first + fold_right Qplus 0 others) / inject_Z (Z.of_nat (S (length others))))%Q.
Proof.
  intros Hnone. split; [rewrite getAverage_run, Hnone; reflexivity|].
  cbn [St.forEach]. unfold St.bind. rewrite addToAverage_run, Hnone.
  rewrite getAverage_run. cbn [fst].
  erewrite forEach_addToAverage
    by (unfold putAverage; cbn [averages]; apply lookup_insert_eq).
  cbn [sum count].
  assert ((0 <? 1 + Z.of_nat (length others)) = true) as -> by (apply Z.ltb_lt; lia).
  rewrite fold_left_Qplus.
  replace (Z.of_nat (S (length others))) with (1 + Z.of_nat (length others)) by lia.
  reflexivity.
Qed.

Lemma trackInteraction_present sid interaction c session :
  sessions c !! sid = Some session →
  trackInteraction sid interaction c
  = (let session' := pushInteraction session interaction in
     let fieldKey := "field:" +:+ formId session' +:+ ":" +:+ fieldId interaction in
     match type interaction with
     | focus => onKV (incrementCounter (fieldKey +:+ ":focuses"))
     | blur =>
         match List.find
                 (λ i, String.eqb (fieldId i) (fieldId interaction)
                       && InteractionType_eqb (type i) focus)
                 (reverse (interactions session')) with
         | Some focusEvent =>
             onKV (addToAverage (fieldKey +:+ ":avgTime")
                     (inject_Z (timestamp interaction - timestamp focusEvent)))
         | None => St.ret tt
         end
     | error =>
         await! onKV (incrementCounter (fieldKey +:+ ":errors"));
         if truthyStr (errorMessage interaction) then
           onKV (trackError (formId session') (fieldId interaction)
                   (default "" (errorMessage interaction)))
         else St.ret tt
     | _ => St.ret tt
     end)
      {| sessions := <[sid := pushInteraction session interaction]> (sessions c);
         kv := kv c |}.
Proof.
  intros Hs. unfold trackInteraction, St.bind at 1, St.gets. rewrite Hs.
  unfold St.bind at 1, setSession, St.modify. reflexivity.
Qed.

(** X17. On a live session, a focus on a field followed by a blur on the
    same field adds exactly one sample to that field's average time, the
    blur's timestamp minus that focus's timestamp, whatever happened on the
    field before, and counts one focus; both events are appended to the
    session's log.  A blur on a field that was never focused in the session
    is only logged: the store is unchanged. *)
Theorem blur_samples_time_since_focus c sid session focusEvent blurEvent :
  sessions c !! sid = Some session →
  type focusEvent = focus →
  type blurEvent = blur →
  fieldId blurEvent = fieldId focusEvent →
  (let fieldKey := "field:" +:+ formId session +:+ ":" +:+ fieldId focusEvent in
   let c2 := snd (trackInteraction sid blurEvent
                    (snd (trackInteraction sid focusEvent c))) in
   kv c2
   = snd (addToAverage (fieldKey +:+ ":avgTime")
            (inject_Z (timestamp blurEvent - timestamp focusEvent))
            (snd (incrementCounter (fieldKey +:+ ":focuses") (kv c))))
   ∧ sessions c2
     = <[sid := pushInteraction (pushInteraction session focusEvent) blurEvent]>
         (sessions c))
  ∧ (Forall (λ i, fieldId i ≠ fieldId blurEvent ∨ type i ≠ focus)
       (interactions session) →
     kv (snd (trackInteraction sid blurEvent c)) = kv c).
Proof.
  intros Hs Hfocus Hblur Hfield. split.
  - cbv zeta.
    assert (snd (trackInteraction sid focusEvent c)
            = {| sessions := <[sid := pushInteraction session focusEvent]> (sessions c);
                 kv := snd (incrementCounter
                              (("field:" +:+ formId session +:+ ":"
                                  +:+ fieldId focusEvent) +:+ ":focuses") (kv c)) |})
      as ->.
    { rewrite (trackInteraction_present sid focusEvent c session Hs).
      cbv zeta. rewrite Hfocus. unfold onKV. cbn [kv sessions].
      rewrite !incrementCounter_run. reflexivity. }
    erewrite trackInteraction_present by (cbn [sessions]; apply lookup_insert_eq).
    cbv zeta. rewrite Hblur. cbn [pushInteraction interactions formId].
    rewrite !reverse_snoc. cbn [List.find]. rewrite Hblur. cbn [InteractionType_eqb].
    rewrite andb_false_r, Hfocus, Hfield, String.eqb_refl. cbn [andb InteractionType_eqb].
    unfold onKV. cbn [kv sessions]. rewrite addToAverage_run. cbn [snd kv sessions].
    rewrite insert_insert_eq. split; reflexivity.
  - intros Hno.
    rewrite (trackInteraction_present sid blurEvent c session Hs).
    cbv zeta. rewrite Hblur. cbn [pushInteraction interactions].
    rewrite reverse_snoc. cbn [List.find]. rewrite Hblur. cbn [InteractionType_eqb].
    rewrite andb_false_r.
    assert (List.find
              (λ i, String.eqb (fieldId i) (fieldId blurEvent)
                    && InteractionType_eqb (type i) focus)
              (reverse (interactions session)) = None) as ->; [|reflexivity].
    apply Forall_reverse in Hno. induction Hno as [|i l Hi Hl IH]; [reflexivity|].
    cbn [List.find]. destruct Hi as [Hi|Hi].
    + apply String.eqb_neq in Hi. rewrite Hi. exact IH.
    + destruct (type i); try congruence; cbn [InteractionType_eqb];
        rewrite andb_false_r; exact IH.
Qed.

(** X18. [markSubmitted] on a live session stores the session under
    [analytics:session:<formId>:<sessionId>] with [submitted] set to [true]
    and every other property as it was, and removes it from the session
    map; [trackDropOff] removes it from the map and stores no session.
    After either, the session id is unknown to the collector. *)
Theorem session_end_persists_or_drops c sid session now lastFieldId :
  sessions c !! sid = Some session →
  (storedSessions (kv (snd (markSubmitted h now sid c)))
     !! ("analytics:session:" +:+ formId session +:+ ":" +:+ sessionId session)
   = Some {| sessionId := sessionId session; formId := formId session;
             variant := variant session; started := started session;
             completed := completed session; submitted := true;
             interactions := interactions session; device := device session;
             geo := geo session; referrer := referrer session;
             utmParams := utmParams session |}
   ∧ sessions (snd (markSubmitted h now sid c)) = delete sid (sessions c))
  ∧ (storedSessions (kv (snd (trackDropOff h now sid lastFieldId c)))
     = storedSessions (kv c)
     ∧ sessions (snd (trackDropOff h now sid lastFieldId c)) = delete sid (sessions c)).
Proof.
  intros Hs.
  change {| sessionId := sessionId session; formId := formId session;
            variant := variant session; started := started session;
            completed := completed session; submitted := true;
            interactions := interactions session; device := device session;
            geo := geo session; referrer := referrer session;
            utmParams := utmParams session |}
    with (setSubmitted session).
  assert (∀ k : option FormSession → St.M Collector unit,
            (await found <- St.gets (λ c, sessions c !! sid); k found) c
            = k (Some session) c) as Hget.
  { intros k. unfold St.bind, St.gets. rewrite Hs. reflexivity. }
  unfold markSubmitted, trackDropOff. rewrite !Hget. clear Hget. split.
  - unfold St.bind, setSession, deleteSession, onKV, storeSession, St.modify, St.ret.
    cbn [kv sessions]. rewrite !incrementCounter_run.
    destruct (truthyStr (variant (setSubmitted session)));
      rewrite ?incrementCounter_run; cbn [snd fst kv sessions];
      unfold putSession, putCounter;
      cbn [storedSessions counters averages errorTables abtests formId sessionId
             setSubmitted];
      rewrite lookup_insert_eq, delete_insert_eq; split; reflexivity.
  - unfold St.bind, deleteSession, St.modify, onKV.
    cbn [kv sessions]. rewrite !incrementCounter_run.
    cbn [snd fst kv sessions]. split; reflexivity.
Qed.

End CollectorFacts.

(** ** Error tables, the report and the hashed A/B assignment *)

Section ReportFacts.
Import JS Analytics.
Context (h : Host).

Lemma listed_spec (message : string) (errors : list (string * Z)) :
  existsb (λ e, String.eqb (fst e) message) errors = true ↔ message ∈ map fst errors.
Proof.
  rewrite existsb_exists. split.
  - intros (e & Hin & Heq). apply String.eqb_eq in Heq. subst message.
    apply list_elem_of_fmap. exists e. split; [reflexivity|].
    apply list_elem_of_In, Hin.
  - intros Hin. apply list_elem_of_fmap in Hin as (e & -> & Hin).
    exists e. split; [apply list_elem_of_In, Hin|apply String.eqb_refl].
Qed.

Lemma increment_keys (message : string) (errors : list (string * Z)) :
  map fst (increment message errors) = map fst errors.
Proof.
  induction errors as [|[m n] rest IH]; [reflexivity|].
  cbn [increment]. destruct (String.eqb m message); cbn [map fst]; [reflexivity|].
  rewrite IH. reflexivity.
Qed.

Lemma increment_other message errors m n :
  m ≠ message → (m, n) ∈ increment message errors ↔ (m, n) ∈ errors.
Proof.
  intros Hne. induction errors as [|[m' n'] rest IH]; simpl; [reflexivity|].
  destruct (String.eqb m' message) eqn:Heq.
  - apply String.eqb_eq in Heq. subst m'.
    rewrite !elem_of_cons. split; (intros [[= ? ?]|?]; [congruence|by right]).
  - rewrite !elem_of_cons, IH. reflexivity.
Qed.

Lemma increment_same message errors n :
  NoDup (map fst errors) →
  message ∈ map fst errors →
  (message, n) ∈ increment message errors ↔ (message, n - 1) ∈ errors.
Proof.
  induction errors as [|[m' n'] rest IH]; simpl; intros Hnd Hin.
  - by apply elem_of_nil in Hin.
  - apply NoDup_cons in Hnd as [Hfresh Hnd].
    destruct (String.eqb m' message) eqn:Heq.
    + apply String.eqb_eq in Heq. subst m'.
      assert (∀ k, (message, k) ∉ rest) as Hnone.
      { intros k Hk. apply Hfresh. apply list_elem_of_fmap. by exists (message, k). }
      rewrite !elem_of_cons. split.
      * intros [[= ->]|Hk]; [|by apply Hnone in Hk].
        left. f_equal. lia.
      * intros [[= ?]|Hk]; [|by apply Hnone in Hk].
        left. f_equal. lia.
    + apply String.eqb_neq in Heq.
      apply elem_of_cons in Hin as [->|Hin]; [congruence|].
      rewrite !elem_of_cons, (IH Hnd Hin). split.
      * intros [[= ? ?]|Hk]; [congruence|by right].
      * intros [[= ? ?]|Hk]; [congruence|by right].
Qed.

Lemma placeIndex_Permutation message i (errors : list (string * Z)) :
  placeIndex message i errors ≡ₚ (message, 1) :: errors.
Proof.
  induction errors as [|[m n] rest IH]; [reflexivity|].
  cbn [placeIndex]. destruct (arrayIndex m) as [j|]; [|reflexivity].
  destruct (j <? i)%N; [|reflexivity].
  rewrite IH. apply Permutation_swap.
Qed.

Lemma addKey_Permutation message (errors : list (string * Z)) :
  addKey message errors ≡ₚ (message, 1) :: errors.
Proof.
  unfold addKey. destruct (arrayIndex message) as [i|].
  - apply placeIndex_Permutation.
  - symmetry. apply Permutation_cons_append.
Qed.

(** A new array index is listed before the larger indices and the other
    keys, and after the smaller ones; any other new key is listed last. *)
Lemma addKey_order message (errors : list (string * Z)) :
  match arrayIndex message with
  | None => addKey message errors = errors ++ [(message, 1)]
  | Some i =>
      ∃ before after,
        errors = before ++ after
        ∧ addKey message errors = before ++ (message, 1) :: after
        ∧ Forall (λ e, ∃ j, arrayIndex (fst e) = Some j ∧ (j < i)%N) before
        ∧ match after with
          | [] => True
          | e :: _ => ∀ j, arrayIndex (fst e) = Some j → (i <= j)%N
          end
  end.
Proof.
  unfold addKey. destruct (arrayIndex message) as [i|]; [|reflexivity].
  induction errors as [|[m n] rest IH].
  - exists [], []. repeat split; constructor.
  - cbn [placeIndex]. destruct (arrayIndex m) as [j|] eqn:Hm.
    + destruct (N.ltb_spec j i) as [Hlt|Hge].
      * destruct IH as (before & after & -> & -> & Hbefore & Hafter).
        exists ((m, n) :: before), after. repeat split; [|exact Hafter].
        constructor; [|exact Hbefore]. exists j. split; [exact Hm|exact Hlt].
      * exists [], ((m, n) :: rest). repeat split; [constructor|].
        cbn [fst]. intros j' Hj'. rewrite Hm in Hj'. injection Hj' as <-. exact Hge.
    + exists [], ((m, n) :: rest). repeat split; [constructor|].
      cbn [fst]. intros j' Hj'. rewrite Hm in Hj'. discriminate.
Qed.

(** X19. [trackError] writes the error table of the field and nothing
    else.  On a table that lists no message twice (as every parsed table
    does), for a message that the table lists or that is no member of
    [Object.prototype]: the stored table again lists no message twice, the
    count of the tracked message is one more than before (1 when it was not
    listed) and every other message keeps its count.  A listed message
    keeps its place; a new message that is an array index is listed after
    the smaller indices and before every other key, any other new message
    last.  For the message [__proto__], when the table does not list it,
    the table is stored as it was. *)
Theorem trackError_counts formId fieldId message kv :
  NoDup (map fst (default []
           (errorTables kv !! ("analytics:errors:" +:+ formId +:+ ":" +:+ fieldId)))) →
  ∃ after,
    snd (trackError formId fieldId message kv)
    = {| counters := counters kv; averages := averages kv;
         errorTables :=
           <["analytics:errors:" +:+ formId +:+ ":" +:+ fieldId := after]>
             (errorTables kv);
         storedSessions := storedSessions kv; abtests := abtests kv |}
    ∧ (message
         ∈ map fst (default []
             (errorTables kv !! ("analytics:errors:" +:+ formId +:+ ":" +:+ fieldId)))
       ∨ inherited message = None →
       NoDup (map fst after)
       ∧ (∀ n, (message, n) ∈ after
               ↔ (message, n - 1)
                   ∈ default [] (errorTables kv
                                   !! ("analytics:errors:" +:+ formId +:+ ":" +:+ fieldId))
                 ∨ (n = 1
                    ∧ message
                        ∉ map fst (default []
                             (errorTables kv
                                !! ("analytics:errors:" +:+ formId +:+ ":" +:+ fieldId)))))
       ∧ (∀ m n, m ≠ message →
            (m, n) ∈ after
            ↔ (m, n) ∈ default [] (errorTables kv
                                     !! ("analytics:errors:" +:+ formId +:+ ":" +:+ fieldId))))
    ∧ (message
         ∈ map fst (default []
             (errorTables kv !! ("analytics:errors:" +:+ formId +:+ ":" +:+ fieldId))) →
       map fst after
       = map fst (default []
           (errorTables kv !! ("analytics:errors:" +:+ formId +:+ ":" +:+ fieldId))))
    ∧ (message
         ∉ map fst (default []
             (errorTables kv !! ("analytics:errors:" +:+ formId +:+ ":" +:+ fieldId))) →
       inherited message = None →
       match arrayIndex message with
       | None =>
           after
           = default [] (errorTables kv
                           !! ("analytics:errors:" +:+ formId +:+ ":" +:+ fieldId))
             ++ [(message, 1)]
       | Some i =>
           ∃ smaller rest,
             default [] (errorTables kv
                           !! ("analytics:errors:" +:+ formId +:+ ":" +:+ fieldId))
             = smaller ++ rest
             ∧ after = smaller ++ (message, 1) :: rest
             ∧ Forall (λ e, ∃ j, arrayIndex (fst e) = Some j ∧ (j < i)%N) smaller
             ∧ match rest with
               | [] => True
               | e :: _ => ∀ j, arrayIndex (fst e) = Some j → (i <= j)%N
               end
       end)
    ∧ (message = "__proto__" →
       message
         ∉ map fst (default []
             (errorTables kv !! ("analytics:errors:" +:+ formId +:+ ":" +:+ fieldId))) →
       after
       = default [] (errorTables kv
                       !! ("analytics:errors:" +:+ formId +:+ ":" +:+ fieldId))).
Proof.
  intros Hnd. unfold trackError, St.bind, St.gets, St.modify. cbn [snd].
  set (before := default [] _) in *.
  exists (bumpError message before). split; [reflexivity|].
  unfold bumpError.
  destruct (existsb _ before) eqn:Hlisted.
  - apply listed_spec in Hlisted. split.
    + intros _. split; [rewrite increment_keys; exact Hnd|]. split.
      * intros n. rewrite (increment_same message before n Hnd Hlisted). split.
        -- intros Hin. left. exact Hin.
        -- intros [Hin|[_ Hout]]; [exact Hin|contradiction].
      * intros m n Hne. apply increment_other. exact Hne.
    + split; [intros _; apply increment_keys|]. split.
      * intros Hout. contradiction.
      * intros _ Hout. contradiction.
  - assert (message ∉ map fst before) as Hout.
    { intros Hin. apply listed_spec in Hin. congruence. }
    split.
    + intros [Hin|Hproto]; [contradiction|].
      assert (String.eqb message "__proto__" = false) as ->.
      { apply String.eqb_neq. intros ->. discriminate Hproto. }
      pose proof (addKey_Permutation message before) as Hperm.
      split; [|split].
      * rewrite Hperm. cbn [map fst]. apply NoDup_cons. split; assumption.
      * intros n. rewrite Hperm, elem_of_cons. split.
        -- intros [[= ->]|Hin]; [right; split; [reflexivity|exact Hout]|].
           exfalso. apply Hout. apply list_elem_of_fmap. by exists (message, n).
        -- intros [Hin|[-> _]]; [|left; reflexivity].
           exfalso. apply Hout. apply list_elem_of_fmap. by exists (message, n - 1).
      * intros m n Hne. rewrite Hperm, elem_of_cons. split.
        -- intros [[= ? ?]|Hin]; [congruence|exact Hin].
        -- intros Hin. right. exact Hin.
    + split; [intros Hin; contradiction|]. split.
      * intros _ Hproto.
        assert (String.eqb message "__proto__" = false) as ->.
        { apply String.eqb_neq. intros ->. discriminate Hproto. }
        apply addKey_order.
      * intros -> _. reflexivity.
Qed.

(** X20. [getTopErrors] changes nothing and returns at most five entries of
    the stored table (all of them when there are five or fewer), in
    descending order of count; no entry left out has a higher count than an
    entry returned. *)
Theorem getTopErrors_top5 formId fieldId kv :
  snd (getTopErrors formId fieldId kv) = kv
  ∧ length (fst (getTopErrors formId fieldId kv))
    = Nat.min 5 (length (default []
        (errorTables kv !! ("analytics:errors:" +:+ formId +:+ ":" +:+ fieldId))))
  ∧ StronglySorted (λ a b, snd b ≤ snd a) (fst (getTopErrors formId fieldId kv))
  ∧ ∃ rest,
      fst (getTopErrors formId fieldId kv) ++ rest
      ≡ₚ default [] (errorTables kv
                       !! ("analytics:errors:" +:+ formId +:+ ":" +:+ fieldId))
      ∧ ∀ a b, a ∈ fst (getTopErrors formId fieldId kv) → b ∈ rest → snd b ≤ snd a.
Proof.
  unfold getTopErrors, St.bind, St.gets, St.ret.
  destruct (errorTables kv !! _) as [table|]; cbn [fst snd default].
  2:{ split; [reflexivity|]. split; [reflexivity|]. split; [constructor|].
      exists []. split; [reflexivity|]. intros a b Ha. by apply elem_of_nil in Ha. }
  set (le := λ a b : string * Z, snd b - snd a <=? 0).
  assert (StronglySorted (λ a b, snd b ≤ snd a) (sortWith le table)) as Hsorted.
  { apply (StronglySorted_mono (λ a b, le a b = true)).
    - intros a b Hab. unfold le in Hab. apply Z.leb_le in Hab. lia.
    - apply sortWith_sorted.
      + intros a b Hab. unfold le in *. apply Z.leb_gt in Hab. apply Z.leb_le. lia.
      + intros a b c Hab Hbc. unfold le in *. apply Z.leb_le in Hab, Hbc.
        apply Z.leb_le. lia. }
  rewrite <- (take_drop 5 (sortWith le table)) in Hsorted.
  split; [reflexivity|]. split; [|split].
  - rewrite length_take. f_equal.
    apply Permutation_length, sortWith_Permutation.
  - eapply StronglySorted_app_1_l. exact Hsorted.
  - exists (drop 5 (sortWith le table)). split.
    + rewrite take_drop. apply sortWith_Permutation.
    + intros a b Ha Hb.
      exact (StronglySorted_app_1_elem_of _ _ _ a b Hsorted Ha Hb).
Qed.

Lemma mapM_reads {S A B} (f : A → St.M S B) (xs : list A) (s : S) :
  (∀ x, snd (f x s) = s) →
  St.mapM f xs s = (map (λ x, fst (f x s)) xs, s).
Proof.
  intros Hf. induction xs as [|x xs IH]; [reflexivity|].
  cbn [St.mapM map]. unfold St.bind at 1.
  specialize (Hf x). destruct (f x s) as [y s'] eqn:Hfx. cbn [snd] in Hf. subst s'.
  unfold St.bind at 1. rewrite IH. reflexivity.
Qed.

Lemma getTopErrors_reads formId fieldId kv :
  snd (getTopErrors formId fieldId kv) = kv.
Proof.
  unfold getTopErrors, St.bind, St.gets, St.ret.
  destruct (errorTables kv !! _); reflexivity.
Qed.

Lemma fieldAnalyticsFor_run formId views field kv :
  snd (fieldAnalyticsFor formId views field kv) = kv
  ∧ fa_fieldId (fst (fieldAnalyticsFor formId views field kv)) = fst field
  ∧ fa_label (fst (fieldAnalyticsFor formId views field kv)) = snd field
  ∧ fa_completions (fst (fieldAnalyticsFor formId views field kv))
    = Z.max 0 (fa_focuses (fst (fieldAnalyticsFor formId views field kv))
               - fa_dropOffs (fst (fieldAnalyticsFor formId views field kv))).
Proof.
  destruct field as [id label]. unfold fieldAnalyticsFor, St.bind.
  rewrite !getCounter_value, !getAverage_run.
  pose proof (getTopErrors_reads formId id kv) as Hread.
  destruct (getTopErrors formId id kv) as [top kv']. cbn [snd] in Hread. subst kv'.
  cbn [St.ret fst snd fa_fieldId fa_label fa_completions fa_focuses fa_dropOffs].
  repeat split.
  destruct (_ <? _) eqn:Hlt; [apply Z.ltb_lt in Hlt|apply Z.ltb_ge in Hlt]; lia.
Qed.

Lemma getVariantStats_reads formId kv :
  snd (getVariantStats formId kv) = kv.
Proof.
  unfold getVariantStats, St.bind at 1, St.gets.
  destruct (abtests kv !! _) as [test|]; [|reflexivity].
  rewrite mapM_reads; [reflexivity|]. intros v. unfold St.bind.
  rewrite !getCounter_value, !getAverage_run. reflexivity.
Qed.

(** X21. [getAnalytics] only reads: the store is as before.  The report has
    one entry per field passed in, in the order passed, carrying the field's
    id and label; the completions of a field are its focuses less its
    drop-offs and never negative; and the devices reported are mobile,
    tablet and desktop, in this order. *)
Theorem getAnalytics_reads_only formId startDate endDate formName fields kv :
  snd (getAnalytics h formId startDate endDate formName fields kv) = kv
  ∧ map (λ f, (fa_fieldId f, fa_label f))
      (a_fields (fst (getAnalytics h formId startDate endDate formName fields kv)))
    = fields
  ∧ Forall (λ f, fa_completions f = Z.max 0 (fa_focuses f - fa_dropOffs f))
      (a_fields (fst (getAnalytics h formId startDate endDate formName fields kv)))
  ∧ map fst (a_byDevice (fst (getAnalytics h formId startDate endDate formName fields kv)))
    = ["mobile"; "tablet"; "desktop"].
Proof.
  unfold getAnalytics, St.bind.
  rewrite !getCounter_value, !getAverage_run.
  rewrite (mapM_reads (fieldAnalyticsFor formId _) fields kv)
    by (intros x; apply fieldAnalyticsFor_run).
  unfold getDailyStats. rewrite mapM_reads.
  2:{ intros x. unfold St.bind. rewrite !getCounter_value. reflexivity. }
  unfold getDeviceBreakdown. rewrite mapM_reads.
  2:{ intros x. unfold St.bind. rewrite !getCounter_value. reflexivity. }
  unfold getCountryBreakdown, getReferrerBreakdown, St.ret.
  pose proof (getVariantStats_reads formId kv) as Hread.
  destruct (getVariantStats formId kv) as [vs kv']. cbn [snd] in Hread. subst kv'.
  cbn [fst snd a_fields a_byDevice].
  split; [reflexivity|]. split; [|split; [|reflexivity]].
  - rewrite map_map. erewrite map_ext; [apply map_id|].
    intros field. cbv beta.
    destruct (fieldAnalyticsFor_run formId
                (default 0 (counters kv !! ("analytics:" +:+ "views:" +:+ formId +:+ ":total")))
                field kv) as (_ & -> & -> & _).
    by destruct field.
  - apply Forall_forall. intros f Hf.
    apply list_elem_of_fmap in Hf as (field & -> & _).
    apply fieldAnalyticsFor_run.
Qed.

Lemma walkVariants_elem threshold vs id :
  walkVariants threshold vs = Some id → ∃ v, v ∈ vs ∧ variant_id v = id.
Proof.
  revert threshold. induction vs as [|v vs IH]; intros threshold; simpl; [discriminate|].
  destruct (match _ <$> threshold with Some t => t <? 0 | None => false end).
  - intros [= <-]. exists v. split; [apply elem_of_cons; by left|reflexivity].
  - intros Hwalk. apply IH in Hwalk as (u & Hu & Hid).
    exists u. split; [apply elem_of_cons; by right|exact Hid].
Qed.

(** X22. What [getVariant] answers: [null] exactly when the form has no
    stored test or its test is not running; a variant id only if it is the
    id of one of the variants of the form's running test; and a running test
    with no variants makes it throw.  In every case the store is left as it
    was. *)
Theorem getVariant_outcome formId sid kv :
  snd (getVariant formId sid kv) = kv
  ∧ match fst (getVariant formId sid kv) with
    | Returned None =>
        ∀ test, abtests kv !! ("abtest:" +:+ formId) = Some test →
                isRunning (status test) = false
    | Returned (Some id) =>
        ∃ test v,
          abtests kv !! ("abtest:" +:+ formId) = Some test
          ∧ isRunning (status test) = true
          ∧ v ∈ variants test ∧ variant_id v = id
    | TypeError =>
        ∃ test,
          abtests kv !! ("abtest:" +:+ formId) = Some test
          ∧ isRunning (status test) = true
          ∧ variants test = []
    end.
Proof.
  split; [apply getVariant_reads|].
  unfold getVariant, St.bind, St.gets, St.ret.
  destruct (abtests kv !! _) as [test|]; cbn [fst]; [|intros ?; discriminate].
  destruct (isRunning (status test)) eqn:Hrun; cbn [negb fst].
  2:{ intros ? [= <-]. exact Hrun. }
  unfold assignVariant.
  destruct (walkVariants _ _) as [id|] eqn:Hwalk.
  - apply walkVariants_elem in Hwalk as (v & Hv & Hid).
    exists test, v. repeat split; assumption.
  - destruct (variants test) as [|first rest] eqn:Hvs.
    + exists test. repeat split; assumption.
    + exists test, first. split; [reflexivity|]. split; [exact Hrun|].
      split; [|reflexivity]. rewrite Hvs. apply elem_of_cons. by left.
Qed.

(** X23. For a form whose stored test is running, has at least one variant
    and only positive weights, [getVariant] gives the session the variant in
    whose slice of the total weight the session's hash falls: the weights of
    the variants before it add up to at most the hash modulo the total
    weight, and with its own weight to more. *)
Theorem getVariant_weighted_slice formId sid kv test :
  abtests kv !! ("abtest:" +:+ formId) = Some test →
  isRunning (status test) = true →
  variants test ≠ [] →
  Forall (λ v, 0 < weight v) (variants test) →
  ∃ pre v post,
    variants test = pre ++ v :: post
    ∧ fold_right Z.add 0 (map weight pre)
      ≤ Z.rem (simpleHash sid) (fold_right Z.add 0 (map weight (variants test)))
      < fold_right Z.add 0 (map weight pre) + weight v
    ∧ fst (getVariant formId sid kv) = Returned (Some (variant_id v)).
Proof.
  intros Hget Hrun Hne Hpos.
  destruct (assignVariant_slice test sid Hne Hpos) as (pre & v & post & Hvs & Hslice & Hassign).
  exists pre, v, post. split; [exact Hvs|]. split; [exact Hslice|].
  unfold getVariant, St.bind, St.gets, St.ret. rewrite Hget, Hrun. cbn [negb fst].
  exact Hassign.
Qed.

(** X24. A test made by [createTest] is the one [getVariant] consults for
    its form, replacing any earlier test of the form; once [endTest] has run
    for a form, [getVariant] answers [null] for every session, and the
    stored test is completed with the given winner and end time, its
    variants unchanged.  [endTest] for a form without a test changes
    nothing. *)
Theorem abtest_lifecycle uuid test now winner sid kv :
  fst (createTest uuid test kv) = withId test uuid
  ∧ fst (getVariant (test_formId test) sid (snd (createTest uuid test kv)))
    = (if isRunning (status test) then assignVariant (withId test uuid) sid
       else Returned None)
  ∧ (∀ formId,
       fst (getVariant formId sid (snd (endTest now formId winner kv))) = Returned None
       ∧ match abtests kv !! ("abtest:" +:+ formId) with
         | Some old =>
             ∃ ended,
               abtests (snd (endTest now formId winner kv)) !! ("abtest:" +:+ formId)
               = Some ended
               ∧ status ended = completed_
               ∧ winningVariant ended = winner
               ∧ endDate ended = Some now
               ∧ variants ended = variants old
         | None => snd (endTest now formId winner kv) = kv
         end).
Proof.
  split; [reflexivity|]. split.
  - unfold createTest, getVariant, St.bind, St.gets, St.modify, St.ret, putTest.
    cbn [fst snd abtests]. rewrite lookup_insert_eq. cbn [withId status].
    destruct (isRunning (status test)); reflexivity.
  - intros formId. unfold endTest, getVariant, St.bind, St.gets, St.modify, St.ret.
    cbn [fst snd]. destruct (abtests kv !! ("abtest:" +:+ formId)) as [old|] eqn:Hold.
    + cbn [snd putTest abtests]. rewrite lookup_insert_eq. cbn [status isRunning negb fst].
      split; [reflexivity|]. eexists. split; [reflexivity|]. repeat split.
    + cbn [snd]. rewrite Hold. split; reflexivity.
Qed.

Lemma toInt32_range z : - 2 ^ 31 ≤ toInt32 z < 2 ^ 31.
Proof.
  unfold toInt32. pose proof (Z.mod_pos_bound (z + 2 ^ 31) (2 ^ 32)). lia.
Qed.

Lemma bitAnd_range a b : - 2 ^ 31 ≤ bitAnd a b < 2 ^ 31.
Proof. exact (toInt32_range _). Qed.

Lemma fold_left_range (f : Z → Z → Z) (lo hi : Z) codes :
  (∀ a c, lo ≤ f a c < hi) →
  ∀ acc, lo ≤ acc < hi → lo ≤ fold_left f codes acc < hi.
Proof.
  intros Hf. induction codes as [|c codes IH]; intros acc Hacc.
  - exact Hacc.
  - exact (IH _ (Hf _ _)).
Qed.

(** [simpleHash] is a whole number from 0 to 2^31 for every string, 0
    for the empty one; so the hash modulo a positive total weight is never
    negative and below the total. *)
Theorem simpleHash_range str :
  0 ≤ simpleHash str ≤ 2 ^ 31
  ∧ simpleHash "" = 0
  ∧ ∀ total, 0 < total → 0 ≤ Z.rem (simpleHash str) total < total.
Proof.
  assert (0 ≤ simpleHash str ≤ 2 ^ 31) as Hrange.
  { unfold simpleHash. split; [apply Z.abs_nonneg|].
    assert (- 2 ^ 31 ≤ 0 < 2 ^ 31) as Hzero by lia.
    pose proof (fold_left_range
                  (λ hash char, let hash := shl hash 5 - hash + char in bitAnd hash hash)
                  (- 2 ^ 31) (2 ^ 31) (charCodes str)
                  (λ a c, bitAnd_range _ _) 0 Hzero) as Hbound.
    apply Z.abs_le. split; [apply Hbound|]. apply Z.lt_le_incl, Hbound. }
  split; [exact Hrange|]. split; [reflexivity|].
  intros total Htotal. apply Z.rem_bound_pos; [apply Hrange|exact Htotal].
Qed.

End ReportFacts.

(** ** Results, customer value and the sticky assignment of variants *)

Section ValueFacts.
Import JS Conversion.

Lemma min95_range (x : Q) : (60 <= x)%Q → (60 <= min95 x)%Q ∧ (min95 x <= 95)%Q.
Proof.
  intros Hx. unfold min95. destruct (Qle_bool 95 x) eqn:Hle.
  - split; lra.
  - split; [exact Hx|].
    destruct (Qlt_le_dec x 95) as [Hlt|Hge]; [lra|].
    apply Qle_bool_iff in Hge. congruence.
Qed.

(** X26. [getResults] changes nothing and answers [null] exactly when no
    test is stored under the id.  In a result at most one variant is marked
    as winner; the winner has at least 100 views and 10 conversions and a
    confidence of [min(95, 50 + views / 10)], which lies between 60 and 95;
    every other variant has confidence 0. *)
Theorem getResults_winner_confidence testId kv :
  snd (getResults testId kv) = kv
  ∧ (fst (getResults testId kv) = None ↔ tests kv !! ("abtest:" +:+ testId) = None)
  ∧ (∀ test, tests kv !! ("abtest:" +:+ testId) = Some test →
       ∃ result, fst (getResults testId kv) = Some result
                 ∧ r_testId result = testId
                 ∧ length (r_variants result) = length (test_variants test))
  ∧ match fst (getResults testId kv) with
    | None => tests kv !! ("abtest:" +:+ testId) = None
    | Some result =>
        (∀ (i j : nat) ri rj,
           r_variants result !! i = Some ri → r_variants result !! j = Some rj →
           isWinner ri = true → isWinner rj = true → i = j)
        ∧ Forall (λ r, if isWinner r
                       then meetsFloor r
                            ∧ confidence r = min95 (50 + inject_Z (views r) / 10)
                            ∧ (60 <= confidence r)%Q ∧ (confidence r <= 95)%Q
                       else confidence r = 0%Q)
            (r_variants result)
    end.
Proof.
  unfold getResults, St.bind, St.gets, St.ret.
  destruct (tests kv !! ("abtest:" +:+ testId)) as [test|]; cbn [fst snd].
  2:{ split; [reflexivity|]. split; [split; reflexivity|].
      split; [discriminate|reflexivity]. }
  split; [reflexivity|]. split; [split; discriminate|]. split.
  { intros test' [= <-]. eexists. split; [reflexivity|]. split; [reflexivity|].
    cbn [r_variants]. unfold determineWinner. cbv zeta.
    destruct (sortWith _ _) as [|[top first] rest]; [apply length_map|].
    destruct (_ && _); rewrite ?length_insert; apply length_map. }
  cbn [r_variants].
  set (base := map toResult (test_variants test)).
  assert (∀ (i : nat) r, base !! i = Some r → isWinner r = false ∧ confidence r = 0%Q)
    as Hbase.
  { intros i r Hr. subst base. rewrite list_lookup_fmap in Hr.
    destruct (test_variants test !! i); [|discriminate].
    injection Hr as <-. split; reflexivity. }
  rewrite determineWinner_first.
  destruct (firstSorted _ _) as [[t first]|].
  2:{ split.
      - intros i j ri rj Hi _ Hw. apply Hbase in Hi as [Hi _]. congruence.
      - apply Forall_lookup. intros i r Hr. apply Hbase in Hr as [-> Hr]. exact Hr. }
  destruct ((100 <=? views first) && (10 <=? conversions first)) eqn:Hfloor.
  2:{ split.
      - intros i j ri rj Hi _ Hw. apply Hbase in Hi as [Hi _]. congruence.
      - apply Forall_lookup. intros i r Hr. apply Hbase in Hr as [-> Hr]. exact Hr. }
  apply meetsFloor_check in Hfloor.
  assert (∀ (i : nat) r, <[t := crown first]> base !! i = Some r →
            (i = t ∧ r = crown first) ∨ (isWinner r = false ∧ confidence r = 0%Q))
    as Hcases.
  { intros i r Hr. destruct (decide (i = t)) as [->|Hne].
    - left. split; [reflexivity|].
      destruct (decide (t < length base)%nat) as [Hlt|Hge].
      + rewrite list_lookup_insert_eq in Hr by exact Hlt. congruence.
      + rewrite list_insert_ge in Hr by lia.
        apply lookup_lt_Some in Hr. lia.
    - right. rewrite list_lookup_insert_ne in Hr by congruence.
      apply (Hbase i r Hr). }
  split.
  - intros i j ri rj Hi Hj Hwi Hwj.
    destruct (Hcases i ri Hi) as [[-> _]|[Hno _]]; [|congruence].
    destruct (Hcases j rj Hj) as [[-> _]|[Hno _]]; [reflexivity|congruence].
  - apply Forall_lookup. intros i r Hr.
    destruct (Hcases i r Hr) as [[_ ->]|[-> Hzero]]; [|exact Hzero].
    cbn [isWinner crown confidence views]. split; [exact Hfloor|].
    split; [reflexivity|]. apply min95_range.
    destruct Hfloor as [Hviews _].
    assert (inject_Z 100 <= inject_Z (views first))%Q as Hq
      by (rewrite <- Zle_Qle; exact Hviews).
    change (inject_Z 100) with 100%Q in Hq.
    change (inject_Z (views first) / 10)%Q with (inject_Z (views first) * (1 # 10))%Q.
    lra.
Qed.

Lemma calculateValue_run customerId kv :
  calculateValue customerId kv
  = ({| totalValue :=
          fst (fold_left valueStep
                 (default [] (journeys kv !! ("journey:" +:+ customerId))) (0%Q, 0));
        touchpoints :=
          Z.of_nat (length (default [] (journeys kv !! ("journey:" +:+ customerId))));
        firstTouch :=
          default 0 (tp_timestamp
                       <$> head (default [] (journeys kv !! ("journey:" +:+ customerId))));
        lastTouch :=
          default 0 (tp_timestamp
                       <$> last (default [] (journeys kv !! ("journey:" +:+ customerId))));
        formConversions :=
          snd (fold_left valueStep
                 (default [] (journeys kv !! ("journey:" +:+ customerId))) (0%Q, 0)) |},
     kv).
Proof.
  unfold calculateValue, St.bind. rewrite getJourney_run.
  destruct (fold_left valueStep _ _) as [total conv]. reflexivity.
Qed.

Lemma valueStep_conversions journey acc :
  snd acc ≤ snd (fold_left valueStep journey acc)
  ≤ snd acc + Z.of_nat (length journey).
Proof.
  revert acc. induction journey as [|touch journey IH]; intros [total conv].
  - cbn [fold_left length snd]. lia.
  - cbn [fold_left length]. specialize (IH (valueStep (total, conv) touch)).
    cbn [valueStep snd] in *.
    destruct (isFormSubmit (tp_type touch)); cbn [snd] in *; lia.
Qed.

(** X27. [calculateValue] only reads.  Right after [trackTouchpoint], the
    customer's [lastTouch] is the clock reading of that call and the number
    of touchpoints is one more than before, capped at 100; the form
    conversions lie between 0 and the number of touchpoints.  While fewer
    than 100 touchpoints were stored, the new one adds its value (when it
    has one that is not zero) to [totalValue], adds one form conversion when
    it is a form submission, and leaves [firstTouch] of a customer who had
    touchpoints as it was. *)
Theorem calculateValue_after_touchpoint now customerId t kv :
  snd (calculateValue customerId kv) = kv
  ∧ lastTouch (valueOf customerId (snd (trackTouchpoint now customerId t kv))) = now
  ∧ touchpoints (valueOf customerId (snd (trackTouchpoint now customerId t kv)))
    = Z.min 100 (touchpoints (valueOf customerId kv) + 1)
  ∧ 0 ≤ formConversions (valueOf customerId (snd (trackTouchpoint now customerId t kv)))
      ≤ touchpoints (valueOf customerId (snd (trackTouchpoint now customerId t kv)))
  ∧ (touchpoints (valueOf customerId kv) < 100 →
     totalValue (valueOf customerId (snd (trackTouchpoint now customerId t kv)))
     = (if truthyQ (in_value t)
        then (totalValue (valueOf customerId kv) + default 0%Q (in_value t))%Q
        else totalValue (valueOf customerId kv))
     ∧ formConversions (valueOf customerId (snd (trackTouchpoint now customerId t kv)))
       = formConversions (valueOf customerId kv)
         + (if isFormSubmit (in_type t) then 1 else 0)
     ∧ (0 < touchpoints (valueOf customerId kv) →
        firstTouch (valueOf customerId (snd (trackTouchpoint now customerId t kv)))
        = firstTouch (valueOf customerId kv))).
Proof.
  unfold valueOf. rewrite !calculateValue_run, trackTouchpoint_run.
  cbn [fst snd putJourney journeys totalValue touchpoints firstTouch lastTouch
         formConversions].
  rewrite lookup_insert_eq. change (default [] (Some ?x)) with x.
  set (journey := default [] (journeys kv !! ("journey:" +:+ customerId))).
  set (added := journey ++ [stamp now t]).
  assert (length added = S (length journey)) as Hlen
    by (subst added; rewrite length_app; cbn [length]; lia).
  split; [reflexivity|]. split; [|split; [|split]].
  - unfold sliceLast. rewrite Hlen.
    replace (drop (S (length journey) - 100) added)
      with (drop (S (length journey) - 100) journey ++ [stamp now t]).
    + rewrite last_snoc. reflexivity.
    + subst added. rewrite drop_app_le by lia. reflexivity.
  - pose proof (sliceLast_length 100 added) as Hle.
    unfold sliceLast in *. rewrite length_drop in *. lia.
  - pose proof (valueStep_conversions (sliceLast 100 added) (0%Q, 0)) as Hconv.
    cbn [snd] in Hconv. lia.
  - intros Hroom.
    rewrite (sliceLast_short 100 added) by lia.
    subst added. rewrite fold_left_app. cbn [fold_left].
    destruct (fold_left valueStep journey (0%Q, 0)) as [total conv].
    cbn [valueStep stamp tp_value tp_type fst snd].
    split; [reflexivity|]. split.
    + destruct (isFormSubmit (in_type t)); lia.
    + intros Hsome. destruct journey as [|first rest]; [cbn [length] in Hsome; lia|].
      reflexivity.
Qed.

End ValueFacts.

Section ManagerFacts.
Import JS Conversion.

Lemma bind_gets {S A B} (f : S → A) (k : A → St.M S B) (s : S) :
  St.bind (St.gets f) k s = k (f s) s.
Proof. reflexivity. Qed.

Lemma truthyStr_some (s : string) : s ≠ "" → truthyStr (Some s) = true.
Proof. intros Hs. cbn [truthyStr]. apply negb_true_iff, String.eqb_neq. exact Hs. Qed.

Lemma findVariant_spec variantId vs v :
  findVariant variantId vs = Some v → v ∈ vs ∧ tv_id v = variantId.
Proof.
  unfold findVariant. induction vs as [|u vs IH]; cbn [find]; [discriminate|].
  destruct (String.eqb (tv_id u) variantId) eqn:Heq.
  - intros [= <-]. apply String.eqb_eq in Heq.
    split; [apply elem_of_cons; by left|exact Heq].
  - intros Hfind. apply IH in Hfind as [Hin Hid].
    split; [apply elem_of_cons; by right|exact Hid].
Qed.

Lemma findVariant_elem v vs :
  v ∈ vs → ∃ u, findVariant (tv_id v) vs = Some u.
Proof.
  unfold findVariant. induction vs as [|u vs IH]; cbn [find].
  - intros Hin. by apply elem_of_nil in Hin.
  - intros Hin. destruct (String.eqb (tv_id u) (tv_id v)) eqn:Heq; [by exists u|].
    apply elem_of_cons in Hin as [->|Hin]; [|exact (IH Hin)].
    rewrite String.eqb_refl in Heq. discriminate.
Qed.

(** The update of the variant found: the array is the same but for the
    first variant with the id, which [f] has changed. *)
Lemma updateFound_spec variantId vs :
  match findVariant variantId vs with
  | None => ∀ f, updateFound f variantId vs = None
  | Some v =>
      ∃ pre post,
        vs = pre ++ v :: post
        ∧ Forall (λ u, tv_id u ≠ variantId) pre
        ∧ ∀ f, updateFound f variantId vs = Some (pre ++ f v :: post)
  end.
Proof.
  unfold findVariant. induction vs as [|u vs IH]; cbn [find updateFound]; [reflexivity|].
  destruct (String.eqb (tv_id u) variantId) eqn:Heq.
  - exists [], vs. split; [reflexivity|]. split; [constructor|reflexivity].
  - apply String.eqb_neq in Heq.
    destruct (find _ vs) as [v|].
    + destruct IH as (pre & post & -> & Hpre & Hupd).
      exists (u :: pre), post. split; [reflexivity|].
      split; [constructor; assumption|]. intros f. rewrite Hupd. reflexivity.
    + intros f. rewrite IH. reflexivity.
Qed.

Lemma findVariant_first variantId pre v post :
  Forall (λ u, tv_id u ≠ variantId) pre →
  tv_id v = variantId →
  findVariant variantId (pre ++ v :: post) = Some v.
Proof.
  intros Hpre Hid. unfold findVariant.
  induction Hpre as [|u pre Hu Hpre IH]; cbn [app find].
  - rewrite Hid, String.eqb_refl. reflexivity.
  - apply String.eqb_neq in Hu. rewrite Hu. exact IH.
Qed.

Lemma pick_elem random cumulative vs v :
  pick random cumulative vs = Some v → v ∈ vs.
Proof.
  revert cumulative. induction vs as [|u vs IH]; intros cumulative; cbn [pick];
    [discriminate|].
  cbv zeta. destruct (Qle_bool random _).
  - intros [= <-]. apply elem_of_cons. by left.
  - intros Hpick. apply elem_of_cons. right. exact (IH _ Hpick).
Qed.

Lemma selectVariant_elem random vs v :
  selectVariant random vs = Some v → v ∈ vs.
Proof.
  unfold selectVariant. destruct (pick random 0 vs) as [u|] eqn:Hpick.
  - intros [= <-]. exact (pick_elem _ _ _ _ Hpick).
  - destruct vs as [|u vs]; [discriminate|].
    intros [= <-]. apply elem_of_cons. by left.
Qed.

Lemma selectVariant_none random vs :
  selectVariant random vs = None ↔ vs = [].
Proof.
  unfold selectVariant. split.
  - destruct (pick random 0 vs); [discriminate|].
    destruct vs; [reflexivity|discriminate].
  - intros ->. reflexivity.
Qed.

Lemma updateVariant_run f testId variantId s :
  updateVariant f testId variantId s
  = (tt,
     match tests (core s) !! ("abtest:" +:+ testId) with
     | Some test =>
         match updateFound f variantId (test_variants test) with
         | Some variants => putTest ("abtest:" +:+ testId) (withVariants test variants) s
         | None => s
         end
     | None => s
     end).
Proof.
  unfold updateVariant, St.bind, St.gets.
  destruct (tests (core s) !! _) as [test|]; [|reflexivity].
  destruct (updateFound f variantId (test_variants test)); reflexivity.
Qed.

(** The call of [getVariant] that assigns: the session had no assignment,
    the form's test is running and has a variant to select. *)
Lemma getVariant_assigns random formId sessionId s testId test selected :
  formTests s !! ("abtest:form:" +:+ formId) = Some testId →
  testId ≠ "" →
  truthyStr (assignments s
               !! ("abtest:assignment:" +:+ testId +:+ ":" +:+ sessionId)) = false →
  tests (core s) !! ("abtest:" +:+ testId) = Some test →
  isRunning (test_status test) = true →
  selectVariant random (test_variants test) = Some selected →
  ∃ pre v post,
    test_variants test = pre ++ v :: post
    ∧ Forall (λ u, tv_id u ≠ tv_id selected) pre
    ∧ tv_id v = tv_id selected
    ∧ (NoDup (map tv_id (test_variants test)) → v = selected)
    ∧ getVariant random formId sessionId s
      = (Analytics.Returned (Some (answer selected)),
         putTest ("abtest:" +:+ testId)
           (withVariants test (pre ++ addView v :: post))
           (putAssignment ("abtest:assignment:" +:+ testId +:+ ":" +:+ sessionId)
              (tv_id selected) s)).
Proof.
  intros Hform Hid Hfresh Htest Hrun Hsel.
  pose proof (selectVariant_elem _ _ _ Hsel) as Hin.
  destruct (findVariant_elem _ _ Hin) as [v Hfind].
  pose proof (updateFound_spec (tv_id selected) (test_variants test)) as Hupd.
  rewrite Hfind in Hupd. destruct Hupd as (pre & post & Hvs & Hpre & Hupd).
  specialize (Hupd addView).
  apply findVariant_spec in Hfind as [Hv Hvid].
  exists pre, v, post. split; [exact Hvs|]. split; [exact Hpre|]. split; [exact Hvid|].
  split.
  { intros Hnd. rewrite Hvs in Hnd, Hin.
    apply elem_of_app in Hin as [Hin|Hin].
    - exfalso. rewrite Forall_forall in Hpre. exact (Hpre _ Hin eq_refl).
    - apply elem_of_cons in Hin as [->|Hin]; [reflexivity|]. exfalso.
      rewrite map_app in Hnd. apply NoDup_app in Hnd as (_ & _ & Hnd).
      cbn [map] in Hnd. apply NoDup_cons in Hnd as [Hnot _].
      apply Hnot. rewrite Hvid. apply list_elem_of_fmap. by exists selected. }
  unfold getVariant. rewrite bind_gets, Hform, (truthyStr_some _ Hid).
  cbn [negb]. change (default "" (Some testId)) with testId.
  rewrite bind_gets, Hfresh, bind_gets, Htest, Hrun. cbn [negb]. rewrite Hsel.
  unfold St.bind, St.modify, St.ret, recordView. rewrite updateVariant_run.
  cbn [putAssignment core]. rewrite Htest, Hupd. reflexivity.
Qed.

(** X28. Assignments are sticky: once [getVariant] has answered a session
    with a variant whose id is not empty, every later call for that session
    answers with the same variant id, whatever the random draw, and writes
    nothing, so the view is counted once; this stays so when any test is
    stopped in between. *)
Theorem getVariant_sticky random formId sessionId s variantId config :
  fst (getVariant random formId sessionId s)
  = Analytics.Returned (Some (variantId, config)) →
  variantId ≠ "" →
  ∃ config',
    (∀ random',
       getVariant random' formId sessionId (snd (getVariant random formId sessionId s))
       = (Analytics.Returned (Some (variantId, config')),
          snd (getVariant random formId sessionId s)))
    ∧ (∀ random' now testId,
         fst (getVariant random' formId sessionId
                (snd (stopTest now testId (snd (getVariant random formId sessionId s)))))
         = Analytics.Returned (Some (variantId, config'))).
Proof.
  intros Hfirst Hid.
  (* what a call answers in a store where the session has its assignment *)
  assert (∀ s1 testId test v,
            formTests s1 !! ("abtest:form:" +:+ formId) = Some testId →
            testId ≠ "" →
            assignments s1 !! ("abtest:assignment:" +:+ testId +:+ ":" +:+ sessionId)
            = Some variantId →
            tests (core s1) !! ("abtest:" +:+ testId) = Some test →
            findVariant variantId (test_variants test) = Some v →
            (∀ random', getVariant random' formId sessionId s1
                        = (Analytics.Returned (Some (answer v)), s1))
            ∧ (∀ random' now stopped,
                 fst (getVariant random' formId sessionId (snd (stopTest now stopped s1)))
                 = Analytics.Returned (Some (answer v)))) as Hagain.
  { intros s1 testId test v Hform Htid Hassigned Htest Hfind.
    pose proof (truthyStr_some _ Htid) as Htruthy.
    pose proof (truthyStr_some _ Hid) as Htruthy'.
    split.
    - intros random'. unfold getVariant.
      rewrite bind_gets, Hform, Htruthy. cbn [negb].
      change (default "" (Some testId)) with testId.
      rewrite bind_gets, Hassigned, Htruthy', bind_gets, Htest.
      change (default "" (Some variantId)) with variantId.
      cbn [mbind option_bind]. rewrite Hfind. reflexivity.
    - intros random' now stopped.
      assert (∃ test',
                tests (core (snd (stopTest now stopped s1))) !! ("abtest:" +:+ testId)
                = Some test'
                ∧ test_variants test' = test_variants test
                ∧ formTests (snd (stopTest now stopped s1)) = formTests s1
                ∧ assignments (snd (stopTest now stopped s1)) = assignments s1)
        as (test' & Htest' & Hvs & Hforms & Hassign).
      { unfold stopTest, St.bind, St.gets, St.modify, St.ret.
        destruct (tests (core s1) !! ("abtest:" +:+ stopped)) as [old|] eqn:Hold;
          cbn [snd].
        2:{ exists test. repeat split. exact Htest. }
        cbn [core putTest tests formTests assignments].
        destruct (decide ("abtest:" +:+ stopped = "abtest:" +:+ testId)) as [Heq|Hne].
        - rewrite Heq, lookup_insert_eq. rewrite Heq, Htest in Hold.
          injection Hold as <-. eexists. split; [reflexivity|]. repeat split.
        - rewrite lookup_insert_ne by exact Hne.
          exists test. repeat split. exact Htest. }
      unfold getVariant.
      rewrite bind_gets, Hforms, Hform, Htruthy. cbn [negb].
      change (default "" (Some testId)) with testId.
      rewrite bind_gets, Hassign, Hassigned, Htruthy', bind_gets, Htest'.
      change (default "" (Some variantId)) with variantId.
      cbn [mbind option_bind]. rewrite Hvs, Hfind. reflexivity. }
  pose proof Hfirst as Hanswered.
  unfold getVariant in Hfirst. rewrite bind_gets in Hfirst.
  destruct (formTests s !! ("abtest:form:" +:+ formId)) as [testId|] eqn:Hform;
    [|discriminate Hfirst].
  destruct (String.eqb testId "") eqn:Htid;
    cbn [truthyStr negb] in Hfirst; rewrite Htid in Hfirst; cbn [negb] in Hfirst;
    [discriminate Hfirst|].
  apply String.eqb_neq in Htid.
  change (default "" (Some testId)) with testId in Hfirst.
  rewrite bind_gets in Hfirst.
  destruct (truthyStr (assignments s
              !! ("abtest:assignment:" +:+ testId +:+ ":" +:+ sessionId))) eqn:Hexisting.
  - (* the session had its assignment already *)
    destruct (assignments s !! _) as [existing|] eqn:Hassigned; [|discriminate Hexisting].
    rewrite bind_gets in Hfirst. unfold St.ret in Hfirst. cbn [fst] in Hfirst.
    destruct (tests (core s) !! ("abtest:" +:+ testId)) as [test|] eqn:Htest;
      [|discriminate Hfirst].
    change (default "" (Some existing)) with existing in Hfirst.
    cbn [mbind option_bind] in Hfirst.
    destruct (findVariant existing (test_variants test)) as [v|] eqn:Hfind;
      [|discriminate Hfirst].
    injection Hfirst as Hv Hconfig.
    pose proof (findVariant_spec _ _ _ Hfind) as [_ Hvid].
    assert (existing = variantId) as -> by congruence.
    exists (tv_config v).
    assert (snd (getVariant random formId sessionId s) = s) as ->.
    { destruct (Hagain s testId test v Hform Htid Hassigned Htest Hfind) as [Hsame _].
      rewrite Hsame. reflexivity. }
    destruct (Hagain s testId test v Hform Htid Hassigned Htest Hfind) as [Hsame Hstop].
    unfold answer in Hsame, Hstop. rewrite Hv in Hsame, Hstop.
    split; [exact Hsame|exact Hstop].
  - (* the call assigned the variant *)
    rewrite bind_gets in Hfirst.
    destruct (tests (core s) !! ("abtest:" +:+ testId)) as [test|] eqn:Htest;
      [|discriminate Hfirst].
    destruct (isRunning (test_status test)) eqn:Hrun; cbn [negb] in Hfirst;
      [|discriminate Hfirst].
    destruct (selectVariant random (test_variants test)) as [selected|] eqn:Hsel;
      [|discriminate Hfirst].
    destruct (getVariant_assigns random formId sessionId s testId test selected
                Hform Htid Hexisting Htest Hrun Hsel)
      as (pre & v & post & Hvs & Hpre & Hvid & _ & Hrun1).
    assert (tv_id selected = variantId) as Hselected.
    { rewrite Hrun1 in Hanswered. cbn [fst] in Hanswered. unfold answer in Hanswered.
      congruence. }
    rewrite Hrun1. cbn [snd].
    exists (tv_config v).
    assert (answer (addView v) = (variantId, tv_config v)) as Hanswer.
    { unfold answer. cbn [addView tv_id tv_config]. congruence. }
    rewrite <- Hanswer.
    apply (Hagain _ testId (withVariants test (pre ++ addView v :: post)) (addView v)).
    + exact Hform.
    + exact Htid.
    + cbn [putTest putAssignment assignments]. rewrite Hselected.
      apply lookup_insert_eq.
    + cbn [putTest core tests]. apply lookup_insert_eq.
    + cbn [withVariants test_variants]. apply findVariant_first.
      * rewrite <- Hselected. exact Hpre.
      * cbn [addView tv_id]. congruence.
Qed.

Lemma sum_update_one (g : TestVariant → Z) pre v v' post :
  g v' = g v + 1 →
  fold_right Z.add 0 (map g (pre ++ v' :: post))
  = fold_right Z.add 0 (map g (pre ++ v :: post)) + 1.
Proof.
  intros Hg. induction pre as [|u pre IH]; cbn [app map fold_right]; lia.
Qed.

Lemma map_update_one {B} (g : TestVariant → B) pre v v' post :
  g v' = g v → map g (pre ++ v' :: post) = map g (pre ++ v :: post).
Proof. intros Hg. rewrite !map_app. cbn [map]. rewrite Hg. reflexivity. Qed.

Lemma findVariant_none variantId vs :
  findVariant variantId vs = None ↔ variantId ∉ map tv_id vs.
Proof.
  split.
  - intros Hnone Hin. apply list_elem_of_fmap in Hin as (v & -> & Hv).
    destruct (findVariant_elem v vs Hv) as [u Hu]. congruence.
  - intros Hout. destruct (findVariant variantId vs) as [v|] eqn:Hfind; [|reflexivity].
    exfalso. apply Hout. apply findVariant_spec in Hfind as [Hin <-].
    apply list_elem_of_fmap. by exists v.
Qed.

(** X29. [recordView] and [recordConversion] write nothing when the test is
    not stored or has no variant with the given id.  Otherwise they store
    the test again under its key with the same variant ids in the same
    order and the same status: [recordView] raises the views of the test by
    one in total and leaves all conversions, [recordConversion] raises the
    conversions by one in total and leaves all views. *)
Theorem record_counts testId variantId revenue s :
  match tests (core s) !! ("abtest:" +:+ testId) with
  | Some test =>
      (variantId ∈ map tv_id (test_variants test) →
       ∃ viewed converted,
         snd (recordView testId variantId s)
         = putTest ("abtest:" +:+ testId) (withVariants test viewed) s
         ∧ snd (recordConversion testId variantId revenue s)
           = putTest ("abtest:" +:+ testId) (withVariants test converted) s
         ∧ map tv_id viewed = map tv_id (test_variants test)
         ∧ map tv_id converted = map tv_id (test_variants test)
         ∧ fold_right Z.add 0 (map tv_views viewed)
           = fold_right Z.add 0 (map tv_views (test_variants test)) + 1
         ∧ map tv_conversions viewed = map tv_conversions (test_variants test)
         ∧ fold_right Z.add 0 (map tv_conversions converted)
           = fold_right Z.add 0 (map tv_conversions (test_variants test)) + 1
         ∧ map tv_views converted = map tv_views (test_variants test))
      ∧ (variantId ∉ map tv_id (test_variants test) →
         snd (recordView testId variantId s) = s
         ∧ snd (recordConversion testId variantId revenue s) = s)
  | None =>
      snd (recordView testId variantId s) = s
      ∧ snd (recordConversion testId variantId revenue s) = s
  end.
Proof.
  unfold recordView, recordConversion. rewrite !updateVariant_run. cbn [snd].
  destruct (tests (core s) !! ("abtest:" +:+ testId)) as [test|]; [|split; reflexivity].
  pose proof (updateFound_spec variantId (test_variants test)) as Hupd.
  split.
  - intros Hin. destruct (findVariant variantId (test_variants test)) as [v|] eqn:Hfind.
    2:{ apply findVariant_none in Hfind. contradiction. }
    destruct Hupd as (pre & post & Hvs & _ & Hupd). rewrite !Hupd.
    exists (pre ++ addView v :: post), (pre ++ addConversion revenue v :: post).
    split; [reflexivity|]. split; [reflexivity|]. rewrite Hvs.
    split; [apply map_update_one; reflexivity|].
    split; [apply map_update_one; reflexivity|].
    split; [apply sum_update_one; reflexivity|].
    split; [apply map_update_one; reflexivity|].
    split; [apply sum_update_one; reflexivity|].
    apply map_update_one; reflexivity.
  - intros Hout. apply findVariant_none in Hout. rewrite Hout in Hupd.
    rewrite !Hupd. split; reflexivity.
Qed.

Lemma newTestId_nonempty h now suffix : newTestId h now suffix ≠ "".
Proof. unfold newTestId. discriminate. Qed.

(** X30. A test made by [createTest] gets an id that begins with [test_]
    and becomes the test of its form.  A session that has no assignment
    under that id is then answered with the id and the configuration of one
    of the configured variants, whatever the random draw; with no variants
    configured the call throws and writes nothing.  Once the test is
    stopped, such a session is answered [null] and nothing is written. *)
Theorem createTest_lifecycle h now suffix startedAt config random sessionId stoppedNow s :
  truthyStr
    (assignments s
       !! ("abtest:assignment:" +:+ newTestId h now suffix +:+ ":" +:+ sessionId))
  = false →
  fst (createTest h now suffix startedAt config s) = newTestId h now suffix
  ∧ String.prefix "test_" (newTestId h now suffix) = true
  ∧ formTests (snd (createTest h now suffix startedAt config s))
      !! ("abtest:form:" +:+ cfg_formId config)
    = Some (newTestId h now suffix)
  ∧ match cfg_variants config with
    | [] =>
        getVariant random (cfg_formId config) sessionId
          (snd (createTest h now suffix startedAt config s))
        = (Analytics.TypeError, snd (createTest h now suffix startedAt config s))
    | _ :: _ =>
        ∃ v, v ∈ cfg_variants config
             ∧ fst (getVariant random (cfg_formId config) sessionId
                      (snd (createTest h now suffix startedAt config s)))
               = Analytics.Returned (Some (vc_id v, vc_config v))
    end
  ∧ getVariant random (cfg_formId config) sessionId
      (snd (stopTest stoppedNow (newTestId h now suffix)
              (snd (createTest h now suffix startedAt config s))))
    = (Analytics.Returned None,
       snd (stopTest stoppedNow (newTestId h now suffix)
              (snd (createTest h now suffix startedAt config s)))).
Proof.
  intros Hfresh.
  set (testId := newTestId h now suffix) in *.
  set (test := {| test_id := testId; test_formId := cfg_formId config;
                  test_name := cfg_name config;
                  test_variants := imap (newVariant config) (cfg_variants config);
                  test_startedAt := startedAt; test_status := running |}).
  assert (createTest h now suffix startedAt config s
          = (testId,
             {| core := {| tests := <["abtest:" +:+ testId := test]> (tests (core s));
                           journeys := journeys (core s) |};
                formTests := <["abtest:form:" +:+ cfg_formId config := testId]>
                               (formTests s);
                assignments := assignments s;
                stoppedAt := delete ("abtest:" +:+ testId) (stoppedAt s) |})) as Hcreate
    by reflexivity.
  rewrite Hcreate. cbn [fst snd]. set (s1 := {| core := _ |}).
  assert (formTests s1 !! ("abtest:form:" +:+ cfg_formId config) = Some testId) as Hform
    by apply lookup_insert_eq.
  assert (tests (core s1) !! ("abtest:" +:+ testId) = Some test) as Htest
    by apply lookup_insert_eq.
  pose proof (newTestId_nonempty h now suffix) as Hid. fold testId in Hid.
  split; [reflexivity|]. split; [exact (prefix_append "test_" _)|].
  split; [exact Hform|]. split.
  - destruct (cfg_variants config) as [|first rest] eqn:Hvariants.
    + unfold getVariant. rewrite bind_gets, Hform, (truthyStr_some _ Hid). cbn [negb].
      change (default "" (Some testId)) with testId.
      rewrite bind_gets. change (assignments s1) with (assignments s). rewrite Hfresh.
      rewrite bind_gets, Htest. subst test. rewrite ?Hvariants. reflexivity.
    + destruct (selectVariant random (test_variants test)) as [selected|] eqn:Hsel.
      2:{ apply selectVariant_none in Hsel. subst test. cbn [test_variants] in Hsel.
          rewrite ?Hvariants in Hsel. discriminate Hsel. }
      destruct (getVariant_assigns random (cfg_formId config) sessionId s1 testId test
                  selected Hform Hid Hfresh Htest eq_refl Hsel)
        as (pre & u & post & _ & _ & _ & _ & Hrun).
      rewrite Hrun. cbn [fst].
      apply selectVariant_elem in Hsel. subst test. cbn [test_variants] in Hsel.
      rewrite ?Hvariants in Hsel.
      apply elem_of_lookup_imap in Hsel as (i & v & -> & Hv).
      exists v. split; [eapply list_elem_of_lookup_2; exact Hv|reflexivity].
  - unfold stopTest. rewrite bind_gets, Htest. unfold St.modify. cbn [snd].
    set (s2 := {| core := _ |}).
    unfold getVariant.
    rewrite bind_gets. change (formTests s2) with (formTests s1).
    rewrite Hform, (truthyStr_some _ Hid). cbn [negb].
    change (default "" (Some testId)) with testId.
    rewrite bind_gets. change (assignments s2) with (assignments s). rewrite Hfresh.
    rewrite bind_gets.
    assert (tests (core s2) !! ("abtest:" +:+ testId)
            = Some {| test_id := test_id test; test_formId := test_formId test;
                      test_name := test_name test;
                      test_variants := test_variants test;
                      test_startedAt := test_startedAt test;
                      test_status := stopped |}) as -> by apply lookup_insert_eq.
    reflexivity.
Qed.

End ManagerFacts.

(** ** The further properties on sample data *)

Lemma submit_closed_rejected_witness :
  Forms.submit Samples.host "f1" (Samples.request None) 2000 "s1"
    (Samples.world Samples.closedForm)
  = (Forms.RespError 400 "Form is closed", Samples.world Samples.closedForm).
Proof.
  destruct (submit_closed_rejected Samples.host (Samples.world Samples.closedForm) "f1"
              (Samples.request None) 2000 "s1" Samples.closedForm 1500
              eq_refl eq_refl eq_refl ltac:(lia)) as [Hclosed _].
  apply Hclosed. lia.
Defined.

Lemma publish_toggle_witness :
  Forms.publishAs true "f1" 2000 (Samples.world (Samples.mkForm "f1" [] false))
  = (Forms.ReplyPublished "f1" true,
     {| Forms.forms :=
          <["form:f1" :=
              {| Forms.form_id := "f1";
                 Forms.form_name := "Contact Form";
                 Forms.form_description := None;
                 Forms.form_fields := [];
                 Forms.form_settings := Samples.settings;
                 Forms.form_createdAt := 1000;
                 Forms.form_updatedAt := 2000;
                 Forms.form_published := true;
                 Forms.form_submissions := 0 |}]>
            (Forms.forms (Samples.world (Samples.mkForm "f1" [] false)));
        Forms.submissions := ∅;
        Forms.outbox := [] |}).
Proof.
  destruct (publish_toggle Samples.host (Samples.world (Samples.mkForm "f1" [] false))
              "f1" 2000 (Samples.mkForm "f1" [] false) true eq_refl eq_refl)
    as [Hrun _].
  exact Hrun.
Defined.

Lemma updateForm_keeps_identity_witness :
  fst (Forms.readForm "f1"
         (snd (Forms.updateForm "f1" (Some Samples.renamePatch) 3000
                 (Samples.world (Samples.mkForm "f1" [] false)))))
  = Forms.ReplyForm (Forms.mergeForm (Samples.mkForm "f1" [] false) Samples.renamePatch 3000)
  ∧ Forms.form_id (Forms.mergeForm (Samples.mkForm "f1" [] false) Samples.renamePatch 3000)
    = "f1".
Proof.
  destruct (updateForm_keeps_identity (Samples.world (Samples.mkForm "f1" [] false))
              "f1" Samples.renamePatch 3000 (Samples.mkForm "f1" [] false)
              eq_refl eq_refl) as (_ & Hread & Hid & _).
  split; [exact Hread|exact Hid].
Defined.

Lemma missing_form_404_witness :
  Forms.readForm "nope" Samples.emptyWorld
  = (Forms.ReplyError 404 "Form not found", Samples.emptyWorld).
Proof.
  destruct (missing_form_404 Samples.host Samples.emptyWorld "nope" None
              (Samples.request None) 0 "s1" eq_refl) as [Hread _].
  exact Hread.
Defined.

Lemma wellKeyed_sample : Forms.wellKeyed (Samples.world (Samples.mkForm "f1" [] true)).
Proof.
  intros id form Hlookup. unfold Samples.world in Hlookup. cbn [Forms.forms] in Hlookup.
  apply lookup_singleton_Some in Hlookup as [Hkey <-].
  cbn in Hkey. by simplify_eq.
Defined.

Lemma wellKeyed_preserved_witness :
  Forms.wellKeyed
    (snd (Forms.submit Samples.host "f1" (Samples.request (Some ∅)) 2000 "s1"
            (Samples.world (Samples.mkForm "f1" [] true)))).
Proof.
  destruct (wellKeyed_preserved Samples.host
              (Samples.world (Samples.mkForm "f1" [] true)) wellKeyed_sample)
    as (_ & _ & _ & Hsubmit & _).
  apply Hsubmit.
Defined.

Lemma accepted_submission_readable_witness :
  fst (Forms.readSubmission "f1" "s1"
         (snd (Forms.submit Samples.host "f1"
                 (Samples.request (Some {[ "email" := JS.JStr "a@b.com" ]})) 2000 "s1"
                 (Samples.world (Samples.mkForm "f1" [Samples.emailChecked true] true)))))
  = Forms.ReplySubmission
      {| Forms.sub_id := "s1";
         Forms.sub_formId := "f1";
         Forms.sub_data := {[ "email" := JS.JStr "a@b.com" ]};
         Forms.sub_metadata :=
           {| Forms.ip := None; Forms.userAgent := None;
              Forms.referrer := None; Forms.country := None |};
         Forms.sub_createdAt := 2000 |}
  ∧ fst (Forms.readForm "f1"
           (snd (Forms.submit Samples.host "f1"
                   (Samples.request (Some {[ "email" := JS.JStr "a@b.com" ]})) 2000 "s1"
                   (Samples.world (Samples.mkForm "f1" [Samples.emailChecked true] true)))))
    = Forms.ReplyForm
        {| Forms.form_id := "f1";
           Forms.form_name := "Contact Form";
           Forms.form_description := None;
           Forms.form_fields := [Samples.emailChecked true];
           Forms.form_settings := Samples.settings;
           Forms.form_createdAt := 1000;
           Forms.form_updatedAt := 1000;
           Forms.form_published := true;
           Forms.form_submissions := 1 |}.
Proof.
  refine ((λ H, conj (proj1 H) (proj1 (proj2 H))) _).
  apply (accepted_submission_readable Samples.host
           (Samples.world (Samples.mkForm "f1" [Samples.emailChecked true] true))
           "f1" (Samples.request (Some {[ "email" := JS.JStr "a@b.com" ]})) 2000 "s1"
           (Samples.mkForm "f1" [Samples.emailChecked true] true)
           {[ "email" := JS.JStr "a@b.com" ]});
    first [reflexivity | vm_compute; reflexivity].
Defined.

Lemma formAnalytics_totals_witness :
  ∃ stats,
    Forms.formAnalytics Samples.host "f1" Samples.worldWithSubmission
    = (Forms.ReplyStats stats, Samples.worldWithSubmission)
    ∧ fold_right Z.add 0 (map snd (Forms.byDay stats)) = Forms.totalSubmissions stats.
Proof.
  destruct (formAnalytics_totals Samples.host Samples.worldWithSubmission "f1"
              (Samples.mkForm "f1" Samples.twoFields true) eq_refl)
    as (stats & Hrun & _ & Hdays & _).
  exists stats. split; [exact Hrun|exact Hdays].
Defined.

Lemma validateField_phone_witness :
  Forms.validateField Samples.host Samples.phoneField (JS.JStr "555x")
  = Forms.Fail "Phone must be a valid phone number".
Proof.
  destruct (validateField_phone Samples.host Samples.phoneField Samples.noValidation
              "555x" eq_refl eq_refl) as [_ Hbad].
  apply Hbad. right. reflexivity.
Defined.

Lemma validateField_number_witness :
  Forms.validateField Samples.numberHost Samples.ageField (JS.JStr "42")
  = Forms.validateString Samples.numberHost Samples.ageField Samples.ageBounds
      (JS.JStr "42").
Proof.
  destruct (validateField_number Samples.numberHost Samples.ageField Samples.ageBounds
              (JS.JStr "42") 18%Q 65%Q eq_refl eq_refl eq_refl eq_refl) as [_ Htext].
  destruct (Htext "42" eq_refl) as [_ Hnum].
  destruct (Hnum 42%Q eq_refl) as [Hinside _].
  apply Hinside. split; unfold Qle; simpl; lia.
Defined.

Lemma validateField_length_witness :
  Forms.validateField Samples.host Samples.nameField (JS.JStr "abc") = Forms.Pass.
Proof.
  destruct (validateField_length Samples.host Samples.nameField Samples.nameLength "abc"
              ltac:(discriminate) ltac:(discriminate) ltac:(discriminate)
              eq_refl eq_refl) as [_ Hpass].
  apply Hpass. split; intros n [= <-]; right; simpl; lia.
Defined.

Lemma average_is_mean_witness :
  (fst (Analytics.getAverage "avgTime:f1"
          (snd (St.forEach [2; 4] (Analytics.addToAverage "avgTime:f1") Samples.emptyKV)))
   == (2 + fold_right Qplus 0 [4]) / inject_Z (Z.of_nat 2))%Q.
Proof.
  destruct (average_is_mean "avgTime:f1" 2%Q [4%Q] Samples.emptyKV eq_refl)
    as [_ Hmean].
  exact Hmean.
Defined.

Lemma blur_samples_time_since_focus_witness :
  Analytics.sessions
    (snd (Analytics.trackInteraction "sid" (Samples.blurOn "email" 9)
            (snd (Analytics.trackInteraction "sid" (Samples.focusOn "email" 3)
                    Samples.liveCollector))))
  = <["sid" := Analytics.pushInteraction
                 (Analytics.pushInteraction Samples.liveSession
                    (Samples.focusOn "email" 3))
                 (Samples.blurOn "email" 9)]>
      (Analytics.sessions Samples.liveCollector).
Proof.
  destruct (blur_samples_time_since_focus Samples.liveCollector "sid" Samples.liveSession
              (Samples.focusOn "email" 3) (Samples.blurOn "email" 9)
              eq_refl eq_refl eq_refl eq_refl) as [[_ Hsessions] _].
  exact Hsessions.
Defined.

Lemma session_end_persists_or_drops_witness :
  Analytics.submitted Samples.liveSession = false
  ∧ Analytics.submitted
      <$> Analytics.storedSessions
            (Analytics.kv (snd (Analytics.markSubmitted Samples.host 5 "sid"
                                  Samples.liveCollector)))
            !! "analytics:session:f1:sid"
    = Some true
  ∧ Analytics.sessions (snd (Analytics.markSubmitted Samples.host 5 "sid"
                               Samples.liveCollector))
    = delete "sid" (Analytics.sessions Samples.liveCollector).
Proof.
  destruct (session_end_persists_or_drops Samples.host Samples.liveCollector "sid"
              Samples.liveSession 5 "email" eq_refl) as [[Hstored Hsessions] _].
  split; [reflexivity|]. split; [|exact Hsessions].
  change "analytics:session:f1:sid"
    with ("analytics:session:" +:+ Analytics.formId Samples.liveSession +:+ ":"
            +:+ Analytics.sessionId Samples.liveSession).
  rewrite Hstored. reflexivity.
Defined.

Lemma errorKeys_sample :
  NoDup (map fst (default [] (Analytics.errorTables Samples.kvWithErrors
                                !! ("analytics:errors:" +:+ "f1" +:+ ":" +:+ "email")))).
Proof.
  change (NoDup ["Required"; "Invalid"]).
  apply NoDup_cons. split; [|apply NoDup_singleton].
  intros Hin. apply list_elem_of_singleton in Hin. discriminate Hin.
Defined.

(** An own key is counted up in place, a new array index is listed among
    the indices, any other new key last, and [__proto__] is never stored. *)
Example bumpError_samples :
  Analytics.bumpError "Invalid" [("404", 1); ("Required", 2); ("Invalid", 5)]
  = [("404", 1); ("Required", 2); ("Invalid", 6)]
  ∧ Analytics.bumpError "Too long" [("404", 1); ("Required", 2)]
    = [("404", 1); ("Required", 2); ("Too long", 1)]
  ∧ Analytics.bumpError "7" [("404", 1); ("Required", 2)]
    = [("7", 1); ("404", 1); ("Required", 2)]
  ∧ Analytics.bumpError "500" [("404", 1); ("Required", 2)]
    = [("404", 1); ("500", 1); ("Required", 2)]
  ∧ Analytics.bumpError "007" [("404", 1); ("Required", 2)]
    = [("404", 1); ("Required", 2); ("007", 1)]
  ∧ Analytics.bumpError "__proto__" [("404", 1); ("Required", 2)]
    = [("404", 1); ("Required", 2)].
Proof. vm_compute. repeat split. Qed.

Lemma trackError_counts_witness :
  ∃ after,
    Analytics.errorTables
      (snd (Analytics.trackError "f1" "email" "Invalid" Samples.kvWithErrors))
    = <["analytics:errors:f1:email" := after]>
        (Analytics.errorTables Samples.kvWithErrors)
    ∧ NoDup (map fst after)
    ∧ ("Invalid", 6) ∈ after
    ∧ ("Required", 2) ∈ after.
Proof.
  destruct (trackError_counts "f1" "email" "Invalid" Samples.kvWithErrors
              errorKeys_sample) as (after & Hrun & Hcounts & _).
  destruct (Hcounts (or_intror eq_refl)) as (Hnd & Hsame & Hother).
  exists after. split; [rewrite Hrun; reflexivity|]. split; [exact Hnd|]. split.
  - apply Hsame. left. change (("Invalid", 5) ∈ [("Required", 2); ("Invalid", 5)]).
    apply elem_of_cons. right. apply elem_of_cons. left. reflexivity.
  - apply Hother; [discriminate|].
    change (("Required", 2) ∈ [("Required", 2); ("Invalid", 5)]).
    apply elem_of_cons. left. reflexivity.
Defined.

Lemma getVariant_weighted_slice_witness :
  ∃ pre v post,
    Analytics.variants Samples.runningTest = pre ++ v :: post
    ∧ fst (Analytics.getVariant "f1" "session-42" Samples.kvWithTest)
      = Analytics.Returned (Some (Analytics.variant_id v)).
Proof.
  destruct (getVariant_weighted_slice "f1" "session-42" Samples.kvWithTest
              Samples.runningTest eq_refl eq_refl ltac:(discriminate)
              ltac:(repeat constructor; simpl; lia))
    as (pre & v & post & Hsplit & _ & Hassigned).
  exists pre, v, post. split; [exact Hsplit|exact Hassigned].
Defined.

Lemma getVariant_sticky_witness :
  ∃ config,
    ∀ random,
      Conversion.getVariant random "f1" "sid"
        (snd (Conversion.getVariant 75 "f1" "sid" Samples.managerStore))
      = (Analytics.Returned (Some ("B", config)),
         snd (Conversion.getVariant 75 "f1" "sid" Samples.managerStore)).
Proof.
  destruct (getVariant_sticky 75%Q "f1" "sid" Samples.managerStore "B" []
              ltac:(vm_compute; reflexivity) ltac:(discriminate))
    as (config & Hagain & _).
  exists config. exact Hagain.
Defined.

Lemma createTest_lifecycle_witness :
  ∃ v,
    v ∈ Conversion.cfg_variants Samples.twoVariants
    ∧ fst (Conversion.getVariant 10 "f1" "sid"
             (snd (Conversion.createTest Samples.host 1000 "abc123" 1001
                     Samples.twoVariants Samples.emptyStore)))
      = Analytics.Returned (Some (Conversion.vc_id v, Conversion.vc_config v)).
Proof.
  destruct (createTest_lifecycle Samples.host 1000 "abc123" 1001 Samples.twoVariants
              10%Q "sid" 2000 Samples.emptyStore eq_refl)
    as (_ & _ & _ & Hassigned & _).
  exact Hassigned.
Defined.

(** ** The conversion tracker *)

Section TrackerFacts.
Import JS Conversion.
Context (h : Host) (daysBefore : Z → Z → Z).

Lemma append_cancel (p a b : string) : p +:+ a = p +:+ b → a = b.
Proof.
  induction p as [|c p IH]; intros Heq; [exact Heq|].
  change (String c (p +:+ a) = String c (p +:+ b)) in Heq.
  injection Heq as Heq. exact (IH Heq).
Qed.

Lemma sumDays_run formId now days acc s :
  sumDays h daysBefore formId now days acc s
  = (daySums h daysBefore formId now s days acc, s).
Proof.
  unfold daySums. revert acc. induction days as [|i days IH]; intros acc; [reflexivity|].
  cbn [sumDays fold_left]. unfold St.bind at 1, St.gets at 1.
  unfold St.bind at 1, St.gets at 1. apply IH.
Qed.

Lemma getPerformance_reads now formId days s :
  snd (getPerformance h daysBefore now formId days s) = s.
Proof. unfold getPerformance, St.bind. rewrite sumDays_run. reflexivity. Qed.

(** X11. [getFunnel] only reads.  Its steps are View, Start and Submit with
    the views, the starts and the submissions of [getPerformance] as
    counts.  For View the conversion rate is 100 and the drop-off rate 0.
    For Start, when there is no view both rates are 0; otherwise the
    conversion rate is the double [(starts / views) * 100] and the drop-off
    rate the double [((views - starts) / views) * 100], each a division
    followed by a multiplication of doubles.  Submit relates to Start in
    the same way.  The two rates are rounded separately. *)
Theorem funnel_rates now later formId days s :
  let double (n : Z) : float :=
    if n <? 0 then PrimFloat.opp (PrimFloat.of_uint63 (Uint63.of_Z (- n)))
    else PrimFloat.of_uint63 (Uint63.of_Z n) in
  snd (getFunnel h daysBefore now later formId days s) = s
  ∧ ∃ first second third,
      f_steps (fst (getFunnel h daysBefore now later formId days s))
      = [first; second; third]
      ∧ map fs_name [first; second; third] = ["View"; "Start"; "Submit"]
      ∧ map fs_count [first; second; third]
        = [ p_views (performanceOf h daysBefore now formId days s);
            p_starts (performanceOf h daysBefore now formId days s);
            p_submissions (performanceOf h daysBefore now formId days s) ]
      ∧ fs_conversionRate first = 100%float ∧ fs_dropOffRate first = 0%float
      ∧ (if 0 <? fs_count first
         then fs_conversionRate second
              = PrimFloat.mul
                  (PrimFloat.div (double (fs_count second)) (double (fs_count first)))
                  100%float
              ∧ fs_dropOffRate second
                = PrimFloat.mul
                    (PrimFloat.div (double (fs_count first - fs_count second))
                       (double (fs_count first)))
                    100%float
         else fs_conversionRate second = 0%float ∧ fs_dropOffRate second = 0%float)
      ∧ (if 0 <? fs_count second
         then fs_conversionRate third
              = PrimFloat.mul
                  (PrimFloat.div (double (fs_count third)) (double (fs_count second)))
                  100%float
              ∧ fs_dropOffRate third
                = PrimFloat.mul
                    (PrimFloat.div (double (fs_count second - fs_count third))
                       (double (fs_count second)))
                    100%float
         else fs_conversionRate third = 0%float ∧ fs_dropOffRate third = 0%float).
Proof.
  intros double.
  unfold getFunnel, performanceOf, St.bind.
  pose proof (getPerformance_reads now formId days s) as Hreads.
  destruct (getPerformance h daysBefore now formId days s) as [perf s'].
  cbn [snd] in Hreads. subst s'. cbn [fst snd St.ret f_steps].
  split; [reflexivity|]. unfold funnelSteps.
  do 3 eexists. split; [reflexivity|].
  cbn [map fs_name fs_count fs_conversionRate fs_dropOffRate].
  split; [reflexivity|]. split; [reflexivity|].
  split; [reflexivity|]. split; [reflexivity|]. split.
  - destruct (0 <? p_views perf); split; reflexivity.
  - destruct (0 <? p_starts perf); split; reflexivity.
Qed.

(** The loop of [getPerformance] on two stores that agree on the days
    visited: the sums keep the distance of the accumulators. *)
Lemma sums_agree formId now days s s' :
  (∀ i, i ∈ days →
     aggregates s' !! ("aggregate:" +:+ formId +:+ ":" +:+ today h (daysBefore now i))
     = aggregates s !! ("aggregate:" +:+ formId +:+ ":" +:+ today h (daysBefore now i))
     ∧ revenues s' !! ("revenue:" +:+ formId +:+ ":" +:+ today h (daysBefore now i))
       = revenues s !! ("revenue:" +:+ formId +:+ ":" +:+ today h (daysBefore now i))) →
  ∀ acc acc',
    s_views (daySums h daysBefore formId now s' days acc')
    - s_views (daySums h daysBefore formId now s days acc)
    = s_views acc' - s_views acc
    ∧ s_starts (daySums h daysBefore formId now s' days acc')
      - s_starts (daySums h daysBefore formId now s days acc)
      = s_starts acc' - s_starts acc
    ∧ s_submissions (daySums h daysBefore formId now s' days acc')
      - s_submissions (daySums h daysBefore formId now s days acc)
      = s_submissions acc' - s_submissions acc
    ∧ s_successes (daySums h daysBefore formId now s' days acc')
      - s_successes (daySums h daysBefore formId now s days acc)
      = s_successes acc' - s_successes acc
    ∧ (s_revenue (daySums h daysBefore formId now s' days acc')
       - s_revenue (daySums h daysBefore formId now s days acc)
       == s_revenue acc' - s_revenue acc)%Q.
Proof.
  unfold daySums. induction days as [|i days IH]; intros Hagree acc acc'.
  - cbn [fold_left]. repeat split; reflexivity.
  - cbn [fold_left].
    destruct (Hagree i) as [-> ->]; [apply elem_of_cons; by left|].
    destruct (IH (λ j Hj, Hagree j (proj2 (elem_of_cons _ _ _) (or_intror Hj)))
                (addDay (aggregates s !! ("aggregate:" +:+ formId +:+ ":"
                                            +:+ today h (daysBefore now i)))
                   (revenues s !! ("revenue:" +:+ formId +:+ ":"
                                     +:+ today h (daysBefore now i))) acc)
                (addDay (aggregates s !! ("aggregate:" +:+ formId +:+ ":"
                                            +:+ today h (daysBefore now i)))
                   (revenues s !! ("revenue:" +:+ formId +:+ ":"
                                     +:+ today h (daysBefore now i))) acc'))
      as (Hv & Hst & Hsb & Hsc & Hrev).
    rewrite Hv, Hst, Hsb, Hsc, Hrev. clear.
    destruct (aggregates s !! _) as [agg|], (revenues s !! _) as [rev|];
      cbn [addDay s_views s_starts s_submissions s_successes s_revenue];
      repeat split; try lia; ring.
Qed.

Lemma dayKey_inj (prefix formId d1 d2 : string) :
  prefix +:+ formId +:+ ":" +:+ d1 = prefix +:+ formId +:+ ":" +:+ d2 → d1 = d2.
Proof.
  intros Heq. apply append_cancel in Heq. apply append_cancel in Heq.
  apply append_cancel in Heq. exact Heq.
Qed.

Lemma daySums_cons formId now s i days acc :
  daySums h daysBefore formId now s (i :: days) acc
  = daySums h daysBefore formId now s days
      (addDay
         (aggregates s !! ("aggregate:" +:+ formId +:+ ":" +:+ today h (daysBefore now i)))
         (revenues s !! ("revenue:" +:+ formId +:+ ":" +:+ today h (daysBefore now i)))
         acc).
Proof. reflexivity. Qed.

(** Two stores that differ at most under today's keys: the sums differ by
    what today's entries differ. *)
Lemma sums_today formId now days s s' acc :
  daysBefore now 0 = now →
  (∀ i, 0 < i < days → today h (daysBefore now i) ≠ today h now) →
  0 < days →
  (∀ k, k ≠ "aggregate:" +:+ formId +:+ ":" +:+ today h now →
        aggregates s' !! k = aggregates s !! k) →
  (∀ k, k ≠ "revenue:" +:+ formId +:+ ":" +:+ today h now →
        revenues s' !! k = revenues s !! k) →
  s_views (daySums h daysBefore formId now s' (seqZ 0 days) acc)
  - s_views (daySums h daysBefore formId now s (seqZ 0 days) acc)
  = default 0 (agg_views <$> aggregates s'
                 !! ("aggregate:" +:+ formId +:+ ":" +:+ today h now))
    - default 0 (agg_views <$> aggregates s
                   !! ("aggregate:" +:+ formId +:+ ":" +:+ today h now))
  ∧ s_starts (daySums h daysBefore formId now s' (seqZ 0 days) acc)
    - s_starts (daySums h daysBefore formId now s (seqZ 0 days) acc)
    = default 0 (agg_starts <$> aggregates s'
                   !! ("aggregate:" +:+ formId +:+ ":" +:+ today h now))
      - default 0 (agg_starts <$> aggregates s
                     !! ("aggregate:" +:+ formId +:+ ":" +:+ today h now))
  ∧ s_successes (daySums h daysBefore formId now s' (seqZ 0 days) acc)
    - s_successes (daySums h daysBefore formId now s (seqZ 0 days) acc)
    = default 0 (agg_successes <$> aggregates s'
                   !! ("aggregate:" +:+ formId +:+ ":" +:+ today h now))
      - default 0 (agg_successes <$> aggregates s
                     !! ("aggregate:" +:+ formId +:+ ":" +:+ today h now))
  ∧ (s_revenue (daySums h daysBefore formId now s' (seqZ 0 days) acc)
     - s_revenue (daySums h daysBefore formId now s (seqZ 0 days) acc)
     == default 0 (rev_total <$> revenues s'
                     !! ("revenue:" +:+ formId +:+ ":" +:+ today h now))
        - default 0 (rev_total <$> revenues s
                       !! ("revenue:" +:+ formId +:+ ":" +:+ today h now)))%Q.
Proof.
  intros Hzero Hdistinct Hdays Haggs Hrevs.
  rewrite seqZ_cons by exact Hdays. rewrite !daySums_cons, Hzero.
  assert (∀ i, i ∈ seqZ (Z.succ 0) (Z.pred days) →
            aggregates s' !! ("aggregate:" +:+ formId +:+ ":"
                                +:+ today h (daysBefore now i))
            = aggregates s !! ("aggregate:" +:+ formId +:+ ":"
                                 +:+ today h (daysBefore now i))
            ∧ revenues s' !! ("revenue:" +:+ formId +:+ ":"
                                +:+ today h (daysBefore now i))
              = revenues s !! ("revenue:" +:+ formId +:+ ":"
                                 +:+ today h (daysBefore now i))) as Hagree.
  { intros i Hi. apply elem_of_seqZ in Hi.
    assert (today h (daysBefore now i) ≠ today h now) as Hne
      by (apply Hdistinct; lia).
    split; [apply Haggs|apply Hrevs]; intros Heq; apply Hne;
      exact (dayKey_inj _ _ _ _ Heq). }
  destruct (sums_agree formId now _ s s' Hagree
              (addDay (aggregates s !! ("aggregate:" +:+ formId +:+ ":" +:+ today h now))
                 (revenues s !! ("revenue:" +:+ formId +:+ ":" +:+ today h now)) acc)
              (addDay (aggregates s' !! ("aggregate:" +:+ formId +:+ ":" +:+ today h now))
                 (revenues s' !! ("revenue:" +:+ formId +:+ ":" +:+ today h now)) acc))
    as (Hv & Hst & _ & Hsc & Hrev).
  rewrite Hv, Hst, Hsc, Hrev. clear.
  destruct (aggregates s' !! _) as [agg'|], (aggregates s !! _) as [agg|],
    (revenues s' !! _) as [rev'|], (revenues s !! _) as [rev|];
    cbn [addDay s_views s_starts s_submissions s_successes s_revenue fmap option_fmap
           option_map default];
    cbv [Datatypes.id]; repeat split; try lia; ring.
Qed.

Lemma trackEvent_run now event s :
  aggregates (snd (trackEvent h now event s))
  = <["aggregate:" +:+ ev_formId event +:+ ":" +:+ today h now :=
        countEvent (ev_eventType event)
          (default {| agg_views := 0; agg_starts := 0; agg_submits := 0;
                      agg_successes := 0; agg_errors := 0 |}
             (aggregates s !! ("aggregate:" +:+ ev_formId event +:+ ":"
                                 +:+ today h now)))]>
      (aggregates s)
  ∧ revenues (snd (trackEvent h now event s)) = revenues s
  ∧ events (snd (trackEvent h now event s))
    = <["event:" +:+ ev_formId event +:+ ":" +:+ ev_sessionId event +:+ ":"
          +:+ eventName (ev_eventType event) +:+ ":"
          +:+ numToString h (inject_Z (ev_timestamp event)) := event]> (events s).
Proof. repeat split. Qed.

(** X25. An event tracked today is counted once by [getPerformance] over a
    window of days that includes today: a view, a start or a success raises
    the views, the starts or the submissions by one, every other count and
    the revenue stay, and the event is stored under its key; submit, error
    and field events raise none of the three.  [trackSuccess] raises the
    submissions by one and, with a revenue that is not zero, the revenue
    generated by that amount. *)
Theorem tracked_event_is_counted now formId days event s :
  daysBefore now 0 = now →
  (∀ i, 0 < i < days → today h (daysBefore now i) ≠ today h now) →
  0 < days →
  ev_formId event = formId →
  p_views (performanceOf h daysBefore now formId days (snd (trackEvent h now event s)))
  = p_views (performanceOf h daysBefore now formId days s)
    + match ev_eventType event with e_view => 1 | _ => 0 end
  ∧ p_starts (performanceOf h daysBefore now formId days (snd (trackEvent h now event s)))
    = p_starts (performanceOf h daysBefore now formId days s)
      + match ev_eventType event with e_start => 1 | _ => 0 end
  ∧ p_submissions
      (performanceOf h daysBefore now formId days (snd (trackEvent h now event s)))
    = p_submissions (performanceOf h daysBefore now formId days s)
      + match ev_eventType event with e_success => 1 | _ => 0 end
  ∧ (p_revenueGenerated
       (performanceOf h daysBefore now formId days (snd (trackEvent h now event s)))
     == p_revenueGenerated (performanceOf h daysBefore now formId days s))%Q
  ∧ events (snd (trackEvent h now event s))
      !! ("event:" +:+ formId +:+ ":" +:+ ev_sessionId event +:+ ":"
            +:+ eventName (ev_eventType event) +:+ ":"
            +:+ numToString h (inject_Z (ev_timestamp event)))
    = Some event
  ∧ ∀ timestamp later sessionId userId revenue metadata,
      today h later = today h now →
      p_submissions
        (performanceOf h daysBefore now formId days
           (snd (trackSuccess h timestamp now later formId sessionId userId revenue
                   metadata s)))
      = p_submissions (performanceOf h daysBefore now formId days s) + 1
      ∧ (p_revenueGenerated
           (performanceOf h daysBefore now formId days
              (snd (trackSuccess h timestamp now later formId sessionId userId revenue
                      metadata s)))
         == p_revenueGenerated (performanceOf h daysBefore now formId days s)
            + (if truthyQ revenue then default 0 revenue else 0))%Q.
Proof.
  intros Hzero Hdistinct Hdays Hform.
  assert (∀ s', performanceOf h daysBefore now formId days s'
                = {| p_formId := formId;
                     p_views := s_views (daySums h daysBefore formId now s' (seqZ 0 days)
                                           {| s_views := 0; s_starts := 0;
                                              s_submissions := 0; s_successes := 0;
                                              s_revenue := 0 |});
                     p_starts := s_starts (daySums h daysBefore formId now s' (seqZ 0 days)
                                           {| s_views := 0; s_starts := 0;
                                              s_submissions := 0; s_successes := 0;
                                              s_revenue := 0 |});
                     p_submissions :=
                       s_successes (daySums h daysBefore formId now s' (seqZ 0 days)
                                           {| s_views := 0; s_starts := 0;
                                              s_submissions := 0; s_successes := 0;
                                              s_revenue := 0 |});
                     p_successRate :=
                       (let sums := daySums h daysBefore formId now s' (seqZ 0 days)
                                           {| s_views := 0; s_starts := 0;
                                              s_submissions := 0; s_successes := 0;
                                              s_revenue := 0 |} in
                        if 0 <? s_submissions sums
                        then percent (s_successes sums) (s_submissions sums)
                        else 0%float);
                     p_avgCompletionTime := 0;
                     p_revenueGenerated :=
                       s_revenue (daySums h daysBefore formId now s' (seqZ 0 days)
                                           {| s_views := 0; s_starts := 0;
                                              s_submissions := 0; s_successes := 0;
                                              s_revenue := 0 |});
                     p_topDropOffFields := [] |}) as Hperf.
  { intros s'. unfold performanceOf, getPerformance, St.bind.
    rewrite sumDays_run. reflexivity. }
  rewrite !Hperf.
  cbn [p_views p_starts p_submissions p_revenueGenerated].
  set (zero := {| s_views := 0; s_starts := 0; s_submissions := 0; s_successes := 0;
                  s_revenue := 0 |}).
  split; [|split; [|split; [|split; [|split]]]].
  1-4: destruct (trackEvent_run now event s) as (Haggs & Hrevs & _);
       destruct (sums_today formId now days s (snd (trackEvent h now event s)) zero
                   Hzero Hdistinct Hdays) as (Hv & Hst & Hsc & Hrev);
       [ intros k Hk; rewrite Haggs, Hform; apply lookup_insert_ne; congruence
       | intros k Hk; rewrite Hrevs; reflexivity
       | rewrite Haggs, Hrevs, Hform, lookup_insert_eq in *;
         destruct (aggregates s !! ("aggregate:" +:+ formId +:+ ":" +:+ today h now))
           as [agg|];
         destruct (ev_eventType event);
         cbn [fmap option_fmap option_map default countEvent agg_views agg_starts
                agg_successes] in *; cbv [Datatypes.id] in *;
         first [lia | lra] ].
  - destruct (trackEvent_run now event s) as (_ & _ & ->). rewrite Hform.
    apply lookup_insert_eq.
  - intros timestamp later sessionId userId revenue metadata Hlater.
    rewrite Hperf. cbn [p_submissions p_revenueGenerated]. fold zero.
    set (event' := {| ev_formId := formId; ev_sessionId := sessionId;
                      ev_userId := userId; ev_eventType := e_success;
                      ev_fieldName := None; ev_timestamp := timestamp;
                      ev_metadata := match revenue with
                                     | Some r => <["revenue" := JNum r]> metadata
                                     | None => delete "revenue" metadata
                                     end |}).
    assert (aggregates (snd (trackSuccess h timestamp now later formId sessionId userId
                               revenue metadata s))
            = aggregates (snd (trackEvent h now event' s))
            ∧ revenues (snd (trackSuccess h timestamp now later formId sessionId userId
                               revenue metadata s))
              = if truthyQ revenue
                then <["revenue:" +:+ formId +:+ ":" +:+ today h now :=
                         {| rev_total :=
                              (rev_total
                                 (default {| rev_total := 0; rev_count := 0 |}
                                    (revenues s !! ("revenue:" +:+ formId +:+ ":"
                                                      +:+ today h now)))
                               + default 0 revenue)%Q;
                            rev_count :=
                              rev_count
                                (default {| rev_total := 0; rev_count := 0 |}
                                   (revenues s !! ("revenue:" +:+ formId +:+ ":"
                                                     +:+ today h now))) + 1 |}]>
                       (revenues s)
                else revenues s) as [Haggs Hrevs].
    { assert (trackSuccess h timestamp now later formId sessionId userId revenue
                metadata s
              = (if truthyQ revenue
                 then trackRevenue h later formId (default 0%Q revenue)
                 else St.ret tt) (snd (trackEvent h now event' s))) as ->.
      { unfold trackSuccess. fold event'. unfold St.bind at 1.
        destruct (trackEvent h now event' s) as [[] s1]. reflexivity. }
      pose proof (trackEvent_run now event' s) as (_ & Hrevs1 & _).
      destruct (truthyQ revenue); [|split; [reflexivity|exact Hrevs1]].
      unfold trackRevenue, St.bind, St.gets, St.modify.
      cbn [snd putRevenue aggregates revenues]. rewrite Hlater, Hrevs1.
      split; reflexivity. }
    destruct (trackEvent_run now event' s) as (Haggs' & _ & _).
    rewrite Haggs' in Haggs. cbn [event' ev_formId ev_eventType] in Haggs.
    destruct (sums_today formId now days s
                (snd (trackSuccess h timestamp now later formId sessionId userId revenue
                        metadata s)) zero Hzero Hdistinct Hdays)
      as (_ & _ & Hsc & Hrev).
    + intros k Hk. rewrite Haggs. apply lookup_insert_ne. congruence.
    + intros k Hk. rewrite Hrevs. destruct (truthyQ revenue); [|reflexivity].
      apply lookup_insert_ne. congruence.
    + rewrite Haggs, lookup_insert_eq in Hsc. rewrite Hrevs in Hrev. clear Haggs Hrevs.
      set (amount := default 0%Q revenue) in *.
      split.
      * destruct (aggregates s !! ("aggregate:" +:+ formId +:+ ":" +:+ today h now))
          as [agg|];
          cbn [fmap option_fmap option_map default countEvent agg_successes] in Hsc;
          cbv [Datatypes.id] in Hsc; lia.
      * destruct (truthyQ revenue);
          rewrite ?lookup_insert_eq in Hrev;
          destruct (revenues s !! ("revenue:" +:+ formId +:+ ":" +:+ today h now))
            as [rev|];
          cbn [fmap option_fmap option_map default rev_total] in Hrev;
          cbv [Datatypes.id] in Hrev; lra.
Qed.

End TrackerFacts.

Lemma tracked_event_is_counted_witness :
  Conversion.p_views
    (Conversion.performanceOf Samples.host Samples.dayShift 1000 "f1" 2
       (snd (Conversion.trackEvent Samples.host 1000 Samples.viewEvent
               Samples.emptyTracker)))
  = Conversion.p_views
      (Conversion.performanceOf Samples.host Samples.dayShift 1000 "f1" 2
         Samples.emptyTracker) + 1.
Proof.
  assert (∀ i, 0 < i < 2 →
            Conversion.today Samples.host (Samples.dayShift 1000 i)
            ≠ Conversion.today Samples.host 1000) as Hdistinct.
  { intros i Hi. assert (i = 1) as -> by lia. vm_compute. discriminate. }
  destruct (tracked_event_is_counted Samples.host Samples.dayShift 1000 "f1" 2
              Samples.viewEvent Samples.emptyTracker eq_refl Hdistinct ltac:(lia) eq_refl)
    as [Hviews _].
  exact Hviews.
Defined.

(** Three views and one start: the conversion rate of Start is the double
    nearest to 33.33333333333333, its drop-off rate the double nearest to
    66.66666666666666, and their sum is the double nearest to
    99.99999999999999, not 100. *)
Example funnel_rates_sample :
  let steps :=
    Conversion.f_steps
      (fst (Conversion.getFunnel Samples.host Samples.dayShift 1000 1000 "f1" 1
              Samples.trackerWithViews)) in
  map Conversion.fs_count steps = [3; 1; 0]
  ∧ map Conversion.fs_conversionRate steps
    = [100%float; 0x1.0aaaaaaaaaaaap+5%float; 0%float]
  ∧ map Conversion.fs_dropOffRate steps
    = [0%float; 0x1.0aaaaaaaaaaaap+6%float; 100%float]
  ∧ PrimFloat.add 0x1.0aaaaaaaaaaaap+5 0x1.0aaaaaaaaaaaap+6 = 0x1.8ffffffffffffp+6%float
  ∧ 0x1.8ffffffffffffp+6%float ≠ 100%float.
Proof. vm_compute. repeat split. discriminate. Qed.
